(** * Safe-Remote-Signer: deny list, chain configuration and scan pipeline

    A shallow embedding of
      - [src/security/denyList.ts]   (module [DenyList]),
      - [src/config/chains.ts]       (module [Chains]),
      - [src/services/safeService.ts] and [src/bot.ts] (modules [Bot] and
        [Lifecycle]),
      - [src/config/index.ts] and [src/index.ts] (module [Startup]),
    together with the properties of the specification that concern them.

    Strings are Rocq [string]s, read as ASCII text: hexadecimal call data,
    addresses, selectors and chain lists are ASCII, and on ASCII the
    JavaScript primitives used by the source ([toLowerCase], [trim],
    [startsWith], [split], [parseInt]) are the functions of module [JS]. *)

From Stdlib Require Import ZArith List String Ascii Bool Lia.
Import ListNotations.
Open Scope string_scope.
Open Scope list_scope.

(* ------------------------------------------------------------------ *)
(** ** JavaScript string primitives on ASCII text                      *)
(* ------------------------------------------------------------------ *)

Module JS.

Definition isUpper (c : ascii) : bool :=
  let n := nat_of_ascii c in (65 <=? n)%nat && (n <=? 90)%nat.

Definition lowerChar (c : ascii) : ascii :=
  if isUpper c then ascii_of_nat (nat_of_ascii c + 32) else c.

(** [String.prototype.toLowerCase] *)
Fixpoint toLowerCase (s : string) : string :=
  match s with
  | EmptyString => EmptyString
  | String c r => String (lowerChar c) (toLowerCase r)
  end.

(** [s.startsWith(p)] *)
Definition startsWith (s p : string) : bool := String.prefix p s.

(** White space of [trim] and [parseInt]: TAB, LF, VT, FF, CR, SP. *)
Definition isWhite (c : ascii) : bool :=
  let n := nat_of_ascii c in
  ((9 <=? n)%nat && (n <=? 13)%nat) || (n =? 32)%nat.

Fixpoint trimStart (s : string) : string :=
  match s with
  | EmptyString => EmptyString
  | String c r => if isWhite c then trimStart r else s
  end.

Fixpoint trimEnd (s : string) : string :=
  match s with
  | EmptyString => EmptyString
  | String c r =>
      match trimEnd r with
      | EmptyString => if isWhite c then EmptyString else String c EmptyString
      | r' => String c r'
      end
  end.

(** [String.prototype.trim] *)
Definition trim (s : string) : string := trimEnd (trimStart s).

(** [s.split(sep)] for a one-character separator: never the empty list. *)
Fixpoint split (sep : ascii) (s : string) : list string :=
  match s with
  | EmptyString => [EmptyString]
  | String c r =>
      if Ascii.eqb c sep then EmptyString :: split sep r
      else match split sep r with
           | h :: t => String c h :: t
           | [] => [String c EmptyString]
           end
  end.

(** Truthiness of an optional string: [undefined] and the empty string
    are falsy. *)
Definition truthy (o : option string) : bool :=
  match o with
  | Some s => negb (String.eqb s EmptyString)
  | None => false
  end.

Definition isDigit (c : ascii) : bool :=
  let n := nat_of_ascii c in (48 <=? n)%nat && (n <=? 57)%nat.

Definition digitVal (c : ascii) : Z := Z.of_nat (nat_of_ascii c) - 48.

(** The longest prefix of decimal digits, read as a number; [seen] tells
    whether a digit has been read. *)
Fixpoint digits (s : string) (acc : Z) (seen : bool) : option Z :=
  match s with
  | EmptyString => if seen then Some acc else None
  | String c r =>
      if isDigit c then digits r (10 * acc + digitVal c) true
      else if seen then Some acc else None
  end.

(** [parseInt(s, 10)]: leading white space, an optional sign, then the
    longest run of decimal digits; [None] is NaN. *)
Definition parseInt (s : string) : option Z :=
  match trimStart s with
  | String "-" r => option_map Z.opp (digits r 0 false)
  | String "+" r => digits r 0 false
  | t => digits t 0 false
  end.

End JS.

(* ------------------------------------------------------------------ *)
(** ** The process environment                                         *)
(* ------------------------------------------------------------------ *)

(** The two variables of [process.env] read by the modelled code. *)
Record Env := mkEnv {
  ENABLED_CHAINS : option string;
  TRUSTED_DELEGATE_CONTRACTS : option string
}.

(* ------------------------------------------------------------------ *)
(** ** security/denyList.ts                                            *)
(* ------------------------------------------------------------------ *)

Module DenyList.

(** [MetaTransactionData]: [to] and [data] may be missing at run time
    (the source guards both), [operation] is optional; 0 is a call and
    1 a delegate call. *)
Record MetaTransactionData := mkTx {
  to : option string;
  value : string;
  data : option string;
  operation : option Z
}.

Record DenyListRule := mkRule {
  id : string;
  description : string;
  check : Env -> MetaTransactionData -> bool
}.

(** [sels.some(selector => tx.data?.toLowerCase().startsWith(selector.toLowerCase()))] *)
Definition someSelector (sels : list string) (tx : MetaTransactionData) : bool :=
  existsb
    (fun selector =>
       match data tx with
       | Some d => JS.startsWith (JS.toLowerCase d) (JS.toLowerCase selector)
       | None => false
       end)
    sels.

Definition addOwnerWithThreshold := "0x0d582f13".
Definition removeOwner := "0xf8dc5dd9".
Definition swapOwner := "0xe318b52b".
Definition changeThreshold := "0x694e80c3".
Definition enableModule := "0x610b5925".
Definition disableModule := "0xe009cfde".

Definition ownershipSelectors : list string :=
  [addOwnerWithThreshold; removeOwner; swapOwner; changeThreshold].
Definition thresholdSelectors : list string := [changeThreshold].
Definition moduleSelectors : list string := [enableModule; disableModule].

Definition SAFE_OWNERSHIP_TRANSFER : DenyListRule :=
  mkRule "SAFE_OWNERSHIP_TRANSFER"
         "Prevent Safe ownership transfer operations"
         (fun _ tx => someSelector ownershipSelectors tx).

Definition SAFE_THRESHOLD_CHANGE : DenyListRule :=
  mkRule "SAFE_THRESHOLD_CHANGE"
         "Prevent Safe threshold change operations"
         (fun _ tx => someSelector thresholdSelectors tx).

Definition SAFE_MODULE_MANAGEMENT : DenyListRule :=
  mkRule "SAFE_MODULE_MANAGEMENT"
         "Prevent Safe module management operations"
         (fun _ tx => someSelector moduleSelectors tx).

(** The allowlist read from [TRUSTED_DELEGATE_CONTRACTS]: split at commas,
    every entry trimmed and lower-cased; empty when the variable is unset
    or the empty string. *)
Definition trustedDelegateContracts (env : Env) : list string :=
  match TRUSTED_DELEGATE_CONTRACTS env with
  | Some s =>
      if String.eqb s EmptyString then []
      else map (fun addr => JS.toLowerCase (JS.trim addr)) (JS.split "," s)
  | None => []
  end.

(** [list.includes(x)] *)
Definition includes (l : list string) (x : string) : bool :=
  existsb (String.eqb x) l.

(** [tx.operation !== 1] *)
Definition notDelegateCall (tx : MetaTransactionData) : bool :=
  match operation tx with
  | Some op => negb (Z.eqb op 1)
  | None => true
  end.

Definition delegateCallCheck (env : Env) (tx : MetaTransactionData) : bool :=
  if notDelegateCall tx then false
  else
    let trusted := trustedDelegateContracts env in
    if (List.length trusted =? 0)%nat then true
    else if JS.truthy (to tx)
            && negb (includes trusted
                       (JS.toLowerCase (match to tx with Some t => t | None => EmptyString end)))
    then true
    else false.

Definition DELEGATE_CALL_RESTRICTION : DenyListRule :=
  mkRule "DELEGATE_CALL_RESTRICTION"
         "Prevent delegate calls to untrusted contracts"
         delegateCallCheck.

Definition DENY_LIST_RULES : list DenyListRule :=
  [SAFE_OWNERSHIP_TRANSFER; SAFE_THRESHOLD_CHANGE;
   SAFE_MODULE_MANAGEMENT; DELEGATE_CALL_RESTRICTION].

(** The class [DenyListChecker]: its only field is the rule list. *)
Record DenyListChecker := mkChecker { rules : list DenyListRule }.

Definition newChecker (customRules : list DenyListRule) : DenyListChecker :=
  mkChecker (DENY_LIST_RULES ++ customRules).

Record Decision := mkDecision { denied : bool; reasons : list string }.

(** The template string [`${rule.id}: ${rule.description}`]. *)
Definition reasonOf (rule : DenyListRule) : string :=
  (id rule ++ ": " ++ description rule)%string.

Definition isDenied (c : DenyListChecker) (env : Env)
           (transaction : MetaTransactionData) : Decision :=
  let deniedRules := filter (fun rule => check rule env transaction) (rules c) in
  mkDecision (0 <? List.length deniedRules)%nat (map reasonOf deniedRules).

Definition addRule (c : DenyListChecker) (rule : DenyListRule) : DenyListChecker :=
  mkChecker (rules c ++ [rule]).

Definition removeRule (c : DenyListChecker) (ruleId : string) : DenyListChecker :=
  mkChecker (filter (fun rule => negb (String.eqb (id rule) ruleId)) (rules c)).

Definition getRules (c : DenyListChecker) : list DenyListRule := rules c.

End DenyList.

(* ------------------------------------------------------------------ *)
(** ** Results of fallible code                                        *)
(* ------------------------------------------------------------------ *)

(** A JavaScript exception. [ServiceError] is raised by an external
    call, [TypeError] by a method call on [undefined], [Error msg] by
    [throw new Error(msg)]. *)
Inductive Exn :=
| ServiceError
| TypeError
| Error (msg : string).

Inductive Result (A : Type) :=
| Ok (a : A)
| Throw (e : Exn).
Arguments Ok {A} a.
Arguments Throw {A} e.

(* ------------------------------------------------------------------ *)
(** ** config/chains.ts                                                *)
(* ------------------------------------------------------------------ *)

Module Chains.

(** Chain identifiers of [viem/chains], and of the hand-written [sonic]. *)
Definition mainnet : Z := 1.
Definition polygon : Z := 137.
Definition arbitrum : Z := 42161.
Definition optimism : Z := 10.
Definition gnosis : Z := 100.
Definition base : Z := 8453.
Definition sonic : Z := 146.

(** The keys of the record [CHAIN_CONFIGS]; the chain objects behind them
    (names, endpoints) are not read by the modelled code. *)
Definition CHAIN_CONFIGS : list Z :=
  [mainnet; polygon; arbitrum; optimism; gnosis; base; sonic].

(** Truthiness of [CHAIN_CONFIGS[chainId]]; [None] is NaN. *)
Definition hasConfig (chainId : option Z) : bool :=
  match chainId with
  | Some n => existsb (Z.eqb n) CHAIN_CONFIGS
  | None => false
  end.

(** [getEnabledChains]: the entries of [ENABLED_CHAINS] that parse to a
    supported chain, or Ethereum and Polygon when the variable is unset
    or empty. *)
Definition getEnabledChains (env : Env) : list (option Z) :=
  if negb (JS.truthy (ENABLED_CHAINS env)) then [Some mainnet; Some polygon]
  else
    let enabledChains :=
      match ENABLED_CHAINS env with Some s => s | None => EmptyString end in
    filter hasConfig
           (map (fun chainId => JS.parseInt (JS.trim chainId))
                (JS.split "," enabledChains)).

(** The list [unsupportedChains] computed by [validateEnabledChains]. *)
Definition unsupportedChains (env : Env) : list (option Z) :=
  filter (fun chainId => negb (hasConfig chainId)) (getEnabledChains env).

Definition validateEnabledChains (env : Env) : Result unit :=
  let enabledChains := getEnabledChains env in
  if (0 <? List.length (unsupportedChains env))%nat
  then Throw (Error "Unsupported chain IDs")
  else if (List.length enabledChains =? 0)%nat
  then Throw (Error "No enabled chains configured")
  else Ok tt.

Definition getChainConfig (chainId : Z) : Result Z :=
  if hasConfig (Some chainId) then Ok chainId
  else Throw (Error "Unsupported chain ID").

End Chains.

(* ------------------------------------------------------------------ *)
(** ** services/safeService.ts and bot.ts                              *)
(* ------------------------------------------------------------------ *)

Module Bot.

(** *** Data of the transaction service *)

Record Confirmation := mkConfirmation { owner : string }.

(** The fields of [SafeMultisigTransactionResponse] that the code reads.
    The nonce, which is copied and never read again, is left out. *)
Record SafeMultisigTransactionResponse := mkSafeTx {
  tx_safeTxHash : string;
  tx_to : option string;
  tx_value : string;
  tx_data : option string;
  tx_operation : option Z;
  tx_confirmationsRequired : option Z;
  tx_confirmations : option (list Confirmation)
}.

Record SafeMessage := mkSafeMessage {
  msg_messageHash : string;
  msg_confirmations : option (list Confirmation)
}.

Record PendingTransaction := mkPendingTransaction {
  pt_chainId : Z;
  pt_safeTxHash : string;
  pt_transaction : SafeMultisigTransactionResponse;
  pt_confirmationsRequired : Z;
  pt_confirmations : nat
}.

Record PendingMessage := mkPendingMessage {
  pm_chainId : Z;
  pm_messageHash : string;
  pm_message : SafeMessage;
  pm_confirmationsRequired : Z;
  pm_confirmations : nat
}.

(** *** What a run does to the outside: calls with their answers, logs *)

Inductive LogEntry :=
| LogText (text : string)
| LogApiCall (completed : bool) (operation : string) (chainId : Z)
| LogNoApiKit (chainId : Z)
| LogChainEvent (chainId : Z) (event : string) (count : nat)
| LogFetchFailed (what : string) (chainId : Z)
| LogTransactionEvent (chainId : Z) (safeTxHash event : string)
                      (reasons : list string)
| LogMessageEvent (chainId : Z) (messageHash event : string)
| LogSignFailed (chainId : Z) (hash : string)
| LogProcessFailed (what : string) (chainId : Z) (hash : string)
| LogFound (what : string) (count : nat)
| LogProcessed (transactions messages : nat).

(** An external call is recorded with its answer; [None] and [false] are
    a raised exception. *)
Inductive Event :=
| GetPendingTransactions (chainId : Z)
    (answer : option (list SafeMultisigTransactionResponse))
| GetMessages (chainId : Z) (answer : option (list SafeMessage))
| SignHash (chainId : Z) (hash : string) (answer : option string)
| ConfirmTransaction (chainId : Z) (safeTxHash signature : string) (ok : bool)
| AddMessageSignature (chainId : Z) (messageHash signature : string) (ok : bool)
| Delay (ms : Z)
| Log (entry : LogEntry).

(** The transaction service and the protocol kit, as seen by the bot: a
    state of the outside world and the answer of every call in it. *)
Record Service (W : Type) := mkService {
  getPendingTransactions_api :
    Z -> W -> option (list SafeMultisigTransactionResponse) * W;
  getMessages_api : Z -> W -> option (list SafeMessage) * W;
  signHash_kit : Z -> string -> W -> option string * W;
  confirmTransaction_api : Z -> string -> string -> W -> bool * W;
  addMessageSignature_api : Z -> string -> string -> W -> bool * W
}.
Arguments mkService {W}.
Arguments getPendingTransactions_api {W}.
Arguments getMessages_api {W}.
Arguments signHash_kit {W}.
Arguments confirmTransaction_api {W}.
Arguments addMessageSignature_api {W}.

(** *** The monad of the asynchronous code: world state, exceptions and
    the events of the run, in order *)

Definition M (W A : Type) : Type := W -> Result A * W * list Event.

Definition ret {W A} (a : A) : M W A := fun w => (Ok a, w, []).

Definition bind {W A B} (m : M W A) (f : A -> M W B) : M W B :=
  fun w =>
    match m w with
    | (Ok a, w1, t1) =>
        match f a w1 with (r, w2, t2) => (r, w2, t1 ++ t2) end
    | (Throw e, w1, t1) => (Throw e, w1, t1)
    end.

Definition throw {W A} (e : Exn) : M W A := fun w => (Throw e, w, []).

Definition tryCatch {W A} (m : M W A) (handler : Exn -> M W A) : M W A :=
  fun w =>
    match m w with
    | (Ok a, w1, t1) => (Ok a, w1, t1)
    | (Throw e, w1, t1) =>
        match handler e w1 with (r, w2, t2) => (r, w2, t1 ++ t2) end
    end.

Definition emit {W} (e : Event) : M W unit := fun w => (Ok tt, w, [e]).

Definition log {W} (entry : LogEntry) : M W unit := emit (Log entry).

Notation "x <- c1 ;; c2" := (bind c1 (fun x => c2))
  (at level 61, c1 at next level, right associativity).
Notation "c1 ;; c2" := (bind c1 (fun _ => c2))
  (at level 61, right associativity).

(** [for (const x of xs) body], the loop's variables threaded as [acc]. *)
Fixpoint forOf {W A S} (xs : list A) (body : A -> S -> M W S) (acc : S)
  : M W S :=
  match xs with
  | [] => ret acc
  | x :: rest => acc' <- body x acc ;; forOf rest body acc'
  end.

Definition trace {W A} (r : Result A * W * list Event) : list Event := snd r.
Definition result {W A} (r : Result A * W * list Event) : Result A :=
  fst (fst r).

(** *** The class [SafeService] *)

(** The maps [safeApiKits] and [safeProtocolKits] are kept as their key
    lists: the kits themselves are the [Service] above. [signerAddress]
    is [this.signer.getAddress()]. *)
Record SafeService := mkSafeService {
  safeAddress : string;
  signerAddress : string;
  denyListChecker : DenyList.DenyListChecker;
  enabledChains : list Z;
  safeApiKits : list Z;
  safeProtocolKits : list Z
}.

(** [map.get(chainId)] is not [undefined] *)
Definition hasKey (keys : list Z) (chainId : Z) : bool :=
  existsb (Z.eqb chainId) keys.

(** [xs[xs.length - 1]] *)
Definition lastOf (xs : list Z) : option Z :=
  match xs with
  | [] => None
  | x :: rest => Some (last rest x)
  end.

(** [chainId !== this.enabledChains[this.enabledChains.length - 1]] *)
Definition notLast (svc : SafeService) (chainId : Z) : bool :=
  match lastOf (enabledChains svc) with
  | Some l => negb (Z.eqb chainId l)
  | None => true
  end.

(** [confirmations?.length || 0] *)
Definition confirmationCount (cs : option (list Confirmation)) : nat :=
  match cs with
  | Some l => List.length l
  | None => 0
  end.

(** [hasAlreadySigned] and [hasAlreadySignedMessage]: both are
    [confirmations?.some(c => c.owner.toLowerCase() === signerAddress) || false]
    with [signerAddress] the lower-cased address of the signer. *)
Definition signedBy (svc : SafeService) (cs : option (list Confirmation)) : bool :=
  let signerAddress := JS.toLowerCase (signerAddress svc) in
  match cs with
  | Some l =>
      existsb (fun confirmation =>
                 String.eqb (JS.toLowerCase (owner confirmation)) signerAddress) l
  | None => false
  end.

Definition hasAlreadySigned (svc : SafeService)
           (transaction : SafeMultisigTransactionResponse) : bool :=
  signedBy svc (tx_confirmations transaction).

Definition hasAlreadySignedMessage (svc : SafeService) (message : SafeMessage)
  : bool :=
  signedBy svc (msg_confirmations message).

(** The entry pushed for one transaction of the answer. *)
Definition pendingTx (chainId : Z) (tx : SafeMultisigTransactionResponse)
  : PendingTransaction :=
  mkPendingTransaction
    chainId (tx_safeTxHash tx) tx
    (match tx_confirmationsRequired tx with
     | Some n => if Z.eqb n 0 then 1%Z else n
     | None => 1%Z
     end)
    (confirmationCount (tx_confirmations tx)).

(** The entry pushed for one message of the answer. *)
Definition pendingMsg (chainId : Z) (message : SafeMessage) : PendingMessage :=
  mkPendingMessage chainId (msg_messageHash message) message 2
                   (confirmationCount (msg_confirmations message)).

(** [confirmationsNeeded > 0] with
    [confirmationsNeeded = 2 - (message.confirmations?.length || 0)] *)
Definition needsConfirmations (message : SafeMessage) : bool :=
  (0 <? 2 - Z.of_nat (confirmationCount (msg_confirmations message)))%Z.

Section Pipeline.

Context {W : Type}.
Variable api : Service W.
Variable env : Env.

(** *** External calls *)

Definition callGetPendingTransactions (chainId : Z)
  : M W (list SafeMultisigTransactionResponse) :=
  fun w =>
    match getPendingTransactions_api api chainId w with
    | (Some l, w') => (Ok l, w', [GetPendingTransactions chainId (Some l)])
    | (None, w') => (Throw ServiceError, w', [GetPendingTransactions chainId None])
    end.

Definition callGetMessages (chainId : Z) : M W (list SafeMessage) :=
  fun w =>
    match getMessages_api api chainId w with
    | (Some l, w') => (Ok l, w', [GetMessages chainId (Some l)])
    | (None, w') => (Throw ServiceError, w', [GetMessages chainId None])
    end.

Definition callSignHash (chainId : Z) (hash : string) : M W string :=
  fun w =>
    match signHash_kit api chainId hash w with
    | (Some sig, w') => (Ok sig, w', [SignHash chainId hash (Some sig)])
    | (None, w') => (Throw ServiceError, w', [SignHash chainId hash None])
    end.

Definition callConfirmTransaction (chainId : Z) (safeTxHash signature : string)
  : M W unit :=
  fun w =>
    match confirmTransaction_api api chainId safeTxHash signature w with
    | (true, w') => (Ok tt, w', [ConfirmTransaction chainId safeTxHash signature true])
    | (false, w') =>
        (Throw ServiceError, w', [ConfirmTransaction chainId safeTxHash signature false])
    end.

Definition callAddMessageSignature (chainId : Z) (messageHash signature : string)
  : M W unit :=
  fun w =>
    match addMessageSignature_api api chainId messageHash signature w with
    | (true, w') =>
        (Ok tt, w', [AddMessageSignature chainId messageHash signature true])
    | (false, w') =>
        (Throw ServiceError, w', [AddMessageSignature chainId messageHash signature false])
    end.

(** [rateLimitedApiCall]. Within one scan cycle every call is awaited
    before the next is made, so the limiter admits each call at once. *)
Definition rateLimitedApiCall {A} (apiCall : M W A) (operation : string)
           (chainId : Z) : M W A :=
  tryCatch
    (result <- apiCall ;;
     log (LogApiCall true operation chainId) ;;
     ret result)
    (fun error =>
       log (LogApiCall false operation chainId) ;;
       throw error).

(** *** [getPendingTransactions] *)

(** One turn of the loop over [enabledChains], [acc] being
    [allPendingTransactions]. *)
Definition fetchTransactions (svc : SafeService) (chainId : Z)
           (acc : list PendingTransaction) : M W (list PendingTransaction) :=
  tryCatch
    (if negb (hasKey (safeApiKits svc) chainId) then
       log (LogNoApiKit chainId) ;;
       ret acc
     else
       pendingTxs <- rateLimitedApiCall (callGetPendingTransactions chainId)
                                        "getPendingTransactions" chainId ;;
       log (LogChainEvent chainId "pending_transactions_fetched"
                          (List.length pendingTxs)) ;;
       (if notLast svc chainId then emit (Delay 250) else ret tt) ;;
       ret (acc ++ map (pendingTx chainId) pendingTxs))
    (fun error =>
       log (LogFetchFailed "transactions" chainId) ;;
       ret acc).

Definition getPendingTransactions (svc : SafeService)
  : M W (list PendingTransaction) :=
  forOf (enabledChains svc) (fetchTransactions svc) [].

(** *** [getPendingMessages] *)

Definition fetchMessages (svc : SafeService) (chainId : Z)
           (acc : list PendingMessage) : M W (list PendingMessage) :=
  tryCatch
    (if negb (hasKey (safeApiKits svc) chainId) then
       ret acc
     else
       messages <- rateLimitedApiCall (callGetMessages chainId)
                                      "getMessages" chainId ;;
       log (LogChainEvent chainId "pending_messages_fetched"
                          (List.length messages)) ;;
       (if notLast svc chainId then emit (Delay 250) else ret tt) ;;
       ret (acc ++ map (pendingMsg chainId) (filter needsConfirmations messages)))
    (fun error =>
       log (LogFetchFailed "messages" chainId) ;;
       ret acc).

Definition getPendingMessages (svc : SafeService) : M W (list PendingMessage) :=
  forOf (enabledChains svc) (fetchMessages svc) [].

(** *** [signTransaction], [processTransaction], [processMessage] *)

Definition signTransaction (svc : SafeService) (safeTxHash : string)
           (chainId : Z) : M W string :=
  if negb (hasKey (safeProtocolKits svc) chainId) then
    throw (Error "No Safe protocol kit for chain")
  else
    tryCatch
      (callSignHash chainId safeTxHash)
      (fun error =>
         log (LogSignFailed chainId safeTxHash) ;;
         throw error).

(** The argument of [isDenied] built by [processTransaction];
    [transaction.data || "0x"] replaces missing or empty call data. *)
Definition metaTransaction (transaction : SafeMultisigTransactionResponse)
  : DenyList.MetaTransactionData :=
  DenyList.mkTx
    (tx_to transaction)
    (tx_value transaction)
    (Some (if JS.truthy (tx_data transaction)
           then match tx_data transaction with
                | Some d => d
                | None => EmptyString
                end
           else "0x"))
    (tx_operation transaction).

Definition processTransaction (svc : SafeService) (pendingTx : PendingTransaction)
  : M W bool :=
  let chainId := pt_chainId pendingTx in
  let safeTxHash := pt_safeTxHash pendingTx in
  let transaction := pt_transaction pendingTx in
  tryCatch
    (log (LogTransactionEvent chainId safeTxHash "processing_started" []) ;;
     if hasAlreadySigned svc transaction then
       log (LogTransactionEvent chainId safeTxHash "already_signed" []) ;;
       ret false
     else
       let denyCheck :=
         DenyList.isDenied (denyListChecker svc) env (metaTransaction transaction) in
       if DenyList.denied denyCheck then
         log (LogTransactionEvent chainId safeTxHash "denied"
                                  (DenyList.reasons denyCheck)) ;;
         ret false
       else
         signature <- signTransaction svc safeTxHash chainId ;;
         rateLimitedApiCall
           (if hasKey (safeApiKits svc) chainId
            then callConfirmTransaction chainId safeTxHash signature
            else throw TypeError)
           "confirmTransaction" chainId ;;
         log (LogTransactionEvent chainId safeTxHash "signed_and_submitted" []) ;;
         ret true)
    (fun error =>
       log (LogProcessFailed "transaction" chainId safeTxHash) ;;
       log (LogTransactionEvent chainId safeTxHash "processing_failed" []) ;;
       ret false).

Definition processMessage (svc : SafeService) (pendingMsg : PendingMessage)
  : M W bool :=
  let chainId := pm_chainId pendingMsg in
  let messageHash := pm_messageHash pendingMsg in
  let message := pm_message pendingMsg in
  tryCatch
    (log (LogMessageEvent chainId messageHash "Processing message") ;;
     if hasAlreadySignedMessage svc message then
       log (LogMessageEvent chainId messageHash "Already signed message") ;;
       ret false
     else if negb (hasKey (safeProtocolKits svc) chainId) then
       throw (Error "No Safe protocol kit for chain")
     else
       signature <- callSignHash chainId messageHash ;;
       rateLimitedApiCall
         (if hasKey (safeApiKits svc) chainId
          then callAddMessageSignature chainId messageHash signature
          else throw TypeError)
         "addMessageSignature" chainId ;;
       log (LogMessageEvent chainId messageHash "Signed and submitted message") ;;
       ret true)
    (fun error =>
       log (LogProcessFailed "message" chainId messageHash) ;;
       ret false).

(** *** [SafeRemoteSigner.scanAndProcess] (bot.ts) *)

(** [if (processed) count++] *)
Definition count (processed : bool) (n : nat) : nat :=
  if processed then S n else n.

Definition processTransactions (svc : SafeService)
           (pendingTransactions : list PendingTransaction) : M W nat :=
  forOf pendingTransactions
        (fun pendingTx processedCount =>
           processed <- processTransaction svc pendingTx ;;
           ret (count processed processedCount))
        0.

Definition processMessages (svc : SafeService)
           (pendingMessages : list PendingMessage) : M W nat :=
  forOf pendingMessages
        (fun pendingMsg processedMessageCount =>
           processed <- processMessage svc pendingMsg ;;
           ret (count processed processedMessageCount))
        0.

Definition scanAndProcess (svc : SafeService) : M W unit :=
  tryCatch
    (log (LogText "Starting scan for pending transactions and messages...") ;;
     pendingTransactions <- getPendingTransactions svc ;;
     log (LogFound "transactions" (List.length pendingTransactions)) ;;
     processedCount <- processTransactions svc pendingTransactions ;;
     pendingMessages <- getPendingMessages svc ;;
     log (LogFound "messages" (List.length pendingMessages)) ;;
     processedMessageCount <- processMessages svc pendingMessages ;;
     if (0 <? processedCount)%nat || (0 <? processedMessageCount)%nat then
       log (LogProcessed processedCount processedMessageCount)
     else
       log (LogText "No transactions or messages processed in this cycle"))
    (fun error => log (LogText "Error during scan and process")).

End Pipeline.

(** *** [SafeRemoteSigner]'s constructor (bot.ts) *)

(** The two statements that open the constructor: the validation, then
    the field [enabledChains]. The signer and the service are built after
    them. *)
Definition constructor (env : Env) : Result (list (option Z)) :=
  match Chains.validateEnabledChains env with
  | Ok _ => Ok (Chains.getEnabledChains env)
  | Throw e => Throw e
  end.

(** *** Reading a run *)

(** A pending item, by kind, network and hash. *)
Inductive Item :=
| TxItem (chainId : Z) (safeTxHash : string)
| MsgItem (chainId : Z) (messageHash : string).

Definition txItem (p : PendingTransaction) : Item :=
  TxItem (pt_chainId p) (pt_safeTxHash p).

Definition msgItem (p : PendingMessage) : Item :=
  MsgItem (pm_chainId p) (pm_messageHash p).

(** The items whose processing the run started, in order. *)
Definition startedBy (e : Event) : list Item :=
  match e with
  | Log (LogTransactionEvent c h ev _) =>
      if String.eqb ev "processing_started" then [TxItem c h] else []
  | Log (LogMessageEvent c h ev) =>
      if String.eqb ev "Processing message" then [MsgItem c h] else []
  | _ => []
  end.
Definition processed (t : list Event) : list Item := flat_map startedBy t.

(** The pending transactions of the answers the run received, in order. *)
Definition pendingIn (e : Event) : list PendingTransaction :=
  match e with
  | GetPendingTransactions c (Some l) => map (pendingTx c) l
  | _ => []
  end.
Definition pendingOf (t : list Event) : list PendingTransaction :=
  flat_map pendingIn t.

(** The messages of the answers that still need confirmations, in order. *)
Definition pendingMessagesIn (e : Event) : list PendingMessage :=
  match e with
  | GetMessages c (Some l) => map (pendingMsg c) (filter needsConfirmations l)
  | _ => []
  end.
Definition pendingMessagesOf (t : list Event) : list PendingMessage :=
  flat_map pendingMessagesIn t.

(** The networks asked for their pending transactions, and for their
    messages, in order. *)
Definition transactionCall (e : Event) : list Z :=
  match e with GetPendingTransactions c _ => [c] | _ => [] end.
Definition transactionCalls (t : list Event) : list Z := flat_map transactionCall t.

Definition messageCall (e : Event) : list Z :=
  match e with GetMessages c _ => [c] | _ => [] end.
Definition messageCalls (t : list Event) : list Z := flat_map messageCall t.

(** The items for which a signature was asked or an approval submitted. *)
Definition approval (e : Event) : list Item :=
  match e with
  | ConfirmTransaction c h _ _ => [TxItem c h]
  | AddMessageSignature c h _ _ => [MsgItem c h]
  | _ => []
  end.
Definition approvals (t : list Event) : list Item := flat_map approval t.

Definition signature (e : Event) : list (Z * string) :=
  match e with SignHash c h _ => [(c, h)] | _ => [] end.
Definition signatures (t : list Event) : list (Z * string) := flat_map signature t.

(** The pending items that the operator has not signed yet. *)
Definition unsignedTransactions (svc : SafeService)
           (ps : list PendingTransaction) : list PendingTransaction :=
  filter (fun p => negb (hasAlreadySigned svc (pt_transaction p))) ps.

Definition unsignedMessages (svc : SafeService) (ps : list PendingMessage)
  : list PendingMessage :=
  filter (fun p => negb (hasAlreadySignedMessage svc (pm_message p))) ps.

Definition keyOf (i : Item) : Z * string :=
  match i with TxItem c h => (c, h) | MsgItem c h => (c, h) end.

Definition isMessage (i : Item) : bool :=
  match i with MsgItem _ _ => true | TxItem _ _ => false end.

End Bot.

(* ------------------------------------------------------------------ *)
(** ** The words of the specification                                  *)
(* ------------------------------------------------------------------ *)

Module Spec.

(** Two characters that differ at most in case. *)
Definition sameLetter (a b : ascii) : bool :=
  Ascii.eqb (JS.lowerChar a) (JS.lowerChar b).

(** "A case-insensitive prefix match against the start of the call data":
    [p] is, up to case, a prefix of [s]. *)
Fixpoint prefixIgnoringCase (p s : string) : bool :=
  match p, s with
  | EmptyString, _ => true
  | String a p', String b s' => sameLetter a b && prefixIgnoringCase p' s'
  | String _ _, EmptyString => false
  end.

(** The call data is present and starts, up to case, with one of [sels]. *)
Definition startsWithSelector (sels : list string)
           (tx : DenyList.MetaTransactionData) : Prop :=
  exists d sel,
    DenyList.data tx = Some d /\ In sel sels /\ prefixIgnoringCase sel d = true.

(** Some selector of [sels] is, up to case, a prefix of the call data. *)
Definition matchesSelector (sels : list string)
           (tx : DenyList.MetaTransactionData) : bool :=
  match DenyList.data tx with
  | Some d => existsb (fun sel => prefixIgnoringCase sel d) sels
  | None => false
  end.

(** The three rules that look at the selector. *)
Definition selectorRules : list DenyList.DenyListRule :=
  [DenyList.SAFE_OWNERSHIP_TRANSFER; DenyList.SAFE_THRESHOLD_CHANGE;
   DenyList.SAFE_MODULE_MANAGEMENT].

(** The selectors the specification lists for the ownership-transfer rule:
    add-owner, remove-owner and swap-owner. *)
Definition ownerSelectors : list string :=
  [DenyList.addOwnerWithThreshold; DenyList.removeOwner; DenyList.swapOwner].

Definition isDelegateCall (tx : DenyList.MetaTransactionData) : Prop :=
  DenyList.operation tx = Some 1%Z.

(** The target address of [tx] is, up to case, an entry of the
    allowlist. *)
Definition targetTrusted (trusted : list string)
           (tx : DenyList.MetaTransactionData) : Prop :=
  exists t e,
    DenyList.to tx = Some t /\ In e trusted
    /\ JS.toLowerCase t = JS.toLowerCase e.

(** The target address is missing or the empty string. *)
Definition noTarget (tx : DenyList.MetaTransactionData) : Prop :=
  DenyList.to tx = None \/ DenyList.to tx = Some EmptyString.

(** The delegate-call rule as the specification words it. *)
Definition delegateRuleAsSpecified (env : Env)
           (tx : DenyList.MetaTransactionData) : Prop :=
  isDelegateCall tx /\
  (DenyList.trustedDelegateContracts env = [] \/
   ~ targetTrusted (DenyList.trustedDelegateContracts env) tx).

(** "One reason per triggered rule, in rule-list order": [out] lists the
    reasons of exactly the rules of [rs] that trigger on [tx]. *)
Inductive Collected (env : Env) (tx : DenyList.MetaTransactionData)
  : list DenyList.DenyListRule -> list string -> Prop :=
| Collected_nil : Collected env tx [] []
| Collected_hit r rs out :
    DenyList.check r env tx = true ->
    Collected env tx rs out ->
    Collected env tx (r :: rs) (DenyList.reasonOf r :: out)
| Collected_miss r rs out :
    DenyList.check r env tx = false ->
    Collected env tx rs out ->
    Collected env tx (r :: rs) out.

(** The address [signer] is among the approvers [cs], compared without
    regard to case. *)
Definition approvedBy (signer : string) (cs : option (list Bot.Confirmation))
  : Prop :=
  exists l c,
    cs = Some l /\ In c l
    /\ JS.toLowerCase (Bot.owner c) = JS.toLowerCase signer.

(** [l1] is [l2] with some elements left out. *)
Inductive Subseq {A : Type} : list A -> list A -> Prop :=
| Subseq_nil : Subseq [] []
| Subseq_keep x l1 l2 : Subseq l1 l2 -> Subseq (x :: l1) (x :: l2)
| Subseq_drop x l1 l2 : Subseq l1 l2 -> Subseq l1 (x :: l2).

(** "Never approved twice", within one run: no item occurs twice among
    the approvals submitted. *)
Definition approvedAtMostOnce (t : list Bot.Event) : Prop :=
  NoDup (Bot.approvals t).

Definition isTransactionOf (c : Z) (i : Bot.Item) : bool :=
  match i with Bot.TxItem c' _ => Z.eqb c' c | Bot.MsgItem _ _ => false end.

Definition isMessageOf (c : Z) (i : Bot.Item) : bool :=
  match i with Bot.MsgItem c' _ => Z.eqb c' c | Bot.TxItem _ _ => false end.

(** "Network by network": the items are processed in the order of the
    networks, for each network its transactions and then its messages,
    before any item of the next network. *)
Definition perNetworkOrder (chains : list Z) (items : list Bot.Item) : Prop :=
  items =
  flat_map (fun c => filter (isTransactionOf c) items
                     ++ filter (isMessageOf c) items)
           chains.

End Spec.

(* ------------------------------------------------------------------ *)
(** ** Concrete inputs                                                 *)
(* ------------------------------------------------------------------ *)

Module Examples.

Definition noEnv : Env := mkEnv None None.

Definition trustingEnv : Env := mkEnv None (Some "0xAbC1, 0xdef2").

(** A call of [changeThreshold(2)]. *)
Definition changeThresholdTx : DenyList.MetaTransactionData :=
  DenyList.mkTx
    (Some "0x1111111111111111111111111111111111111111") "0"
    (Some "0x694e80c30000000000000000000000000000000000000000000000000000000000000002")
    (Some 0%Z).

(** A call of [addOwnerWithThreshold], selector in upper case. *)
Definition addOwnerTx : DenyList.MetaTransactionData :=
  DenyList.mkTx
    (Some "0x1111111111111111111111111111111111111111") "0"
    (Some "0x0D582F13000000000000000000000000")
    (Some 0%Z).

(** A delegate call whose target is the empty string. *)
Definition delegateNoTargetTx : DenyList.MetaTransactionData :=
  DenyList.mkTx (Some EmptyString) "0" (Some "0x") (Some 1%Z).

(** A delegate call to a target outside [trustingEnv]'s allowlist. *)
Definition delegateUntrustedTx : DenyList.MetaTransactionData :=
  DenyList.mkTx (Some "0x9999") "0" (Some "0x") (Some 1%Z).

(** A plain call without call data. *)
Definition plainTx : DenyList.MetaTransactionData :=
  DenyList.mkTx (Some "0x9999") "1" None (Some 0%Z).

(** The operator, and a vault watched on Ethereum and Polygon. *)
Definition operator : string := "0xAbCdEf0123456789aBcDeF0123456789AbCdEf01".

Definition service : Bot.SafeService :=
  Bot.mkSafeService "0x5afe" operator (DenyList.newChecker [])
                    [1; 137]%Z [1; 137]%Z [1; 137]%Z.

Definition transfer (hash : string) (approvers : list string)
  : Bot.SafeMultisigTransactionResponse :=
  Bot.mkSafeTx hash (Some "0x9999") "1" None (Some 0%Z) (Some 2%Z)
               (Some (map Bot.mkConfirmation approvers)).

Definition message (hash : string) (approvers : list string) : Bot.SafeMessage :=
  Bot.mkSafeMessage hash (Some (map Bot.mkConfirmation approvers)).

(** A transaction already approved by the operator, whose address the
    service reports in lower case. *)
Definition approvedTransfer : Bot.PendingTransaction :=
  Bot.pendingTx 1 (transfer "0xa2" ["0xabcdef0123456789abcdef0123456789abcdef01"]).

Definition approvedMessage : Bot.PendingMessage :=
  Bot.pendingMsg 1 (message "0xc2" ["0xABCDEF0123456789ABCDEF0123456789ABCDEF01"]).

(** A message approved by two other owners. *)
Definition fullMessage : Bot.SafeMessage := message "0xc3" ["0x01"; "0x02"].

(** A transaction service without state: one transaction and one message
    wait on each of the two networks; every signature and submission
    succeeds. *)
Definition answers : Bot.Service unit :=
  Bot.mkService
    (fun c w =>
       (if Z.eqb c 1 then Some [transfer "0xa1" []]
        else if Z.eqb c 137 then Some [transfer "0xb1" []]
        else None, w))
    (fun c w =>
       (if Z.eqb c 1 then Some [message "0xc1" []; fullMessage]
        else if Z.eqb c 137 then Some [message "0xd1" ["0x01"]]
        else None, w))
    (fun _ _ w => (Some "0x5160", w))
    (fun _ _ _ w => (true, w))
    (fun _ _ _ w => (true, w)).

(** The same service with Ethereum unreachable. *)
Definition answersWithoutEthereum : Bot.Service unit :=
  Bot.mkService
    (fun c w =>
       if Z.eqb c 1 then (None, w) else Bot.getPendingTransactions_api answers c w)
    (fun c w =>
       if Z.eqb c 1 then (None, w) else Bot.getMessages_api answers c w)
    (Bot.signHash_kit answers)
    (Bot.confirmTransaction_api answers)
    (Bot.addMessageSignature_api answers).

(** The same vault with Ethereum listed twice among the enabled chains. *)
Definition serviceListingEthereumTwice : Bot.SafeService :=
  Bot.mkSafeService "0x5afe" operator (DenyList.newChecker [])
                    [1; 1]%Z [1]%Z [1]%Z.

(** A chain list naming Ethereum and an unknown network. *)
Definition mixedChainsEnv : Env := mkEnv (Some "1,999") None.

(** A chain list without any entry. *)
Definition emptyChainsEnv : Env := mkEnv (Some ",") None.

End Examples.

(* ------------------------------------------------------------------ *)
(** ** The life of the bot: [SafeService.initialize], [getSafeInfo] and
       the public methods of [SafeRemoteSigner] (bot.ts)               *)
(* ------------------------------------------------------------------ *)

Module Lifecycle.

(** The constructors and calls of the libraries used outside the scan;
    [false] and [None] are a raised exception. *)
Record Platform (W : Type) := mkPlatform {
  createPublicClient_viem : Z -> W -> bool * W;
  newSafeApiKit_ctor : Z -> W -> bool * W;
  safeInit_kit : Z -> W -> bool * W;
  newCronJob_ctor : Z -> W -> bool * W;
  cronStop_job : Z -> W -> bool * W;
  getSafeInfo_api : Z -> W -> option string * W
}.
Arguments mkPlatform {W}.
Arguments createPublicClient_viem {W}.
Arguments newSafeApiKit_ctor {W}.
Arguments safeInit_kit {W}.
Arguments newCronJob_ctor {W}.
Arguments cronStop_job {W}.
Arguments getSafeInfo_api {W}.

Inductive Event :=
| CreatePublicClient (chainId : Z) (ok : bool)
| NewSafeApiKit (chainId : Z) (ok : bool)
| SafeInit (chainId : Z) (ok : bool)
| NewCronJob (seconds : Z) (ok : bool)
| CronStop (seconds : Z) (ok : bool)
| GetSafeInfo (chainId : Z) (answer : option string)
| Scan (e : Bot.Event)
| LogInitialized (chainId : Z)
| LogInitFailed (chainId : Z)
| LogSafeInfoFailed (chainId : option Z)
| Log (entry : Bot.LogEntry).

(** The object [SafeRemoteSigner] with its [SafeService]; [providers] is
    the third map of the service, [pollingJob] holds the seconds of the
    cron pattern of the running job. *)
Record SafeRemoteSigner := mkBot {
  safeService : Bot.SafeService;
  providers : list Z;
  isRunning : bool;
  pollingJob : option Z;
  enabledChains : list (option Z)
}.

(** A method: it may change the object and the outside, raise, and leaves
    the events of its run. A change made before a [throw] stays. *)
Definition L (W A : Type) : Type :=
  SafeRemoteSigner -> W -> Result A * SafeRemoteSigner * W * list Event.

Definition ret {W A} (a : A) : L W A := fun b w => (Ok a, b, w, []).

Definition bind {W A B} (m : L W A) (f : A -> L W B) : L W B :=
  fun b w =>
    match m b w with
    | (Ok a, b1, w1, t1) =>
        match f a b1 w1 with (r, b2, w2, t2) => (r, b2, w2, t1 ++ t2) end
    | (Throw e, b1, w1, t1) => (Throw e, b1, w1, t1)
    end.

Definition throw {W A} (e : Exn) : L W A := fun b w => (Throw e, b, w, []).

Definition tryCatch {W A} (m : L W A) (handler : Exn -> L W A) : L W A :=
  fun b w =>
    match m b w with
    | (Ok a, b1, w1, t1) => (Ok a, b1, w1, t1)
    | (Throw e, b1, w1, t1) =>
        match handler e b1 w1 with (r, b2, w2, t2) => (r, b2, w2, t1 ++ t2) end
    end.

Definition emit {W} (e : Event) : L W unit := fun b w => (Ok tt, b, w, [e]).

Definition log {W} (text : string) : L W unit := emit (Log (Bot.LogText text)).

Definition this {W} : L W SafeRemoteSigner := fun b w => (Ok b, b, w, []).

Definition update {W} (f : SafeRemoteSigner -> SafeRemoteSigner) : L W unit :=
  fun b w => (Ok tt, f b, w, []).

Notation "x <- c1 ;; c2" := (bind c1 (fun x => c2))
  (at level 61, c1 at next level, right associativity).
Notation "c1 ;; c2" := (bind c1 (fun _ => c2))
  (at level 61, right associativity).

(** [for (const x of xs) body] *)
Fixpoint forEach {W A} (xs : list A) (body : A -> L W unit) : L W unit :=
  match xs with
  | [] => ret tt
  | x :: rest => body x ;; forEach rest body
  end.

(** A library call that answers [ok] or raises. *)
Definition call {W} (f : W -> bool * W) (ev : bool -> Event) : L W unit :=
  fun b w =>
    match f w with
    | (true, w') => (Ok tt, b, w', [ev true])
    | (false, w') => (Throw ServiceError, b, w', [ev false])
    end.

(** A piece of the scan pipeline run on the bot's service. *)
Definition scan {W A} (m : Bot.SafeService -> Bot.M W A) : L W A :=
  fun b w =>
    match m (safeService b) w with
    | (r, w', t) => (r, b, w', map Scan t)
    end.

(** [map.set(chainId, _)] on the key list of a map. *)
Definition setKey (keys : list Z) (chainId : Z) : list Z :=
  if Bot.hasKey keys chainId then keys else keys ++ [chainId].

Definition setProvider (chainId : Z) (b : SafeRemoteSigner) : SafeRemoteSigner :=
  mkBot (safeService b) (setKey (providers b) chainId)
        (isRunning b) (pollingJob b) (enabledChains b).

Definition setSafeApiKit (chainId : Z) (b : SafeRemoteSigner) : SafeRemoteSigner :=
  let s := safeService b in
  mkBot (Bot.mkSafeService (Bot.safeAddress s) (Bot.signerAddress s)
                           (Bot.denyListChecker s) (Bot.enabledChains s)
                           (setKey (Bot.safeApiKits s) chainId)
                           (Bot.safeProtocolKits s))
        (providers b) (isRunning b) (pollingJob b) (enabledChains b).

Definition setSafeProtocolKit (chainId : Z) (b : SafeRemoteSigner)
  : SafeRemoteSigner :=
  let s := safeService b in
  mkBot (Bot.mkSafeService (Bot.safeAddress s) (Bot.signerAddress s)
                           (Bot.denyListChecker s) (Bot.enabledChains s)
                           (Bot.safeApiKits s)
                           (setKey (Bot.safeProtocolKits s) chainId))
        (providers b) (isRunning b) (pollingJob b) (enabledChains b).

Definition setRunning (running : bool) (b : SafeRemoteSigner) : SafeRemoteSigner :=
  mkBot (safeService b) (providers b) running (pollingJob b) (enabledChains b).

Definition setPollingJob (job : option Z) (b : SafeRemoteSigner)
  : SafeRemoteSigner :=
  mkBot (safeService b) (providers b) (isRunning b) job (enabledChains b).

(** [Math.ceil(ms / 1000)] for an integer [ms]. *)
Definition ceilSeconds (ms : Z) : Z := (- ((- ms) / 1000))%Z.

(** One entry of the array returned by [getSafeInfoForAllChains]. *)
Inductive SafeInfoEntry :=
| InfoOf (chainId : option Z) (safeInfo : string)
| ErrorOf (chainId : option Z) (error : Exn).

Record Status := mkStatus {
  st_isRunning : bool;
  st_signerAddress : option string;
  st_enabledChains : list (option Z);
  st_safeAddress : string;
  st_pollingInterval : Z
}.

Section Methods.

Context {W : Type}.
Variable platform : Platform W.
Variable api : Bot.Service W.
Variable env : Env.
(** [config.pollingInterval] *)
Variable pollingInterval : Z.

(** *** [SafeService.initialize] *)

(** One turn of the loop over the enabled chains. *)
Definition initializeChain (chainId : Z) : L W unit :=
  tryCatch
    (match Chains.getChainConfig chainId with
     | Ok _ => ret tt
     | Throw e => throw e
     end ;;
     call (createPublicClient_viem platform chainId) (CreatePublicClient chainId) ;;
     update (setProvider chainId) ;;
     call (newSafeApiKit_ctor platform chainId) (NewSafeApiKit chainId) ;;
     update (setSafeApiKit chainId) ;;
     call (safeInit_kit platform chainId) (SafeInit chainId) ;;
     update (setSafeProtocolKit chainId) ;;
     emit (LogInitialized chainId))
    (fun error =>
       emit (LogInitFailed chainId) ;;
       throw error).

Definition serviceInitialize : L W unit :=
  log "Initializing Safe services for chains:" ;;
  b <- this ;;
  forEach (Bot.enabledChains (safeService b)) initializeChain ;;
  log "Safe services initialized".

(** *** [SafeService.getSafeInfo] *)

Definition getSafeInfo (chainId : option Z) : L W string :=
  b <- this ;;
  match chainId with
  | Some c =>
      if Bot.hasKey (Bot.safeApiKits (safeService b)) c then
        tryCatch
          (fun b w =>
             match getSafeInfo_api platform c w with
             | (Some info, w') =>
                 (Ok info, b, w',
                  [GetSafeInfo c (Some info);
                   Log (Bot.LogApiCall true "getSafeInfo" c)])
             | (None, w') => (Throw ServiceError, b, w', [GetSafeInfo c None])
             end)
          (fun error =>
             emit (Log (Bot.LogApiCall false "getSafeInfo" c)) ;;
             throw error)
      else throw (Error "No Safe API kit for chain")
  | None => throw (Error "No Safe API kit for chain")
  end.

(** *** [SafeRemoteSigner] *)

Definition initialize : L W unit :=
  tryCatch
    (log "Initializing Safe Remote Signer Bot..." ;;
     log "Bot will sign with address" ;;
     serviceInitialize ;;
     log "Safe Remote Signer initialized" ;;
     log "Safe Remote Signer Bot initialized successfully")
    (fun error =>
       log "Failed to initialize bot:" ;;
       throw error).

(** The job is created started; its later firings, each a run of
    [scanAndProcess], come from the timer and are not part of a method. *)
Definition startPolling : L W unit :=
  let intervalInSeconds := ceilSeconds pollingInterval in
  call (newCronJob_ctor platform intervalInSeconds) (NewCronJob intervalInSeconds) ;;
  update (setPollingJob (Some intervalInSeconds)) ;;
  log "Polling started with interval".

Definition scanAndProcess : L W unit :=
  scan (Bot.scanAndProcess api env).

Definition start : L W unit :=
  b <- this ;;
  if isRunning b then
    log "Bot is already running"
  else
    tryCatch
      (initialize ;;
       startPolling ;;
       update (setRunning true) ;;
       log "Safe Remote Signer Bot started successfully" ;;
       scanAndProcess)
      (fun error =>
         log "Failed to start bot:" ;;
         throw error).

Definition stop : L W unit :=
  b <- this ;;
  if negb (isRunning b) then
    log "Bot is not running"
  else
    tryCatch
      ((match pollingJob b with
        | Some job =>
            call (cronStop_job platform job) (CronStop job) ;;
            update (setPollingJob None)
        | None => ret tt
        end) ;;
       update (setRunning false) ;;
       log "Safe Remote Signer Bot stopped")
      (fun error =>
         log "Failed to stop bot:" ;;
         throw error).

Definition getStatus (b : SafeRemoteSigner) : Status :=
  mkStatus (isRunning b)
           (if isRunning b then Some (Bot.signerAddress (safeService b)) else None)
           (enabledChains b)
           (Bot.safeAddress (safeService b))
           pollingInterval.

Definition triggerScan : L W unit :=
  b <- this ;;
  if negb (isRunning b) then
    throw (Error "Bot is not running. Start the bot first.")
  else
    log "Manual scan triggered" ;;
    scanAndProcess.

(** One turn of the loop of [getSafeInfoForAllChains], [acc] being
    [safeInfos]. *)
Definition safeInfoOf (chainId : option Z) (acc : list SafeInfoEntry)
  : L W (list SafeInfoEntry) :=
  tryCatch
    (safeInfo <- getSafeInfo chainId ;;
     ret (acc ++ [InfoOf chainId safeInfo]))
    (fun error =>
       emit (LogSafeInfoFailed chainId) ;;
       ret (acc ++ [ErrorOf chainId error])).

Fixpoint safeInfosFrom (chains : list (option Z)) (acc : list SafeInfoEntry)
  : L W (list SafeInfoEntry) :=
  match chains with
  | [] => ret acc
  | chainId :: rest => acc' <- safeInfoOf chainId acc ;; safeInfosFrom rest acc'
  end.

Definition getSafeInfoForAllChains : L W (list SafeInfoEntry) :=
  b <- this ;;
  safeInfosFrom (enabledChains b) [].

(** *** Sequences of calls from outside *)

Inductive Call := CallStart | CallStop | CallTriggerScan.

Definition perform (c : Call) : L W unit :=
  match c with
  | CallStart => start
  | CallStop => stop
  | CallTriggerScan => triggerScan
  end.

(** The calls made one after the other, each awaited; a raised exception
    is the caller's and does not stop the calls after it. *)
Fixpoint performAll (cs : list Call) (b : SafeRemoteSigner) (w : W)
  : SafeRemoteSigner * W * list Event :=
  match cs with
  | [] => (b, w, [])
  | c :: rest =>
      match perform c b w with
      | (_, b1, w1, t1) =>
          match performAll rest b1 w1 with
          | (b2, w2, t2) => (b2, w2, t1 ++ t2)
          end
      end
  end.

End Methods.

(** The scan events of a run. *)
Definition scanned (t : list Event) : list Bot.Event :=
  flat_map (fun e => match e with Scan e' => [e'] | _ => [] end) t.

(** The chains for which a library constructor was called. *)
Definition constructed (t : list Event) : list Z :=
  flat_map (fun e => match e with
                     | CreatePublicClient c _ => [c]
                     | NewSafeApiKit c _ => [c]
                     | SafeInit c _ => [c]
                     | _ => []
                     end) t.

Definition chainOf (e : SafeInfoEntry) : option Z :=
  match e with InfoOf c _ => c | ErrorOf c _ => c end.

(** Every key of [keys] is a key of [keys']. *)
Definition keysKept (keys keys' : list Z) : Prop :=
  forall c, Bot.hasKey keys c = true -> Bot.hasKey keys' c = true.

(** [b'] is [b] with, at most, more kits and providers. *)
Definition sameButKits (b b' : SafeRemoteSigner) : Prop :=
  Bot.safeAddress (safeService b') = Bot.safeAddress (safeService b)
  /\ Bot.signerAddress (safeService b') = Bot.signerAddress (safeService b)
  /\ Bot.denyListChecker (safeService b') = Bot.denyListChecker (safeService b)
  /\ Bot.enabledChains (safeService b') = Bot.enabledChains (safeService b)
  /\ isRunning b' = isRunning b
  /\ pollingJob b' = pollingJob b
  /\ enabledChains b' = enabledChains b
  /\ keysKept (providers b) (providers b')
  /\ keysKept (Bot.safeApiKits (safeService b)) (Bot.safeApiKits (safeService b'))
  /\ keysKept (Bot.safeProtocolKits (safeService b))
              (Bot.safeProtocolKits (safeService b')).

(** The chain has its provider and both kits. *)
Definition ready (b : SafeRemoteSigner) (c : Z) : Prop :=
  Bot.hasKey (providers b) c = true
  /\ Bot.hasKey (Bot.safeApiKits (safeService b)) c = true
  /\ Bot.hasKey (Bot.safeProtocolKits (safeService b)) c = true.

(** A polling job exists exactly while the bot is running. *)
Definition consistent (b : SafeRemoteSigner) : Prop :=
  isRunning b = true <-> pollingJob b <> None.

End Lifecycle.

(* ------------------------------------------------------------------ *)
(** ** Counting in strings and runs                                    *)
(* ------------------------------------------------------------------ *)

Module Measure.

(** The occurrences of [sep] in [s]. *)
Fixpoint occurrences (sep : ascii) (s : string) : nat :=
  match s with
  | EmptyString => 0
  | String c r => (if Ascii.eqb c sep then 1 else 0) + occurrences sep r
  end.

(** The approvals of transactions, and of messages, that the service
    accepted. *)
Definition acceptedTransaction (e : Bot.Event) : bool :=
  match e with Bot.ConfirmTransaction _ _ _ true => true | _ => false end.

Definition acceptedMessage (e : Bot.Event) : bool :=
  match e with Bot.AddMessageSignature _ _ _ true => true | _ => false end.

Definition accepted (f : Bot.Event -> bool) (t : list Bot.Event) : nat :=
  List.length (filter f t).

(** The pauses of a run. *)
Definition isDelay (e : Bot.Event) : bool :=
  match e with Bot.Delay _ => true | _ => false end.

(** The answered fetches of a run for a chain that is not the last
    enabled one. *)
Definition answeredBeforeLast (svc : Bot.SafeService) (e : Bot.Event) : bool :=
  match e with
  | Bot.GetPendingTransactions c (Some _) => Bot.notLast svc c
  | Bot.GetMessages c (Some _) => Bot.notLast svc c
  | _ => false
  end.

(** The selectors of the three selector rules together. *)
Definition allSelectors : list string :=
  DenyList.ownershipSelectors ++ DenyList.moduleSelectors.

(** The events a fetch loop can leave, and those a processing loop can
    leave. *)
Definition isFetchEvent (e : Bot.Event) : bool :=
  match e with
  | Bot.GetPendingTransactions _ _ | Bot.GetMessages _ _
  | Bot.Delay _ | Bot.Log _ => true
  | _ => false
  end.

Definition isProcessEvent (e : Bot.Event) : bool :=
  match e with
  | Bot.SignHash _ _ _ | Bot.ConfirmTransaction _ _ _ _
  | Bot.AddMessageSignature _ _ _ _ | Bot.Log _ => true
  | _ => false
  end.

(** The last log entry of a scan cycle that processed [n] transactions
    and [m] messages. *)
Definition summary (n m : nat) : Bot.Event :=
  Bot.Log (if (0 <? n)%nat || (0 <? m)%nat
           then Bot.LogProcessed n m
           else Bot.LogText "No transactions or messages processed in this cycle").

End Measure.

(* ------------------------------------------------------------------ *)
(** ** More concrete inputs                                            *)
(* ------------------------------------------------------------------ *)

Module MoreExamples.

(** A pending [addOwnerWithThreshold] call on Ethereum, not yet approved
    by the operator. *)
Definition addOwnerPending : Bot.PendingTransaction :=
  Bot.pendingTx 1
    (Bot.mkSafeTx "0xe1" (Some "0x5afe") "0"
                  (Some "0x0d582f13000000000000000000000000") (Some 0%Z)
                  (Some 2%Z) (Some [])).

(** Libraries that never fail. *)
Definition platform : Lifecycle.Platform unit :=
  Lifecycle.mkPlatform
    (fun _ w => (true, w)) (fun _ w => (true, w)) (fun _ w => (true, w))
    (fun _ w => (true, w)) (fun _ w => (true, w))
    (fun _ w => (Some "info", w)).

(** The same libraries with a polling job that cannot be stopped. *)
Definition platformWithStuckJob : Lifecycle.Platform unit :=
  Lifecycle.mkPlatform
    (fun _ w => (true, w)) (fun _ w => (true, w)) (fun _ w => (true, w))
    (fun _ w => (true, w)) (fun _ w => (false, w))
    (fun _ w => (Some "info", w)).

(** The bot as its constructor leaves it: no kit, not running. *)
Definition fresh (chains : list Z) : Lifecycle.SafeRemoteSigner :=
  Lifecycle.mkBot
    (Bot.mkSafeService "0x5afe" Examples.operator (DenyList.newChecker [])
                       chains [] [])
    [] false None (map Some chains).

(** A bot that was started. *)
Definition running : Lifecycle.SafeRemoteSigner :=
  Lifecycle.mkBot Examples.service [1; 137]%Z true (Some 30%Z)
                  [Some 1%Z; Some 137%Z].

End MoreExamples.

(* ------------------------------------------------------------------ *)
(** ** ASCII text                                                      *)
(* ------------------------------------------------------------------ *)

Module Text.

(** Every character of [s] is an ASCII character. On such text the
    functions of module [JS] are the JavaScript primitives; beyond it,
    [trim] and [parseInt] also skip the Unicode spaces and [toLowerCase]
    maps more letters. *)
Fixpoint isAscii (s : string) : bool :=
  match s with
  | EmptyString => true
  | String c r => (nat_of_ascii c <? 128)%nat && isAscii r
  end.

End Text.

(* ------------------------------------------------------------------ *)
(** ** What the networks answer                                        *)
(* ------------------------------------------------------------------ *)

Module Asked.

(** The networks the service holds a client for, in the order of the
    enabled networks. *)
Definition chainsWithClient (svc : Bot.SafeService) : list Z :=
  filter (Bot.hasKey (Bot.safeApiKits svc)) (Bot.enabledChains svc).

(** Asking the networks [cs] one after the other, from the state [w] of
    the outside: every network with what it answers, [None] when the call
    raises, and the state that the calls leave. *)
Fixpoint askEach {W A : Type} (ask : Z -> W -> option A * W) (cs : list Z)
         (w : W) : list (Z * option A) * W :=
  match cs with
  | [] => ([], w)
  | c :: rest =>
      match ask c w with
      | (a, w1) =>
          match askEach ask rest w1 with
          | (l, w2) => ((c, a) :: l, w2)
          end
      end
  end.

(** The pending transactions that the answers hold: all those of a
    network that answered, in the order of the answer, and none for a
    network whose call raised. *)
Definition transactionsIn
           (answers : list (Z * option (list Bot.SafeMultisigTransactionResponse)))
  : list Bot.PendingTransaction :=
  flat_map (fun ca =>
              match snd ca with
              | Some l => map (Bot.pendingTx (fst ca)) l
              | None => []
              end)
           answers.

(** A message with fewer than two confirmations. *)
Definition fewConfirmations (m : Bot.SafeMessage) : bool :=
  (Bot.confirmationCount (Bot.msg_confirmations m) <? 2)%nat.

(** The pending messages that the answers hold: those with fewer than two
    confirmations of a network that answered, and none for a network
    whose call raised. *)
Definition messagesIn (answers : list (Z * option (list Bot.SafeMessage)))
  : list Bot.PendingMessage :=
  flat_map (fun ca =>
              match snd ca with
              | Some l => map (Bot.pendingMsg (fst ca)) (filter fewConfirmations l)
              | None => []
              end)
           answers.

End Asked.

(* ------------------------------------------------------------------ *)
(** ** Startup: config/index.ts, the constructors and index.ts         *)
(* ------------------------------------------------------------------ *)

Module Startup.

Fixpoint allDigits (s : string) : bool :=
  match s with
  | EmptyString => true
  | String c r => JS.isDigit c && allDigits r
  end.

(** The number written by a run of decimal digits. *)
Fixpoint numeral (s : string) (acc : Z) : Z :=
  match s with
  | EmptyString => acc
  | String c r => numeral r (10 * acc + JS.digitVal c)
  end.

(** [Number(s)] where it is an exact integer read off the text: for [s] a
    run of at most fifteen decimal digits, which is below 2^53; the empty
    text gives 0. [None] is not NaN: it stands for every other text
    (signs, fractions, exponents, other bases, longer numerals, text that
    is no number), whose conversion is not modelled. *)
Definition Number (s : string) : option Z :=
  if allDigits s && (String.length s <=? 15)%nat then Some (numeral s 0)
  else None.

(** [entries.map(Number)], when every entry is in the modelled part. *)
Fixpoint numbers (entries : list string) : option (list Z) :=
  match entries with
  | [] => Some []
  | entry :: rest =>
      match Number entry, numbers rest with
      | Some n, Some l => Some (n :: l)
      | _, _ => None
      end
  end.

(** The values Joi gives to the keys of the schema other than
    [ENABLED_CHAINS], as far as the modelled code reads them. *)
Record Settings := mkSettings {
  SAFE_ADDRESS : string;
  PRIVATE_KEY : string;
  POLLING_INTERVAL : Z
}.

(** The fields of [Config] read by the modelled code. *)
Record Config := mkConfig {
  safeAddress : string;
  enabledChains : list string;
  privateKey : string;
  pollingInterval : Z
}.

(** The libraries used while the process starts: Joi's verdict on the
    other keys of the environment, [None] when it refuses one of them,
    and viem's [privateKeyToAccount], which gives the address of the key
    or raises ([None]). *)
Record Libraries := mkLibraries {
  otherKeys_joi : option Settings;
  privateKeyToAccount_viem : string -> option string
}.

(** How the process ends up: the configuration module throws while the
    modules load and [main] is never entered; [main] catches an error
    and calls [process.exit(code)]; [main] returns and the bot runs. *)
Inductive Outcome (W : Type) :=
| ImportFailed (error : Exn)
| Exited (code : Z) (w : W) (t : list Lifecycle.Event)
| Running (bot : Lifecycle.SafeRemoteSigner) (w : W) (t : list Lifecycle.Event)
| NotModelled.
Arguments ImportFailed {W} error.
Arguments Exited {W} code w t.
Arguments Running {W} bot w t.
Arguments NotModelled {W}.

Definition logged (text : string) : Lifecycle.Event :=
  Lifecycle.Log (Bot.LogText text).

(** The polling jobs created in a run. *)
Definition jobs (t : list Lifecycle.Event) : list Z :=
  flat_map (fun e => match e with
                     | Lifecycle.NewCronJob seconds _ => [seconds]
                     | _ => []
                     end) t.

Section Main.

Context {W : Type}.
Variable platform : Lifecycle.Platform W.
Variable api : Bot.Service W.
Variable env : Env.
Variable libraries : Libraries.

(** [validateConfig], run when config/index.ts is loaded. The key
    [ENABLED_CHAINS] is [Joi.string().required()], which refuses a missing
    value and the empty string and changes no other value. *)
Definition validateConfig : Result Config :=
  match ENABLED_CHAINS env, otherKeys_joi libraries with
  | Some chains, Some value =>
      if String.eqb chains EmptyString
      then Throw (Error "Configuration validation error")
      else Ok (mkConfig (SAFE_ADDRESS value)
                        (map (fun chain => JS.trim chain) (JS.split "," chains))
                        (PRIVATE_KEY value)
                        (POLLING_INTERVAL value))
  | _, _ => Throw (Error "Configuration validation error")
  end.

(** [new SimpleSigner(config)]: the address of the signer. *)
Definition newSimpleSigner (config : Config)
  : Result string * list Lifecycle.Event :=
  match privateKeyToAccount_viem libraries (privateKey config) with
  | Some address => (Ok address, [logged "SimpleSigner initialized"])
  | None =>
      (Throw (Error "Invalid private key provided"),
       [logged "Failed to initialize SimpleSigner:"])
  end.

(** [new SafeService(signer, config)], [chainNumbers] being
    [config.enabledChains.map(Number)]. *)
Definition newSafeService (signerAddress : string) (config : Config)
           (chainNumbers : list Z) : Bot.SafeService * list Lifecycle.Event :=
  (Bot.mkSafeService (safeAddress config) signerAddress
                     (DenyList.newChecker []) chainNumbers [] [],
   [logged "SafeService initialized"]).

(** [new SafeRemoteSigner()] *)
Definition construct (config : Config) (chainNumbers : list Z)
  : Result Lifecycle.SafeRemoteSigner * list Lifecycle.Event :=
  match Bot.constructor env with
  | Throw error => (Throw error, [])
  | Ok enabledChains =>
      match newSimpleSigner config with
      | (Throw error, t) => (Throw error, t)
      | (Ok signerAddress, t) =>
          match newSafeService signerAddress config chainNumbers with
          | (safeService, t') =>
              (Ok (Lifecycle.mkBot safeService [] false None enabledChains),
               t ++ t')
          end
      end
  end.

(** index.ts: the modules are loaded, then [main] builds the bot and
    starts it, and exits with code 1 on any error. *)
Definition main (w : W) : Outcome W :=
  match validateConfig with
  | Throw error => ImportFailed error
  | Ok config =>
      match numbers (enabledChains config) with
      | None => NotModelled
      | Some chainNumbers =>
          let starting := logged "Starting Safe Remote Signer Bot..." in
          match construct config chainNumbers with
          | (Throw error, t) =>
              Exited 1 w (starting :: t ++ [logged "Failed to start bot:"])
          | (Ok bot, t) =>
              match Lifecycle.start platform api env (pollingInterval config)
                                    bot w with
              | (Ok _, bot', w', t') =>
                  Running bot' w'
                          (starting :: t ++ t'
                           ++ [logged "Bot is running. Press Ctrl+C to stop."])
              | (Throw error, _, w', t') =>
                  Exited 1 w'
                         (starting :: t ++ t' ++ [logged "Failed to start bot:"])
              end
          end
      end
  end.

End Main.

End Startup.

(* ------------------------------------------------------------------ *)
(** ** Concrete inputs of a startup                                    *)
(* ------------------------------------------------------------------ *)

Module StartupExamples.

(** An environment that Joi accepts, and a key that viem accepts. *)
Definition libraries : Startup.Libraries :=
  Startup.mkLibraries
    (Some (Startup.mkSettings
             "0x5afe"
             "0x0000000000000000000000000000000000000000000000000000000000000001"
             30000))
    (fun _ => Some Examples.operator).

(** The configuration made of [Examples.mixedChainsEnv]. *)
Definition mixedConfig : Startup.Config :=
  Startup.mkConfig
    "0x5afe" ["1"; "999"]
    "0x0000000000000000000000000000000000000000000000000000000000000001"
    30000.

End StartupExamples.

(* ------------------------------------------------------------------ *)
(** ** Properties of the string primitives                             *)
(* ------------------------------------------------------------------ *)

Lemma lowerChar_idem (c : ascii) : JS.lowerChar (JS.lowerChar c) = JS.lowerChar c.
Proof.
  destruct c as [[] [] [] [] [] [] [] []]; reflexivity.
Qed.

Lemma toLowerCase_idem (s : string) :
  JS.toLowerCase (JS.toLowerCase s) = JS.toLowerCase s.
Proof.
  induction s as [|c s IH]; simpl; [reflexivity|].
  now rewrite lowerChar_idem, IH.
Qed.

(** The source's test, lower-casing both sides and calling [startsWith],
    is the case-insensitive prefix match. *)
Lemma startsWith_lower_spec (d sel : string) :
  JS.startsWith (JS.toLowerCase d) (JS.toLowerCase sel)
  = Spec.prefixIgnoringCase sel d.
Proof.
  unfold JS.startsWith.
  revert d; induction sel as [|a p IH]; intros d; simpl.
  - now destruct (JS.toLowerCase d).
  - destruct d as [|b s]; simpl; [reflexivity|].
    unfold Spec.sameLetter.
    destruct (ascii_dec (JS.lowerChar a) (JS.lowerChar b)) as [e|n].
    + rewrite (proj2 (Ascii.eqb_eq _ _) e). simpl. apply IH.
    + rewrite (proj2 (Ascii.eqb_neq _ _) n). reflexivity.
Qed.

Lemma prefixIgnoringCase_lower (p s1 s2 : string) :
  JS.toLowerCase s1 = JS.toLowerCase s2 ->
  Spec.prefixIgnoringCase p s1 = Spec.prefixIgnoringCase p s2.
Proof.
  intros H. now rewrite <- !startsWith_lower_spec, H.
Qed.

(* ------------------------------------------------------------------ *)
(** ** The deny list                                                   *)
(* ------------------------------------------------------------------ *)

Section DenyListFacts.

Import DenyList.

Lemma someSelector_spec (sels : list string) (tx : MetaTransactionData) :
  someSelector sels tx = true <-> Spec.startsWithSelector sels tx.
Proof.
  unfold someSelector, Spec.startsWithSelector. rewrite existsb_exists. split.
  - intros (sel & Hin & H). destruct (data tx) as [d|]; [|discriminate].
    exists d, sel. rewrite startsWith_lower_spec in H. auto.
  - intros (d & sel & Hd & Hin & H). exists sel. split; [assumption|].
    rewrite Hd, startsWith_lower_spec. assumption.
Qed.

Lemma reasons_in (c : DenyListChecker) (env : Env) (tx : MetaTransactionData)
      (r : DenyListRule) :
  In r (rules c) -> check r env tx = true ->
  denied (isDenied c env tx) = true /\ In (reasonOf r) (reasons (isDenied c env tx)).
Proof.
  intros Hin Hc. unfold isDenied; simpl.
  assert (Hf : In r (filter (fun rule => check rule env tx) (rules c)))
    by (apply filter_In; auto).
  split.
  - destruct (filter _ (rules c)); [contradiction | reflexivity].
  - now apply in_map.
Qed.

Lemma reasons_from (c : DenyListChecker) (env : Env) (tx : MetaTransactionData)
      (s : string) :
  In s (reasons (isDenied c env tx)) ->
  exists r, In r (rules c) /\ check r env tx = true /\ reasonOf r = s.
Proof.
  unfold isDenied; simpl. rewrite in_map_iff.
  intros (r & Hr & Hin). apply filter_In in Hin. exists r. tauto.
Qed.

Lemma collected_filter (env : Env) (tx : MetaTransactionData)
      (rs : list DenyListRule) :
  Spec.Collected env tx rs
                 (map reasonOf (filter (fun rule => check rule env tx) rs)).
Proof.
  induction rs as [|r rs IH]; simpl.
  - constructor.
  - destruct (check r env tx) eqn:E; simpl.
    + now apply Spec.Collected_hit.
    + now apply Spec.Collected_miss.
Qed.

Lemma collected_unique (env : Env) (tx : MetaTransactionData)
      (rs : list DenyListRule) (o1 o2 : list string) :
  Spec.Collected env tx rs o1 -> Spec.Collected env tx rs o2 -> o1 = o2.
Proof.
  intros H1. revert o2.
  induction H1 as [|r rs out Hc _ IH|r rs out Hc _ IH]; intros o2 H2;
    inversion H2; subst; try congruence.
  - f_equal. now apply IH.
  - now apply IH.
Qed.

Lemma includes_In (l : list string) (x : string) :
  includes l x = true <-> In x l.
Proof.
  unfold includes. rewrite existsb_exists. split.
  - intros (y & Hy & E). apply String.eqb_eq in E. now subst.
  - intros H. exists x. split; [assumption | apply String.eqb_refl].
Qed.

End DenyListFacts.

Section DenyListClaims.

Import DenyList.

(** C1, as worded, fails: on a [changeThreshold] call the
    ownership-transfer rule fires although the call data starts with none
    of the add-owner, remove-owner and swap-owner selectors. *)
Lemma C1_changeThreshold_counterexample :
  check SAFE_OWNERSHIP_TRANSFER Examples.noEnv Examples.changeThresholdTx = true
  /\ ~ Spec.startsWithSelector Spec.ownerSelectors Examples.changeThresholdTx.
Proof.
  split; [reflexivity|].
  intros (d & sel & Hd & Hin & H).
  injection Hd as <-.
  simpl in Hin.
  destruct Hin as [<-|[<-|[<-|[]]]]; discriminate H.
Qed.

(** C1, amended: the ownership-transfer rule fires exactly when the call
    data starts, up to case, with the selector of add-owner, remove-owner,
    swap-owner or change-threshold; whenever it fires, [isDenied] of a
    checker built by the constructor denies and lists the rule's reason. *)
Theorem C1_ownership_rule (env : Env) (custom : list DenyListRule)
        (tx : MetaTransactionData) :
  (check SAFE_OWNERSHIP_TRANSFER env tx = true
   <-> Spec.startsWithSelector
         (Spec.ownerSelectors ++ [changeThreshold]) tx)
  /\ (check SAFE_OWNERSHIP_TRANSFER env tx = true ->
      denied (isDenied (newChecker custom) env tx) = true
      /\ In "SAFE_OWNERSHIP_TRANSFER: Prevent Safe ownership transfer operations"
            (reasons (isDenied (newChecker custom) env tx))).
Proof.
  split.
  - apply (someSelector_spec ownershipSelectors tx).
  - intros H.
    apply (reasons_in (newChecker custom) env tx SAFE_OWNERSHIP_TRANSFER);
      [|assumption].
    simpl. auto.
Qed.

Lemma C1_ownership_rule_witness :
  denied (isDenied (newChecker []) Examples.noEnv Examples.addOwnerTx) = true
  /\ In "SAFE_OWNERSHIP_TRANSFER: Prevent Safe ownership transfer operations"
        (reasons (isDenied (newChecker []) Examples.noEnv Examples.addOwnerTx)).
Proof.
  apply (proj2 (C1_ownership_rule Examples.noEnv [] Examples.addOwnerTx)).
  reflexivity.
Defined.

(** C4: for every rule list, [isDenied] reports one reason per triggered
    rule, in rule-list order, an earlier hit not hiding a later one; the
    flag [denied] is set exactly when some reason is reported. *)
Theorem C4_isDenied_collects_all (c : DenyListChecker) (env : Env)
        (tx : MetaTransactionData) :
  Spec.Collected env tx (rules c) (reasons (isDenied c env tx))
  /\ (forall out, Spec.Collected env tx (rules c) out ->
                  out = reasons (isDenied c env tx))
  /\ (denied (isDenied c env tx) = true <-> reasons (isDenied c env tx) <> [])
  /\ (forall r, In r (rules c) ->
                (check r env tx = true ->
                 In (reasonOf r) (reasons (isDenied c env tx))))
  /\ List.length (reasons (isDenied c env tx))
     = List.length (filter (fun r => check r env tx) (rules c)).
Proof.
  repeat split.
  - apply collected_filter.
  - intros out H. eapply collected_unique; [exact H | apply collected_filter].
  - unfold isDenied; simpl.
    destruct (filter _ (rules c)); simpl; [discriminate | intros _; discriminate].
  - unfold isDenied; simpl.
    destruct (filter _ (rules c)); simpl; [congruence | reflexivity].
  - intros r Hin Hc. now apply reasons_in.
  - unfold isDenied; simpl. apply length_map.
Qed.

Lemma C4_isDenied_collects_all_witness :
  reasons (isDenied (newChecker []) Examples.noEnv
                    (mkTx None "0" (data Examples.changeThresholdTx) (Some 1%Z)))
  = ["SAFE_OWNERSHIP_TRANSFER: Prevent Safe ownership transfer operations";
     "SAFE_THRESHOLD_CHANGE: Prevent Safe threshold change operations";
     "DELEGATE_CALL_RESTRICTION: Prevent delegate calls to untrusted contracts"].
Proof.
  symmetry.
  apply (proj1 (proj2 (C4_isDenied_collects_all (newChecker []) Examples.noEnv
                 (mkTx None "0" (data Examples.changeThresholdTx) (Some 1%Z))))).
  apply Spec.Collected_hit; [reflexivity|].
  apply Spec.Collected_hit; [reflexivity|].
  apply Spec.Collected_miss; [reflexivity|].
  apply Spec.Collected_hit; [reflexivity|].
  constructor.
Defined.

End DenyListClaims.

Section DelegateCallClaims.

Import DenyList.

Lemma notDelegateCall_spec (tx : MetaTransactionData) :
  notDelegateCall tx = false <-> Spec.isDelegateCall tx.
Proof.
  unfold notDelegateCall, Spec.isDelegateCall.
  destruct (operation tx) as [op|]; [|split; discriminate].
  destruct (Z.eqb_spec op 1) as [->|n]; simpl; split; congruence.
Qed.

Lemma truthy_spec (o : option string) :
  JS.truthy o = false <-> o = None \/ o = Some EmptyString.
Proof.
  destruct o as [s|]; simpl.
  - destruct (String.eqb_spec s EmptyString) as [->|n]; simpl.
    + split; auto.
    + split; [discriminate|]. intros [H|H]; congruence.
  - split; auto.
Qed.

(** The allowlist is kept in lower case. *)
Lemma trusted_lower (env : Env) (e : string) :
  In e (trustedDelegateContracts env) -> JS.toLowerCase e = e.
Proof.
  unfold trustedDelegateContracts.
  destruct (TRUSTED_DELEGATE_CONTRACTS env) as [s|]; [|intros []].
  destruct (String.eqb s EmptyString); [intros []|].
  rewrite in_map_iff. intros (x & <- & _). apply toLowerCase_idem.
Qed.

Lemma includes_trusted (env : Env) (t : string) :
  includes (trustedDelegateContracts env) (JS.toLowerCase t) = true <->
  exists e, In e (trustedDelegateContracts env)
            /\ JS.toLowerCase t = JS.toLowerCase e.
Proof.
  rewrite includes_In. split.
  - intros H. exists (JS.toLowerCase t). split; [assumption|].
    symmetry. apply toLowerCase_idem.
  - intros (e & Hin & E). rewrite E, (trusted_lower env e Hin). assumption.
Qed.

Lemma length_zero_nil {A} (l : list A) : (List.length l =? 0)%nat = true <-> l = [].
Proof.
  destruct l; simpl; split; congruence.
Qed.

(** The rule in terms of its three tests. *)
Lemma delegateCallCheck_spec (env : Env) (tx : MetaTransactionData) :
  delegateCallCheck env tx = true <->
  Spec.isDelegateCall tx
  /\ (trustedDelegateContracts env = []
      \/ (~ Spec.noTarget tx
          /\ ~ Spec.targetTrusted (trustedDelegateContracts env) tx)).
Proof.
  unfold delegateCallCheck.
  pose proof (notDelegateCall_spec tx) as Hop.
  destruct (notDelegateCall tx).
  { split; [discriminate|]. intros [H _]. apply Hop in H. discriminate. }
  pose proof (length_zero_nil (trustedDelegateContracts env)) as Hlen.
  destruct (List.length (trustedDelegateContracts env) =? 0)%nat.
  { split; [|reflexivity]. intros _. split; [now apply Hop|left; now apply Hlen]. }
  assert (Hne : trustedDelegateContracts env <> [])
    by (intros E; apply Hlen in E; discriminate).
  pose proof (truthy_spec (to tx)) as Ht.
  unfold Spec.noTarget, Spec.targetTrusted.
  destruct (JS.truthy (to tx)); simpl.
  - destruct (to tx) as [t|] eqn:Eto.
    2:{ exfalso. assert (@None string = None) by reflexivity.
        destruct Ht as [_ Ht]. discriminate Ht. auto. }
    pose proof (includes_trusted env t) as Hi.
    destruct (includes (trustedDelegateContracts env) (JS.toLowerCase t)); simpl.
    + split; [discriminate|]. intros [_ [E|[_ Hn]]]; [contradiction|].
      exfalso. apply Hn. destruct Hi as [Hi _].
      destruct (Hi eq_refl) as (e & Hin & E). exists t, e. auto.
    + split; [|reflexivity]. intros _. split; [now apply Hop|]. right. split.
      * intros H. apply Ht in H. discriminate.
      * intros (t' & e & E & Hin & El). injection E as <-.
        destruct Hi as [_ Hi]. discriminate Hi. exists e. auto.
  - split; [discriminate|]. intros [_ [E|[Hn _]]]; [contradiction|].
    exfalso. apply Hn. now apply Ht.
Qed.

(** C2, as worded, fails: a delegate call whose target is the empty
    string, under a non-empty allowlist that does not hold it, meets the
    specified condition and yet the rule stays silent. *)
Lemma C2_missing_target_counterexample :
  Spec.delegateRuleAsSpecified Examples.trustingEnv Examples.delegateNoTargetTx
  /\ check DELEGATE_CALL_RESTRICTION
           Examples.trustingEnv Examples.delegateNoTargetTx = false.
Proof.
  split; [|reflexivity].
  split; [reflexivity|]. right.
  intros (t & e & E & Hin & El). injection E as <-.
  simpl in Hin. destruct Hin as [<-|[<-|[]]]; discriminate El.
Qed.

(** C2, amended: the delegate-call rule fires exactly when the operation
    is a delegate call and either the allowlist is empty or the target
    address is present, non-empty, and matches no entry of the allowlist
    up to case. An action with any other operation
    never triggers it, and under an empty allowlist every delegate call is
    denied. *)
Theorem C2_delegate_rule (env : Env) (custom : list DenyListRule)
        (tx : MetaTransactionData) :
  (check DELEGATE_CALL_RESTRICTION env tx = true <->
   Spec.isDelegateCall tx
   /\ (trustedDelegateContracts env = []
       \/ (~ Spec.noTarget tx
           /\ ~ Spec.targetTrusted (trustedDelegateContracts env) tx)))
  /\ (~ Spec.isDelegateCall tx ->
      check DELEGATE_CALL_RESTRICTION env tx = false)
  /\ (Spec.isDelegateCall tx -> trustedDelegateContracts env = [] ->
      denied (isDenied (newChecker custom) env tx) = true
      /\ In (reasonOf DELEGATE_CALL_RESTRICTION)
            (reasons (isDenied (newChecker custom) env tx))).
Proof.
  pose proof (delegateCallCheck_spec env tx) as H.
  split; [exact H|]. split.
  - intros Hn. simpl. destruct (delegateCallCheck env tx); [|reflexivity].
    exfalso. apply Hn. now apply H.
  - intros Hd He.
    apply (reasons_in (newChecker custom) env tx DELEGATE_CALL_RESTRICTION).
    + simpl. auto.
    + apply H. auto.
Qed.

Lemma C2_delegate_rule_witness :
  check DELEGATE_CALL_RESTRICTION Examples.trustingEnv Examples.plainTx = false
  /\ denied (isDenied (newChecker []) Examples.noEnv Examples.delegateUntrustedTx)
     = true.
Proof.
  split.
  - apply (proj1 (proj2 (C2_delegate_rule Examples.trustingEnv [] Examples.plainTx))).
    unfold Spec.isDelegateCall. simpl. discriminate.
  - apply (proj2 (proj2 (C2_delegate_rule Examples.noEnv []
                           Examples.delegateUntrustedTx)));
      reflexivity.
Defined.

(** C9: a delegate call without a target address (missing or empty) is
    let through by the delegate-call rule as soon as the allowlist is not
    empty: the rule does not fire and [isDenied] does not cite it. *)
Theorem C9_delegate_rule_fails_open (env : Env) (tx : MetaTransactionData) :
  Spec.isDelegateCall tx ->
  trustedDelegateContracts env <> [] ->
  Spec.noTarget tx ->
  check DELEGATE_CALL_RESTRICTION env tx = false
  /\ ~ In (reasonOf DELEGATE_CALL_RESTRICTION)
          (reasons (isDenied (newChecker []) env tx)).
Proof.
  intros Hd Hne Hno.
  assert (Hc : check DELEGATE_CALL_RESTRICTION env tx = false).
  { simpl. destruct (delegateCallCheck env tx) eqn:E; [|reflexivity].
    apply delegateCallCheck_spec in E. destruct E as [_ [E|[E _]]]; contradiction. }
  split; [exact Hc|].
  intros Hin. apply reasons_from in Hin. destruct Hin as (r & Hr & Hcr & Heq).
  simpl in Hr.
  destruct Hr as [<-|[<-|[<-|[<-|[]]]]]; try discriminate Heq.
  congruence.
Qed.

Lemma C9_delegate_rule_fails_open_witness :
  check DELEGATE_CALL_RESTRICTION Examples.trustingEnv Examples.delegateNoTargetTx
  = false
  /\ ~ In (reasonOf DELEGATE_CALL_RESTRICTION)
          (reasons (isDenied (newChecker []) Examples.trustingEnv
                             Examples.delegateNoTargetTx)).
Proof.
  apply (C9_delegate_rule_fails_open Examples.trustingEnv Examples.delegateNoTargetTx).
  - reflexivity.
  - simpl. discriminate.
  - right. reflexivity.
Defined.

End DelegateCallClaims.

Section SelectorClaims.

Import DenyList.

Lemma existsb_pointwise {A} (f g : A -> bool) (l : list A) :
  (forall x, f x = g x) -> existsb f l = existsb g l.
Proof.
  intros H. induction l as [|x l IH]; simpl; [reflexivity|].
  now rewrite H, IH.
Qed.

Lemma someSelector_matches (sels : list string) (tx : MetaTransactionData) :
  someSelector sels tx = Spec.matchesSelector sels tx.
Proof.
  unfold someSelector, Spec.matchesSelector.
  destruct (data tx) as [d|].
  - apply existsb_pointwise. intros sel. apply startsWith_lower_spec.
  - induction sels as [|sel sels IH]; simpl; auto.
Qed.

(** C8: each selector-based rule is a case-insensitive prefix match of its
    selectors against the call data, so call data that agree up to case
    get the same verdict; without call data (missing, empty, or the "0x"
    that [processTransaction] puts in its place) none of the three fires. *)
Theorem C8_selector_matching (env : Env) (tx : MetaTransactionData) :
  (check SAFE_OWNERSHIP_TRANSFER env tx = Spec.matchesSelector ownershipSelectors tx
   /\ check SAFE_THRESHOLD_CHANGE env tx = Spec.matchesSelector thresholdSelectors tx
   /\ check SAFE_MODULE_MANAGEMENT env tx = Spec.matchesSelector moduleSelectors tx)
  /\ (forall tx' d d',
         data tx = Some d -> data tx' = Some d' ->
         JS.toLowerCase d = JS.toLowerCase d' ->
         forall r, In r Spec.selectorRules -> check r env tx' = check r env tx)
  /\ (data tx = None \/ data tx = Some EmptyString ->
      forall r, In r Spec.selectorRules -> check r env tx = false)
  /\ (forall transaction,
         JS.truthy (Bot.tx_data transaction) = false ->
         forall r, In r Spec.selectorRules ->
                   check r env (Bot.metaTransaction transaction) = false).
Proof.
  split; [|split; [|split]].
  - repeat split; apply someSelector_matches.
  - intros tx' d d' Hd Hd' Hlow r Hr.
    assert (E : forall sels, someSelector sels tx' = someSelector sels tx).
    { intros sels. rewrite !someSelector_matches. unfold Spec.matchesSelector.
      rewrite Hd, Hd'. apply existsb_pointwise. intros sel.
      now apply prefixIgnoringCase_lower. }
    simpl in Hr. destruct Hr as [<-|[<-|[<-|[]]]]; apply E.
  - intros Hd r Hr. simpl in Hr.
    destruct Hr as [<-|[<-|[<-|[]]]]; simpl; unfold someSelector;
      destruct Hd as [-> | ->]; reflexivity.
  - intros transaction Ht r Hr. simpl in Hr.
    destruct Hr as [<-|[<-|[<-|[]]]]; simpl; unfold someSelector;
      unfold Bot.metaTransaction; rewrite Ht; reflexivity.
Qed.

Lemma C8_selector_matching_witness :
  check SAFE_MODULE_MANAGEMENT Examples.noEnv Examples.plainTx = false
  /\ check SAFE_OWNERSHIP_TRANSFER Examples.noEnv
           (mkTx None "0" (Some "0x0d582f13000000000000000000000000") None)
     = check SAFE_OWNERSHIP_TRANSFER Examples.noEnv Examples.addOwnerTx.
Proof.
  split.
  - apply (proj1 (proj2 (proj2 (C8_selector_matching Examples.noEnv Examples.plainTx)))).
    + left. reflexivity.
    + simpl. auto.
  - apply (proj1 (proj2 (C8_selector_matching Examples.noEnv Examples.addOwnerTx))
                 _ "0x0D582F13000000000000000000000000"
                 "0x0d582f13000000000000000000000000");
      try reflexivity.
    simpl. auto.
Defined.

End SelectorClaims.

(* ------------------------------------------------------------------ *)
(** ** The scan pipeline                                               *)
(* ------------------------------------------------------------------ *)

Lemma Subseq_app {A} (l1 l2 m1 m2 : list A) :
  Spec.Subseq l1 l2 -> Spec.Subseq m1 m2 -> Spec.Subseq (l1 ++ m1) (l2 ++ m2).
Proof.
  intros H1 H2. induction H1; simpl; [assumption | |]; now constructor.
Qed.

Lemma Subseq_incl {A} (l1 l2 : list A) : Spec.Subseq l1 l2 -> incl l1 l2.
Proof.
  intros H. induction H as [|x l1 l2 _ IH|x l1 l2 _ IH]; intros y Hy.
  - exact Hy.
  - destruct Hy as [<-|Hy]; [left; reflexivity | right; now apply IH].
  - right. now apply IH.
Qed.

Lemma Subseq_NoDup {A} (l1 l2 : list A) :
  Spec.Subseq l1 l2 -> NoDup l2 -> NoDup l1.
Proof.
  intros H. induction H as [|x l1 l2 H IH|x l1 l2 H IH]; intros Hn.
  - constructor.
  - inversion Hn as [|? ? Hx Hl]; subst. constructor; [|now apply IH].
    intros Hin. apply Hx. now apply (Subseq_incl _ _ H).
  - inversion Hn; subst. now apply IH.
Qed.

Lemma Subseq_filter {A} (f : A -> bool) (l : list A) : Spec.Subseq (filter f l) l.
Proof.
  induction l as [|x l IH]; simpl; [constructor|].
  destruct (f x); now constructor.
Qed.

Lemma Subseq_map {A B} (f : A -> B) (l1 l2 : list A) :
  Spec.Subseq l1 l2 -> Spec.Subseq (map f l1) (map f l2).
Proof.
  intros H. induction H; simpl; now constructor.
Qed.

Lemma Subseq_trans {A} (l1 l2 l3 : list A) :
  Spec.Subseq l1 l2 -> Spec.Subseq l2 l3 -> Spec.Subseq l1 l3.
Proof.
  intros H12 H23. revert l1 H12.
  induction H23 as [|x l2 l3 _ IH|x l2 l3 _ IH]; intros l1 H12.
  - assumption.
  - inversion H12; subst; constructor; now apply IH.
  - constructor. now apply IH.
Qed.

Lemma unsignedTransactions_cons (svc : Bot.SafeService)
      (p : Bot.PendingTransaction) (ps : list Bot.PendingTransaction) :
  Bot.unsignedTransactions svc (p :: ps)
  = Bot.unsignedTransactions svc [p] ++ Bot.unsignedTransactions svc ps.
Proof.
  unfold Bot.unsignedTransactions. simpl.
  now destruct (negb (Bot.hasAlreadySigned svc (Bot.pt_transaction p))).
Qed.

Lemma unsignedMessages_cons (svc : Bot.SafeService)
      (p : Bot.PendingMessage) (ps : list Bot.PendingMessage) :
  Bot.unsignedMessages svc (p :: ps)
  = Bot.unsignedMessages svc [p] ++ Bot.unsignedMessages svc ps.
Proof.
  unfold Bot.unsignedMessages. simpl.
  now destruct (negb (Bot.hasAlreadySignedMessage svc (Bot.pm_message p))).
Qed.

#[local] Arguments Bot.unsignedTransactions : simpl never.
#[local] Arguments Bot.unsignedMessages : simpl never.

Lemma flat_map_step {A B} (f : A -> list B) (x : A) (l : list A) :
  flat_map f (x :: l) = f x ++ flat_map f l.
Proof. reflexivity. Qed.

(** The projections of a run distribute over the pieces of its trace. *)
Ltac split_trace :=
  unfold Bot.processed, Bot.pendingOf, Bot.pendingMessagesOf,
    Bot.transactionCalls, Bot.messageCalls, Bot.approvals, Bot.signatures in *;
  repeat (rewrite flat_map_app in * || rewrite flat_map_step in * );
  simpl.

(** Take the world and the trace of the run as the witnesses. *)
Ltac use_trace :=
  simpl;
  match goal with
  | |- exists w t, (_, ?w0, ?T) = _ /\ _ => exists w0, T
  end.

Section PipelineFacts.

Import Bot.

Context {W : Type}.
Variable api : Service W.
Variable env : Env.
Variable svc : SafeService.

(** Closed form of one turn of the loop of [getPendingTransactions]. *)
Lemma fetchTransactions_eq (c : Z) (acc : list PendingTransaction) (w : W) :
  fetchTransactions api svc c acc w =
  if hasKey (safeApiKits svc) c then
    match getPendingTransactions_api api c w with
    | (Some l, w') =>
        (Ok (acc ++ map (pendingTx c) l), w',
         [GetPendingTransactions c (Some l);
          Log (LogApiCall true "getPendingTransactions" c);
          Log (LogChainEvent c "pending_transactions_fetched" (List.length l))]
           ++ (if notLast svc c then [Delay 250] else []))
    | (None, w') =>
        (Ok acc, w',
         [GetPendingTransactions c None;
          Log (LogApiCall false "getPendingTransactions" c);
          Log (LogFetchFailed "transactions" c)])
    end
  else (Ok acc, w, [Log (LogNoApiKit c)]).
Proof.
  unfold fetchTransactions, tryCatch, rateLimitedApiCall, bind,
    callGetPendingTransactions, tryCatch, log, emit, ret, throw.
  destruct (hasKey (safeApiKits svc) c); simpl; [|reflexivity].
  destruct (getPendingTransactions_api api c w) as [[l|] w']; simpl;
    [|reflexivity].
  destruct (notLast svc c); reflexivity.
Qed.

(** Closed form of one turn of the loop of [getPendingMessages]. *)
Lemma fetchMessages_eq (c : Z) (acc : list PendingMessage) (w : W) :
  fetchMessages api svc c acc w =
  if hasKey (safeApiKits svc) c then
    match getMessages_api api c w with
    | (Some l, w') =>
        (Ok (acc ++ map (pendingMsg c) (filter needsConfirmations l)), w',
         [GetMessages c (Some l);
          Log (LogApiCall true "getMessages" c);
          Log (LogChainEvent c "pending_messages_fetched" (List.length l))]
           ++ (if notLast svc c then [Delay 250] else []))
    | (None, w') =>
        (Ok acc, w',
         [GetMessages c None;
          Log (LogApiCall false "getMessages" c);
          Log (LogFetchFailed "messages" c)])
    end
  else (Ok acc, w, []).
Proof.
  unfold fetchMessages, tryCatch, rateLimitedApiCall, bind,
    callGetMessages, tryCatch, log, emit, ret, throw.
  destruct (hasKey (safeApiKits svc) c); simpl; [|reflexivity].
  destruct (getMessages_api api c w) as [[l|] w']; simpl; [|reflexivity].
  destruct (notLast svc c); reflexivity.
Qed.

Lemma forOf_cons {A S} (x : A) (xs : list A) (body : A -> S -> M W S)
      (acc : S) (w : W) :
  forOf (x :: xs) body acc w =
  match body x acc w with
  | (Ok a, w1, t1) =>
      match forOf xs body a w1 with (r, w2, t2) => (r, w2, t1 ++ t2) end
  | (Throw e, w1, t1) => (Throw e, w1, t1)
  end.
Proof. reflexivity. Qed.

(** What the fetch loops give back is what their answers hold, and every
    network with a kit is asked, whatever the earlier networks answered. *)
Lemma fetchTransactions_loop (cs : list Z) (acc : list PendingTransaction)
      (w : W) :
  exists w' t,
    forOf cs (fetchTransactions api svc) acc w = (Ok (acc ++ pendingOf t), w', t)
    /\ transactionCalls t = filter (hasKey (safeApiKits svc)) cs
    /\ processed t = [] /\ pendingMessagesOf t = [] /\ messageCalls t = []
    /\ approvals t = [] /\ signatures t = [].
Proof.
  revert acc w. induction cs as [|c cs IH]; intros acc w.
  - exists w, []. simpl. unfold ret. rewrite app_nil_r. repeat split.
  - rewrite forOf_cons, fetchTransactions_eq. simpl filter.
    destruct (hasKey (safeApiKits svc) c);
      [destruct (getPendingTransactions_api api c w) as [[l|] w1];
       [destruct (notLast svc c)|]|];
      match goal with
      | |- context [forOf cs _ ?a ?w0] =>
          destruct (IH a w0) as (w' & t & E & H1 & H2 & H3 & H4 & H5 & H6);
          rewrite E
      end;
      use_trace; split_trace;
      rewrite ?H1, ?H2, ?H3, ?H4, ?H5, ?H6, <- ?app_assoc; repeat split.
Qed.

Lemma fetchMessages_loop (cs : list Z) (acc : list PendingMessage) (w : W) :
  exists w' t,
    forOf cs (fetchMessages api svc) acc w
    = (Ok (acc ++ pendingMessagesOf t), w', t)
    /\ messageCalls t = filter (hasKey (safeApiKits svc)) cs
    /\ processed t = [] /\ pendingOf t = [] /\ transactionCalls t = []
    /\ approvals t = [] /\ signatures t = [].
Proof.
  revert acc w. induction cs as [|c cs IH]; intros acc w.
  - exists w, []. simpl. unfold ret. rewrite app_nil_r. repeat split.
  - rewrite forOf_cons, fetchMessages_eq. simpl filter.
    destruct (hasKey (safeApiKits svc) c);
      [destruct (getMessages_api api c w) as [[l|] w1];
       [destruct (notLast svc c)|]|];
      match goal with
      | |- context [forOf cs _ ?a ?w0] =>
          destruct (IH a w0) as (w' & t & E & H1 & H2 & H3 & H4 & H5 & H6);
          rewrite E
      end;
      use_trace; split_trace;
      rewrite ?H1, ?H2, ?H3, ?H4, ?H5, ?H6, <- ?app_assoc; repeat split.
Qed.

(** [processTransaction] never raises; it starts the item, and asks for a
    signature or submits an approval only for an item that the operator
    has not signed and the deny list lets through. *)
Lemma processTransaction_spec (p : PendingTransaction) (w : W) :
  exists b w' t,
    processTransaction api env svc p w = (Ok b, w', t)
    /\ processed t = [txItem p]
    /\ pendingOf t = [] /\ pendingMessagesOf t = []
    /\ transactionCalls t = [] /\ messageCalls t = []
    /\ Spec.Subseq (approvals t) (map txItem (unsignedTransactions svc [p]))
    /\ Spec.Subseq (signatures t)
                   (map (fun p => keyOf (txItem p))
                        (unsignedTransactions svc [p])).
Proof.
  unfold processTransaction, unsignedTransactions. cbv zeta. simpl filter.
  destruct (hasAlreadySigned svc (pt_transaction p)) eqn:Es;
    [|destruct (DenyList.denied
                  (DenyList.isDenied (denyListChecker svc) env
                                     (metaTransaction (pt_transaction p)))) eqn:Ed];
    unfold tryCatch, bind, log, emit, ret; simpl.
  { do 3 eexists. split; [reflexivity|]. repeat split; repeat constructor. }
  { do 3 eexists. split; [reflexivity|]. repeat split; repeat constructor. }
  unfold signTransaction, rateLimitedApiCall, tryCatch, bind, log, emit, ret,
    throw, callSignHash, callConfirmTransaction.
  destruct (hasKey (safeProtocolKits svc) (pt_chainId p)); simpl.
  2:{ do 3 eexists. split; [reflexivity|]. repeat split; repeat constructor. }
  destruct (signHash_kit api (pt_chainId p) (pt_safeTxHash p) w)
    as [[sig|] w1]; simpl.
  2:{ do 3 eexists. split; [reflexivity|]. repeat split; repeat constructor. }
  destruct (hasKey (safeApiKits svc) (pt_chainId p)); simpl.
  2:{ do 3 eexists. split; [reflexivity|]. repeat split; repeat constructor. }
  destruct (confirmTransaction_api api (pt_chainId p) (pt_safeTxHash p) sig w1)
    as [[|] w2]; simpl;
    (do 3 eexists; split; [reflexivity|]; repeat split; repeat constructor).
Qed.

Lemma processMessage_spec (p : PendingMessage) (w : W) :
  exists b w' t,
    processMessage api svc p w = (Ok b, w', t)
    /\ processed t = [msgItem p]
    /\ pendingOf t = [] /\ pendingMessagesOf t = []
    /\ transactionCalls t = [] /\ messageCalls t = []
    /\ Spec.Subseq (approvals t) (map msgItem (unsignedMessages svc [p]))
    /\ Spec.Subseq (signatures t)
                   (map (fun p => keyOf (msgItem p)) (unsignedMessages svc [p])).
Proof.
  unfold processMessage, unsignedMessages. cbv zeta. simpl filter.
  destruct (hasAlreadySignedMessage svc (pm_message p)) eqn:Es;
    unfold tryCatch, bind, log, emit, ret; simpl.
  { do 3 eexists. split; [reflexivity|]. repeat split; repeat constructor. }
  unfold rateLimitedApiCall, tryCatch, bind, log, emit, ret,
    throw, callSignHash, callAddMessageSignature.
  destruct (hasKey (safeProtocolKits svc) (pm_chainId p)); simpl.
  2:{ do 3 eexists. split; [reflexivity|]. repeat split; repeat constructor. }
  destruct (signHash_kit api (pm_chainId p) (pm_messageHash p) w)
    as [[sig|] w1]; simpl.
  2:{ do 3 eexists. split; [reflexivity|]. repeat split; repeat constructor. }
  destruct (hasKey (safeApiKits svc) (pm_chainId p)); simpl.
  2:{ do 3 eexists. split; [reflexivity|]. repeat split; repeat constructor. }
  destruct (addMessageSignature_api api (pm_chainId p) (pm_messageHash p) sig w1)
    as [[|] w2]; simpl;
    (do 3 eexists; split; [reflexivity|]; repeat split; repeat constructor).
Qed.

(** The loop over the pending transactions starts every item, in the
    order of the list, and never raises; what it approves is, in order,
    part of the items that the operator had not signed. *)
Lemma processTransactions_loop (ps : list PendingTransaction) (n : nat) (w : W) :
  exists n' w' t,
    forOf ps
          (fun pendingTx processedCount =>
             bind (processTransaction api env svc pendingTx)
                  (fun processed => ret (count processed processedCount)))
          n w
    = (Ok n', w', t)
    /\ processed t = map txItem ps
    /\ pendingOf t = [] /\ pendingMessagesOf t = []
    /\ transactionCalls t = [] /\ messageCalls t = []
    /\ Spec.Subseq (approvals t) (map txItem (unsignedTransactions svc ps))
    /\ Spec.Subseq (signatures t)
                   (map (fun p => keyOf (txItem p)) (unsignedTransactions svc ps)).
Proof.
  revert n w. induction ps as [|p ps IH]; intros n w.
  - exists n, w, []. simpl. repeat split; constructor.
  - rewrite forOf_cons. unfold bind at 1.
    destruct (processTransaction_spec p w)
      as (b & w1 & t1 & E1 & P1 & P2 & P3 & P4 & P5 & P6 & P7).
    rewrite E1. unfold ret at 1. simpl.
    destruct (IH (count b n) w1)
      as (n' & w' & t & E & H1 & H2 & H3 & H4 & H5 & H6 & H7).
    rewrite E. exists n', w', ((t1 ++ []) ++ t).
    split; [reflexivity|]. rewrite app_nil_r.
    rewrite (unsignedTransactions_cons svc p ps), !map_app.
    split_trace. rewrite P1, P2, P3, P4, P5, H1, H2, H3, H4, H5.
    repeat split; apply Subseq_app; assumption.
Qed.

Lemma processMessages_loop (ps : list PendingMessage) (n : nat) (w : W) :
  exists n' w' t,
    forOf ps
          (fun pendingMsg processedMessageCount =>
             bind (processMessage api svc pendingMsg)
                  (fun processed => ret (count processed processedMessageCount)))
          n w
    = (Ok n', w', t)
    /\ processed t = map msgItem ps
    /\ pendingOf t = [] /\ pendingMessagesOf t = []
    /\ transactionCalls t = [] /\ messageCalls t = []
    /\ Spec.Subseq (approvals t) (map msgItem (unsignedMessages svc ps))
    /\ Spec.Subseq (signatures t)
                   (map (fun p => keyOf (msgItem p)) (unsignedMessages svc ps)).
Proof.
  revert n w. induction ps as [|p ps IH]; intros n w.
  - exists n, w, []. simpl. repeat split; constructor.
  - rewrite forOf_cons. unfold bind at 1.
    destruct (processMessage_spec p w)
      as (b & w1 & t1 & E1 & P1 & P2 & P3 & P4 & P5 & P6 & P7).
    rewrite E1. unfold ret at 1. simpl.
    destruct (IH (count b n) w1)
      as (n' & w' & t & E & H1 & H2 & H3 & H4 & H5 & H6 & H7).
    rewrite E. exists n', w', ((t1 ++ []) ++ t).
    split; [reflexivity|]. rewrite app_nil_r.
    rewrite (unsignedMessages_cons svc p ps), !map_app.
    split_trace. rewrite P1, P2, P3, P4, P5, H1, H2, H3, H4, H5.
    repeat split; apply Subseq_app; assumption.
Qed.

(** The shape of a scan cycle: it never raises; it asks every network
    with a kit for its transactions, processes all of them in the order of
    the answers, then asks every network for its messages and processes
    those that need confirmations; signatures and approvals concern only
    fetched items that the operator had not signed. *)
Lemma scan_shape (w : W) :
  exists w' t,
    scanAndProcess api env svc w = (Ok tt, w', t)
    /\ processed t = map txItem (pendingOf t) ++ map msgItem (pendingMessagesOf t)
    /\ transactionCalls t = filter (hasKey (safeApiKits svc)) (enabledChains svc)
    /\ messageCalls t = filter (hasKey (safeApiKits svc)) (enabledChains svc)
    /\ Spec.Subseq (approvals t)
            (map txItem (unsignedTransactions svc (pendingOf t))
             ++ map msgItem (unsignedMessages svc (pendingMessagesOf t)))
    /\ Spec.Subseq (signatures t)
            (map (fun p => keyOf (txItem p))
                 (unsignedTransactions svc (pendingOf t))
             ++ map (fun p => keyOf (msgItem p))
                    (unsignedMessages svc (pendingMessagesOf t))).
Proof.
  unfold scanAndProcess, getPendingTransactions, getPendingMessages,
    processTransactions, processMessages.
  unfold tryCatch at 1. unfold bind at 1. unfold log at 1, emit at 1.
  unfold bind at 1.
  destruct (fetchTransactions_loop (enabledChains svc) [] w)
    as (w1 & t1 & E1 & A1 & A2 & A3 & A4 & A5 & A6).
  simpl in E1. rewrite E1.
  unfold bind at 1. unfold log at 1, emit at 1. unfold bind at 1.
  destruct (processTransactions_loop (pendingOf t1) 0 w1)
    as (n2 & w2 & t2 & E2 & B1 & B2 & B3 & B4 & B5 & B6 & B7).
  rewrite E2.
  unfold bind at 1.
  destruct (fetchMessages_loop (enabledChains svc) [] w2)
    as (w3 & t3 & E3 & C1 & C2 & C3 & C4 & C5 & C6).
  simpl in E3. rewrite E3.
  unfold bind at 1. unfold log at 1, emit at 1. unfold bind at 1.
  destruct (processMessages_loop (pendingMessagesOf t3) 0 w3)
    as (n4 & w4 & t4 & E4 & D1 & D2 & D3 & D4 & D5 & D6 & D7).
  rewrite E4.
  destruct ((0 <? n2)%nat || (0 <? n4)%nat); unfold log, emit;
    (use_trace; split; [reflexivity|];
     split_trace;
     rewrite ?A1, ?A2, ?A3, ?A4, ?A5, ?A6, ?B1, ?B2, ?B3, ?B4, ?B5,
       ?C1, ?C2, ?C3, ?C4, ?C5, ?C6, ?D1, ?D2, ?D3, ?D4, ?D5;
     simpl; rewrite ?app_nil_r;
     repeat split;
     apply Subseq_app; assumption).
Qed.

End PipelineFacts.

(* ------------------------------------------------------------------ *)
(** ** Already approved items                                          *)
(* ------------------------------------------------------------------ *)

Lemma signedBy_spec (svc : Bot.SafeService) (cs : option (list Bot.Confirmation)) :
  Bot.signedBy svc cs = true <-> Spec.approvedBy (Bot.signerAddress svc) cs.
Proof.
  unfold Bot.signedBy, Spec.approvedBy. destruct cs as [l|].
  - rewrite existsb_exists. split.
    + intros (c & Hin & E). apply String.eqb_eq in E. exists l, c. auto.
    + intros (l' & c & El & Hin & E). injection El as <-.
      exists c. split; [assumption|]. now apply String.eqb_eq.
  - split; [discriminate|]. intros (l & c & E & _). discriminate.
Qed.

Lemma unsigned_not_approved (svc : Bot.SafeService)
      (ps : list Bot.PendingTransaction) (p : Bot.PendingTransaction) :
  In p (Bot.unsignedTransactions svc ps) ->
  In p ps
  /\ ~ Spec.approvedBy (Bot.signerAddress svc)
                       (Bot.tx_confirmations (Bot.pt_transaction p)).
Proof.
  unfold Bot.unsignedTransactions. rewrite filter_In. intros [Hin Hs].
  split; [assumption|]. intros Ha. apply signedBy_spec in Ha.
  unfold Bot.hasAlreadySigned in Hs. rewrite Ha in Hs. discriminate.
Qed.

Lemma unsigned_message_not_approved (svc : Bot.SafeService)
      (ps : list Bot.PendingMessage) (p : Bot.PendingMessage) :
  In p (Bot.unsignedMessages svc ps) ->
  In p ps
  /\ ~ Spec.approvedBy (Bot.signerAddress svc)
                       (Bot.msg_confirmations (Bot.pm_message p)).
Proof.
  unfold Bot.unsignedMessages. rewrite filter_In. intros [Hin Hs].
  split; [assumption|]. intros Ha. apply signedBy_spec in Ha.
  unfold Bot.hasAlreadySignedMessage in Hs. rewrite Ha in Hs. discriminate.
Qed.

(** C3, as worded, fails: with Ethereum listed twice among the enabled
    chains, its pending transaction and its pending message are fetched
    twice and the operator approves each of them twice in one scan cycle. *)
Lemma C3_listed_twice_counterexample :
  Bot.approvals
    (Bot.trace (Bot.scanAndProcess Examples.answers Examples.noEnv
                                   Examples.serviceListingEthereumTwice tt))
  = [Bot.TxItem 1 "0xa1"; Bot.TxItem 1 "0xa1";
     Bot.MsgItem 1 "0xc1"; Bot.MsgItem 1 "0xc1"]
  /\ ~ Spec.approvedAtMostOnce
       (Bot.trace (Bot.scanAndProcess Examples.answers Examples.noEnv
                                      Examples.serviceListingEthereumTwice tt)).
Proof.
  assert (E : Bot.approvals
                (Bot.trace (Bot.scanAndProcess Examples.answers Examples.noEnv
                              Examples.serviceListingEthereumTwice tt))
              = [Bot.TxItem 1 "0xa1"; Bot.TxItem 1 "0xa1";
                 Bot.MsgItem 1 "0xc1"; Bot.MsgItem 1 "0xc1"])
    by (vm_compute; reflexivity).
  split; [exact E|].
  unfold Spec.approvedAtMostOnce. rewrite E. intros H.
  inversion H as [|x l Hx _]; subst. apply Hx. left. reflexivity.
Qed.

(** C3, amended: a pending transaction or message whose approver list
    holds the operator's address, compared without regard to case, is
    skipped: the result is [false], the outside world is untouched and the
    run consists of the two log entries, so neither signing nor submission
    is invoked. In a whole scan cycle every approval submitted and every
    signature asked for concerns an item of this cycle's answers whose
    approver list did not hold the operator, and the approvals are, in
    order, part of the items fetched: an item is approved at most once for
    each time it was fetched, hence never twice when the fetched items are
    pairwise distinct. *)
Theorem C3_already_approved_is_skipped {W : Type} (api : Bot.Service W)
        (env : Env) (svc : Bot.SafeService) :
  (forall (p : Bot.PendingTransaction) (w : W),
      Spec.approvedBy (Bot.signerAddress svc)
                      (Bot.tx_confirmations (Bot.pt_transaction p)) ->
      Bot.processTransaction api env svc p w
      = (Ok false, w,
         [Bot.Log (Bot.LogTransactionEvent (Bot.pt_chainId p) (Bot.pt_safeTxHash p)
                                           "processing_started" []);
          Bot.Log (Bot.LogTransactionEvent (Bot.pt_chainId p) (Bot.pt_safeTxHash p)
                                           "already_signed" [])]))
  /\ (forall (p : Bot.PendingMessage) (w : W),
         Spec.approvedBy (Bot.signerAddress svc)
                         (Bot.msg_confirmations (Bot.pm_message p)) ->
         Bot.processMessage api svc p w
         = (Ok false, w,
            [Bot.Log (Bot.LogMessageEvent (Bot.pm_chainId p) (Bot.pm_messageHash p)
                                          "Processing message");
             Bot.Log (Bot.LogMessageEvent (Bot.pm_chainId p) (Bot.pm_messageHash p)
                                          "Already signed message")]))
  /\ (forall (w : W) (i : Bot.Item),
         let t := Bot.trace (Bot.scanAndProcess api env svc w) in
         In i (Bot.approvals t) ->
         (exists p, In p (Bot.pendingOf t) /\ Bot.txItem p = i
                    /\ ~ Spec.approvedBy (Bot.signerAddress svc)
                         (Bot.tx_confirmations (Bot.pt_transaction p)))
         \/ (exists p, In p (Bot.pendingMessagesOf t) /\ Bot.msgItem p = i
                       /\ ~ Spec.approvedBy (Bot.signerAddress svc)
                            (Bot.msg_confirmations (Bot.pm_message p))))
  /\ (forall (w : W) (k : Z * string),
         let t := Bot.trace (Bot.scanAndProcess api env svc w) in
         In k (Bot.signatures t) ->
         (exists p, In p (Bot.pendingOf t) /\ Bot.keyOf (Bot.txItem p) = k
                    /\ ~ Spec.approvedBy (Bot.signerAddress svc)
                         (Bot.tx_confirmations (Bot.pt_transaction p)))
         \/ (exists p, In p (Bot.pendingMessagesOf t)
                       /\ Bot.keyOf (Bot.msgItem p) = k
                       /\ ~ Spec.approvedBy (Bot.signerAddress svc)
                            (Bot.msg_confirmations (Bot.pm_message p))))
  /\ (forall (w : W),
         let t := Bot.trace (Bot.scanAndProcess api env svc w) in
         Spec.Subseq (Bot.approvals t)
                     (map Bot.txItem (Bot.pendingOf t)
                      ++ map Bot.msgItem (Bot.pendingMessagesOf t))
         /\ (NoDup (map Bot.txItem (Bot.pendingOf t)
                    ++ map Bot.msgItem (Bot.pendingMessagesOf t)) ->
             Spec.approvedAtMostOnce t)).
Proof.
  split; [|split; [|split; [|split]]].
  - intros p w Ha. apply signedBy_spec in Ha.
    unfold Bot.processTransaction. cbv zeta.
    unfold Bot.hasAlreadySigned. rewrite Ha. reflexivity.
  - intros p w Ha. apply signedBy_spec in Ha.
    unfold Bot.processMessage. cbv zeta.
    unfold Bot.hasAlreadySignedMessage. rewrite Ha. reflexivity.
  - intros w i t Hin. subst t.
    destruct (scan_shape api env svc w) as (w' & t & E & _ & _ & _ & Ha & _).
    rewrite E in *. unfold Bot.trace in *. simpl in *.
    apply (Subseq_incl _ _ Ha) in Hin. apply in_app_or in Hin.
    destruct Hin as [Hin|Hin]; apply in_map_iff in Hin;
      destruct Hin as (p & Ep & Hp).
    + left. exists p. apply unsigned_not_approved in Hp. tauto.
    + right. exists p. apply unsigned_message_not_approved in Hp. tauto.
  - intros w k t Hin. subst t.
    destruct (scan_shape api env svc w) as (w' & t & E & _ & _ & _ & _ & Hs).
    rewrite E in *. unfold Bot.trace in *. simpl in *.
    apply (Subseq_incl _ _ Hs) in Hin. apply in_app_or in Hin.
    destruct Hin as [Hin|Hin]; apply in_map_iff in Hin;
      destruct Hin as (p & Ep & Hp).
    + left. exists p. apply unsigned_not_approved in Hp. tauto.
    + right. exists p. apply unsigned_message_not_approved in Hp. tauto.
  - intros w t. subst t.
    destruct (scan_shape api env svc w) as (w' & t & E & _ & _ & _ & Ha & _).
    rewrite E. unfold Bot.trace. simpl.
    assert (Hsub : Spec.Subseq (Bot.approvals t)
                     (map Bot.txItem (Bot.pendingOf t)
                      ++ map Bot.msgItem (Bot.pendingMessagesOf t))).
    { eapply Subseq_trans; [exact Ha|].
      apply Subseq_app; apply Subseq_map; apply Subseq_filter. }
    split; [exact Hsub|].
    intros Hn. unfold Spec.approvedAtMostOnce. eapply Subseq_NoDup; eassumption.
Qed.

Lemma C3_already_approved_is_skipped_witness :
  Bot.processTransaction Examples.answers Examples.noEnv Examples.service
                         Examples.approvedTransfer tt
  = (Ok false, tt,
     [Bot.Log (Bot.LogTransactionEvent 1 "0xa2" "processing_started" []);
      Bot.Log (Bot.LogTransactionEvent 1 "0xa2" "already_signed" [])])
  /\ Bot.processMessage Examples.answers Examples.service
                        Examples.approvedMessage tt
     = (Ok false, tt,
        [Bot.Log (Bot.LogMessageEvent 1 "0xc2" "Processing message");
         Bot.Log (Bot.LogMessageEvent 1 "0xc2" "Already signed message")])
  /\ Spec.approvedAtMostOnce
       (Bot.trace (Bot.scanAndProcess Examples.answers Examples.noEnv
                                      Examples.service tt)).
Proof.
  split; [|split].
  - apply (proj1 (C3_already_approved_is_skipped
                    Examples.answers Examples.noEnv Examples.service)
                 Examples.approvedTransfer tt).
    eexists; eexists. split; [reflexivity|]. split; [left; reflexivity|].
    reflexivity.
  - apply (proj1 (proj2 (C3_already_approved_is_skipped
                           Examples.answers Examples.noEnv Examples.service))
                 Examples.approvedMessage tt).
    eexists; eexists. split; [reflexivity|]. split; [left; reflexivity|].
    reflexivity.
  - apply (proj2 (proj2 (proj2 (proj2 (C3_already_approved_is_skipped
                    Examples.answers Examples.noEnv Examples.service))))
                 tt).
    vm_compute.
    repeat (constructor;
            [simpl; intros H;
             repeat (destruct H as [H|H]; [discriminate H|]); exact H|]).
    constructor.
Defined.

(* ------------------------------------------------------------------ *)
(** ** The phases of a scan cycle                                      *)
(* ------------------------------------------------------------------ *)

Lemma needsConfirmations_few (m : Bot.SafeMessage) :
  Bot.needsConfirmations m = Asked.fewConfirmations m.
Proof.
  unfold Bot.needsConfirmations, Asked.fewConfirmations.
  destruct (Z.ltb_spec 0 (2 - Z.of_nat (Bot.confirmationCount
                                          (Bot.msg_confirmations m))));
    destruct (Nat.ltb_spec (Bot.confirmationCount (Bot.msg_confirmations m)) 2);
    try reflexivity; lia.
Qed.

Lemma filter_pointwise {A} (f g : A -> bool) (l : list A) :
  (forall x, f x = g x) -> filter f l = filter g l.
Proof.
  intros H. induction l as [|x l IH]; simpl; [reflexivity|].
  now rewrite H, IH.
Qed.

Section PhaseFacts.

Import Bot.

Context {W : Type}.
Variable api : Service W.
Variable env : Env.
Variable svc : SafeService.

(** The fetch loops return what the networks answer when they are asked
    one after the other. *)
Lemma fetchTransactions_asked (cs : list Z) (acc : list PendingTransaction)
      (w : W) :
  exists t,
    forOf cs (fetchTransactions api svc) acc w
    = (Ok (acc ++ Asked.transactionsIn
                    (fst (Asked.askEach (getPendingTransactions_api api)
                                        (filter (hasKey (safeApiKits svc)) cs) w))),
       snd (Asked.askEach (getPendingTransactions_api api)
                          (filter (hasKey (safeApiKits svc)) cs) w),
       t).
Proof.
  revert acc w. induction cs as [|c cs IH]; intros acc w.
  - exists []. simpl. unfold ret. now rewrite app_nil_r.
  - rewrite forOf_cons, fetchTransactions_eq. simpl filter.
    destruct (hasKey (safeApiKits svc) c).
    + simpl Asked.askEach.
      destruct (getPendingTransactions_api api c w) as [[l|] w1].
      * destruct (IH (acc ++ map (pendingTx c) l) w1) as (t & E). rewrite E.
        destruct (Asked.askEach (getPendingTransactions_api api)
                                (filter (hasKey (safeApiKits svc)) cs) w1)
          as [answers w2].
        eexists. unfold Asked.transactionsIn. simpl.
        now rewrite <- app_assoc.
      * destruct (IH acc w1) as (t & E). rewrite E.
        destruct (Asked.askEach (getPendingTransactions_api api)
                                (filter (hasKey (safeApiKits svc)) cs) w1)
          as [answers w2].
        eexists. unfold Asked.transactionsIn. simpl. reflexivity.
    + destruct (IH acc w) as (t & E). rewrite E. eexists. reflexivity.
Qed.

Lemma fetchMessages_asked (cs : list Z) (acc : list PendingMessage) (w : W) :
  exists t,
    forOf cs (fetchMessages api svc) acc w
    = (Ok (acc ++ Asked.messagesIn
                    (fst (Asked.askEach (getMessages_api api)
                                        (filter (hasKey (safeApiKits svc)) cs) w))),
       snd (Asked.askEach (getMessages_api api)
                          (filter (hasKey (safeApiKits svc)) cs) w),
       t).
Proof.
  revert acc w. induction cs as [|c cs IH]; intros acc w.
  - exists []. simpl. unfold ret. now rewrite app_nil_r.
  - rewrite forOf_cons, fetchMessages_eq. simpl filter.
    destruct (hasKey (safeApiKits svc) c).
    + simpl Asked.askEach.
      destruct (getMessages_api api c w) as [[l|] w1].
      * destruct (IH (acc ++ map (pendingMsg c) (filter needsConfirmations l)) w1)
          as (t & E).
        rewrite E.
        destruct (Asked.askEach (getMessages_api api)
                                (filter (hasKey (safeApiKits svc)) cs) w1)
          as [answers w2].
        eexists. unfold Asked.messagesIn. simpl.
        rewrite (filter_pointwise _ _ l needsConfirmations_few).
        now rewrite <- app_assoc.
      * destruct (IH acc w1) as (t & E). rewrite E.
        destruct (Asked.askEach (getMessages_api api)
                                (filter (hasKey (safeApiKits svc)) cs) w1)
          as [answers w2].
        eexists. unfold Asked.messagesIn. simpl. reflexivity.
    + destruct (IH acc w) as (t & E). rewrite E. eexists. reflexivity.
Qed.

(** A scan cycle is four runs one after the other: the fetch of the
    transactions, their processing, the fetch of the messages, their
    processing. It never raises, and its trace is the four traces in that
    order, between the log entries of the cycle. *)
Lemma scan_phases (w : W) :
  exists t1 w1 n t2 w2 t3 w3 m t4 w4,
    getPendingTransactions api svc w = (Ok (pendingOf t1), w1, t1)
    /\ processTransactions api env svc (pendingOf t1) w1 = (Ok n, w2, t2)
    /\ getPendingMessages api svc w2 = (Ok (pendingMessagesOf t3), w3, t3)
    /\ processMessages api svc (pendingMessagesOf t3) w3 = (Ok m, w4, t4)
    /\ scanAndProcess api env svc w
       = (Ok tt, w4,
          Log (LogText "Starting scan for pending transactions and messages...")
            :: t1
            ++ Log (LogFound "transactions" (List.length (pendingOf t1)))
            :: t2
            ++ t3
            ++ Log (LogFound "messages" (List.length (pendingMessagesOf t3)))
            :: t4
            ++ [Measure.summary n m])
    /\ (transactionCalls t1 = Asked.chainsWithClient svc
        /\ messageCalls t1 = [] /\ processed t1 = []
        /\ approvals t1 = [] /\ signatures t1 = [])
    /\ (processed t2 = map txItem (pendingOf t1)
        /\ transactionCalls t2 = [] /\ messageCalls t2 = []
        /\ Spec.Subseq (approvals t2)
                       (map txItem (unsignedTransactions svc (pendingOf t1))))
    /\ (messageCalls t3 = Asked.chainsWithClient svc
        /\ transactionCalls t3 = [] /\ processed t3 = []
        /\ approvals t3 = [] /\ signatures t3 = [])
    /\ (processed t4 = map msgItem (pendingMessagesOf t3)
        /\ transactionCalls t4 = [] /\ messageCalls t4 = []
        /\ Spec.Subseq (approvals t4)
                       (map msgItem (unsignedMessages svc (pendingMessagesOf t3))))
    /\ (pendingOf t1
        = Asked.transactionsIn
            (fst (Asked.askEach (getPendingTransactions_api api)
                                (Asked.chainsWithClient svc) w))
        /\ w1 = snd (Asked.askEach (getPendingTransactions_api api)
                                   (Asked.chainsWithClient svc) w))
    /\ (pendingMessagesOf t3
        = Asked.messagesIn
            (fst (Asked.askEach (getMessages_api api)
                                (Asked.chainsWithClient svc) w2))
        /\ w3 = snd (Asked.askEach (getMessages_api api)
                                   (Asked.chainsWithClient svc) w2)).
Proof.
  destruct (fetchTransactions_loop api svc (enabledChains svc) [] w)
    as (w1 & t1 & E1 & A1 & A2 & A3 & A4 & A5 & A6).
  simpl in E1.
  destruct (processTransactions_loop api env svc (pendingOf t1) 0 w1)
    as (n & w2 & t2 & E2 & B1 & B2 & B3 & B4 & B5 & B6 & B7).
  destruct (fetchMessages_loop api svc (enabledChains svc) [] w2)
    as (w3 & t3 & E3 & C1 & C2 & C3 & C4 & C5 & C6).
  simpl in E3.
  destruct (processMessages_loop api svc (pendingMessagesOf t3) 0 w3)
    as (m & w4 & t4 & E4 & D1 & D2 & D3 & D4 & D5 & D6 & D7).
  exists t1, w1, n, t2, w2, t3, w3, m, t4, w4.
  split; [exact E1|]. split; [exact E2|]. split; [exact E3|]. split; [exact E4|].
  split.
  { unfold scanAndProcess.
    unfold getPendingTransactions, processTransactions, getPendingMessages,
      processMessages in *.
    unfold tryCatch at 1. unfold bind at 1. unfold log at 1, emit at 1.
    unfold bind at 1. rewrite E1.
    unfold bind at 1. unfold log at 1, emit at 1. unfold bind at 1.
    rewrite E2.
    unfold bind at 1. rewrite E3.
    unfold bind at 1. unfold log at 1, emit at 1. unfold bind at 1.
    rewrite E4.
    unfold Measure.summary.
    destruct ((0 <? n)%nat || (0 <? m)%nat); unfold log, emit; reflexivity. }
  split; [unfold Asked.chainsWithClient; auto|].
  split; [auto|].
  split; [unfold Asked.chainsWithClient; auto|].
  split; [auto|].
  split.
  - destruct (fetchTransactions_asked (enabledChains svc) [] w) as (t & E).
    rewrite E1 in E. simpl in E. injection E as Ea Eb _.
    unfold Asked.chainsWithClient. auto.
  - destruct (fetchMessages_asked (enabledChains svc) [] w2) as (t & E).
    rewrite E3 in E. simpl in E. injection E as Ea Eb _.
    unfold Asked.chainsWithClient. auto.
Qed.

End PhaseFacts.

(* ------------------------------------------------------------------ *)
(** ** Order of a scan cycle                                           *)
(* ------------------------------------------------------------------ *)

(** C5, as worded, fails: with one transaction and one message waiting on
    each of two networks, the message of the first network is processed
    after the transaction of the second. *)
Lemma C5_two_networks_counterexample :
  Bot.processed
    (Bot.trace (Bot.scanAndProcess Examples.answers Examples.noEnv
                                   Examples.service tt))
  = [Bot.TxItem 1 "0xa1"; Bot.TxItem 137 "0xb1";
     Bot.MsgItem 1 "0xc1"; Bot.MsgItem 137 "0xd1"]
  /\ ~ Spec.perNetworkOrder
       (Bot.enabledChains Examples.service)
       (Bot.processed
          (Bot.trace (Bot.scanAndProcess Examples.answers Examples.noEnv
                                         Examples.service tt))).
Proof.
  split; [vm_compute; reflexivity|].
  unfold Spec.perNetworkOrder. vm_compute. discriminate.
Qed.

(** C5, amended: a scan cycle runs in four phases, one after the other.
    First every network with a client is asked for its pending
    transactions, in the order of the enabled networks; nothing is
    processed and no messages are asked for meanwhile. Then all the
    transactions answered are processed, in the order of the answers,
    network after network; no network is asked for anything meanwhile.
    Only then is every network asked for its messages, and last the
    messages that need confirmations are processed in the order of the
    answers. So every transaction of every network is processed before
    the messages of any network are fetched. *)
Theorem C5_scan_order {W : Type} (api : Bot.Service W) (env : Env)
        (svc : Bot.SafeService) (w : W) :
  let t := Bot.trace (Bot.scanAndProcess api env svc w) in
  (Bot.processed t
   = map Bot.txItem (Bot.pendingOf t) ++ map Bot.msgItem (Bot.pendingMessagesOf t)
   /\ Bot.transactionCalls t
      = filter (Bot.hasKey (Bot.safeApiKits svc)) (Bot.enabledChains svc)
   /\ Bot.messageCalls t
      = filter (Bot.hasKey (Bot.safeApiKits svc)) (Bot.enabledChains svc))
  /\ exists t1 t2 t3 t4 n m,
      t = Bot.Log (Bot.LogText
                     "Starting scan for pending transactions and messages...")
            :: t1
            ++ Bot.Log (Bot.LogFound "transactions"
                                     (List.length (Bot.pendingOf t1)))
            :: t2
            ++ t3
            ++ Bot.Log (Bot.LogFound "messages"
                                     (List.length (Bot.pendingMessagesOf t3)))
            :: t4
            ++ [Measure.summary n m]
      /\ (Bot.transactionCalls t1
          = filter (Bot.hasKey (Bot.safeApiKits svc)) (Bot.enabledChains svc)
          /\ Bot.messageCalls t1 = [] /\ Bot.processed t1 = []
          /\ Bot.approvals t1 = [])
      /\ (Bot.processed t2 = map Bot.txItem (Bot.pendingOf t1)
          /\ Bot.transactionCalls t2 = [] /\ Bot.messageCalls t2 = []
          /\ filter Bot.isMessage (Bot.approvals t2) = [])
      /\ (Bot.messageCalls t3
          = filter (Bot.hasKey (Bot.safeApiKits svc)) (Bot.enabledChains svc)
          /\ Bot.transactionCalls t3 = [] /\ Bot.processed t3 = []
          /\ Bot.approvals t3 = [])
      /\ (Bot.processed t4 = map Bot.msgItem (Bot.pendingMessagesOf t3)
          /\ Bot.transactionCalls t4 = [] /\ Bot.messageCalls t4 = []
          /\ filter (fun i => negb (Bot.isMessage i)) (Bot.approvals t4) = []).
Proof.
  cbv zeta. split.
  - destruct (scan_shape api env svc w) as (w' & t & E & H1 & H2 & H3 & _).
    rewrite E. unfold Bot.trace. simpl. auto.
  - destruct (scan_phases api env svc w)
      as (t1 & w1 & n & t2 & w2 & t3 & w3 & m & t4 & w4
          & _ & _ & _ & _ & E & P1 & P2 & P3 & P4 & _).
    rewrite E. unfold Bot.trace. simpl snd.
    exists t1, t2, t3, t4, n, m. split; [reflexivity|].
    destruct P1 as (A1 & A2 & A3 & A4 & _).
    destruct P2 as (B1 & B2 & B3 & B4).
    destruct P3 as (C1 & C2 & C3 & C4 & _).
    destruct P4 as (D1 & D2 & D3 & D4).
    unfold Asked.chainsWithClient in *.
    repeat split; try assumption.
    + apply Subseq_incl in B4.
      destruct (filter Bot.isMessage (Bot.approvals t2)) as [|i l] eqn:F;
        [reflexivity|].
      assert (Hi : In i (filter Bot.isMessage (Bot.approvals t2)))
        by (rewrite F; now left).
      apply filter_In in Hi. destruct Hi as [Hi Hm].
      apply B4 in Hi. apply in_map_iff in Hi. destruct Hi as (p & <- & _).
      discriminate Hm.
    + apply Subseq_incl in D4.
      destruct (filter (fun i => negb (Bot.isMessage i)) (Bot.approvals t4))
        as [|i l] eqn:F; [reflexivity|].
      assert (Hi : In i (filter (fun i => negb (Bot.isMessage i))
                                (Bot.approvals t4)))
        by (rewrite F; now left).
      apply filter_In in Hi. destruct Hi as [Hi Hm].
      apply D4 in Hi. apply in_map_iff in Hi. destruct Hi as (p & <- & _).
      discriminate Hm.
Qed.

(* ------------------------------------------------------------------ *)
(** ** A network that cannot be reached                                *)
(* ------------------------------------------------------------------ *)



(* ------------------------------------------------------------------ *)
(** ** Messages with two confirmations                                 *)
(* ------------------------------------------------------------------ *)

Lemma needsConfirmations_spec (m : Bot.SafeMessage) :
  Bot.needsConfirmations m = true
  <-> (Bot.confirmationCount (Bot.msg_confirmations m) < 2)%nat.
Proof.
  unfold Bot.needsConfirmations. rewrite Z.ltb_lt. lia.
Qed.

Lemma pendingMessagesOf_In (t : list Bot.Event) (p : Bot.PendingMessage) :
  In p (Bot.pendingMessagesOf t) <->
  exists c l m,
    In (Bot.GetMessages c (Some l)) t /\ In m l
    /\ (Bot.confirmationCount (Bot.msg_confirmations m) < 2)%nat
    /\ p = Bot.pendingMsg c m.
Proof.
  unfold Bot.pendingMessagesOf. rewrite in_flat_map. split.
  - intros (e & He & Hp). destruct e as [| c [l|] | | | | |]; try contradiction.
    simpl in Hp. apply in_map_iff in Hp. destruct Hp as (m & <- & Hm).
    apply filter_In in Hm. destruct Hm as [Hm Hn].
    apply needsConfirmations_spec in Hn. exists c, l, m. auto.
  - intros (c & l & m & He & Hm & Hn & ->).
    exists (Bot.GetMessages c (Some l)). split; [assumption|].
    simpl. apply in_map. apply filter_In. split; [assumption|].
    now apply needsConfirmations_spec.
Qed.

Lemma filter_isMessage_processed (txs : list Bot.PendingTransaction)
      (msgs : list Bot.PendingMessage) :
  filter Bot.isMessage (map Bot.txItem txs ++ map Bot.msgItem msgs)
  = map Bot.msgItem msgs.
Proof.
  rewrite filter_app.
  assert (E1 : filter Bot.isMessage (map Bot.txItem txs) = [])
    by (induction txs; simpl; auto).
  assert (E2 : filter Bot.isMessage (map Bot.msgItem msgs) = map Bot.msgItem msgs)
    by (induction msgs; simpl; congruence).
  now rewrite E1, E2.
Qed.

(** C10: [getPendingMessages] always returns, and what it returns are the
    messages of the answers that have fewer than two confirmations, each
    with a required count of 2; a message answered with two confirmations
    or more is in no entry of the result. In a scan cycle the messages
    processed are exactly those entries, and every message approval
    submitted is for one of them. *)
Theorem C10_confirmed_messages_are_dropped {W : Type} (api : Bot.Service W)
        (env : Env) (svc : Bot.SafeService) (w : W) :
  (exists l w' t,
      Bot.getPendingMessages api svc w = (Ok l, w', t)
      /\ (forall p, In p l <->
                    exists c answer m,
                      In (Bot.GetMessages c (Some answer)) t /\ In m answer
                      /\ (Bot.confirmationCount (Bot.msg_confirmations m) < 2)%nat
                      /\ p = Bot.pendingMsg c m)
      /\ (forall p, In p l ->
                    (Bot.confirmationCount
                       (Bot.msg_confirmations (Bot.pm_message p)) < 2)%nat
                    /\ Bot.pm_confirmationsRequired p = 2%Z))
  /\ (let t := Bot.trace (Bot.scanAndProcess api env svc w) in
      filter Bot.isMessage (Bot.processed t)
      = map Bot.msgItem (Bot.pendingMessagesOf t)
      /\ (forall p, In p (Bot.pendingMessagesOf t) ->
                    (Bot.confirmationCount
                       (Bot.msg_confirmations (Bot.pm_message p)) < 2)%nat)
      /\ (forall i, In i (Bot.approvals t) -> Bot.isMessage i = true ->
                    In i (map Bot.msgItem (Bot.pendingMessagesOf t)))).
Proof.
  split.
  - unfold Bot.getPendingMessages.
    destruct (fetchMessages_loop api svc (Bot.enabledChains svc) [] w)
      as (w' & t & E & _).
    simpl in E. exists (Bot.pendingMessagesOf t), w', t.
    split; [exact E|]. split.
    + intros p. apply pendingMessagesOf_In.
    + intros p Hp. apply pendingMessagesOf_In in Hp.
      destruct Hp as (c & l & m & _ & _ & Hn & ->). simpl. auto.
  - destruct (scan_shape api env svc w) as (w' & t & E & H1 & _ & _ & Ha & _).
    rewrite E. unfold Bot.trace. simpl. split; [|split].
    + rewrite H1. apply filter_isMessage_processed.
    + intros p Hp. apply pendingMessagesOf_In in Hp.
      destruct Hp as (c & l & m & _ & _ & Hn & ->). simpl. auto.
    + intros i Hi Hm. apply (Subseq_incl _ _ Ha) in Hi. apply in_app_or in Hi.
      destruct Hi as [Hi|Hi].
      * apply in_map_iff in Hi. destruct Hi as (p & <- & _). discriminate.
      * apply in_map_iff in Hi. destruct Hi as (p & <- & Hp).
        apply in_map. unfold Bot.unsignedMessages in Hp.
        apply filter_In in Hp. tauto.
Qed.

Lemma C10_confirmed_messages_are_dropped_witness :
  (Bot.confirmationCount (Bot.msg_confirmations Examples.fullMessage) = 2)%nat
  /\ filter Bot.isMessage
            (Bot.processed
               (Bot.trace (Bot.scanAndProcess Examples.answers Examples.noEnv
                                              Examples.service tt)))
     = [Bot.MsgItem 1 "0xc1"; Bot.MsgItem 137 "0xd1"].
Proof.
  split; [reflexivity|].
  rewrite (proj1 (proj2 (C10_confirmed_messages_are_dropped
                           Examples.answers Examples.noEnv Examples.service tt))).
  reflexivity.
Defined.

(* ------------------------------------------------------------------ *)
(** ** Validation of the enabled chains                                *)
(* ------------------------------------------------------------------ *)

Lemma filter_filter_negb {A} (f : A -> bool) (l : list A) :
  filter (fun x => negb (f x)) (filter f l) = [].
Proof.
  induction l as [|x l IH]; simpl; [reflexivity|].
  destruct (f x) eqn:E; simpl; [rewrite E; simpl|]; exact IH.
Qed.

(* ------------------------------------------------------------------ *)
(** ** The rule set at run time                                        *)
(* ------------------------------------------------------------------ *)

Section RuleSetFacts.

Import DenyList.

Lemma checker_eta (c : DenyListChecker) : mkChecker (rules c) = c.
Proof. now destruct c. Qed.

Lemma filter_all {A} (f : A -> bool) (l : list A) :
  (forall x, In x l -> f x = true) -> filter f l = l.
Proof.
  induction l as [|x l IH]; intros H; simpl; [reflexivity|].
  rewrite (H x (or_introl eq_refl)). f_equal. apply IH.
  intros y Hy. apply H. now right.
Qed.

Lemma denied_iff (c : DenyListChecker) (env : Env) (tx : MetaTransactionData) :
  denied (isDenied c env tx) = true
  <-> exists r, In r (rules c) /\ check r env tx = true.
Proof.
  unfold isDenied; simpl. split.
  - destruct (filter (fun rule => check rule env tx) (rules c)) as [|r l] eqn:E;
      [discriminate|].
    intros _. exists r.
    assert (H : In r (filter (fun rule => check rule env tx) (rules c)))
      by (rewrite E; now left).
    apply filter_In in H. exact H.
  - intros (r & Hin & Hc).
    assert (H : In r (filter (fun rule => check rule env tx) (rules c)))
      by (apply filter_In; auto).
    destruct (filter _ (rules c)); [contradiction | reflexivity].
Qed.

Lemma removeRule_In (c : DenyListChecker) (ruleId : string) (r : DenyListRule) :
  In r (rules (removeRule c ruleId)) <-> In r (rules c) /\ id r <> ruleId.
Proof.
  unfold removeRule; simpl. rewrite filter_In.
  destruct (String.eqb_spec (id r) ruleId); simpl; split;
    intros [H1 H2]; split; congruence.
Qed.

Lemma bool_same_truth (a b : bool) : (a = true <-> b = true) -> a = b.
Proof.
  destruct a, b; intros [H1 H2]; try reflexivity.
  - symmetry. now apply H1.
  - now apply H2.
Qed.

(** X1: [addRule] puts the new rule behind all the others: the reasons
    reported before are reported unchanged and the new rule's reason
    follows them when it triggers; the flag becomes the old flag or the
    new rule's verdict. *)
Theorem X1_addRule_appends (c : DenyListChecker) (r : DenyListRule)
        (env : Env) (tx : MetaTransactionData) :
  reasons (isDenied (addRule c r) env tx)
  = reasons (isDenied c env tx)
    ++ (if check r env tx then [reasonOf r] else [])
  /\ denied (isDenied (addRule c r) env tx)
     = denied (isDenied c env tx) || check r env tx.
Proof.
  unfold isDenied, addRule; simpl. rewrite filter_app, map_app. simpl.
  split.
  - now destruct (check r env tx).
  - rewrite length_app.
    destruct (filter (fun rule => check rule env tx) (rules c));
      destruct (check r env tx); reflexivity.
Qed.

(** X2: [removeRule] drops every rule that carries the identifier, keeps
    the others in their order, and does nothing when no rule carries it;
    the reasons reported afterwards are part of those reported before, so
    removing a rule never turns an allowed transaction into a denied
    one. *)
Theorem X2_removeRule_drops_all (c : DenyListChecker) (ruleId : string)
        (env : Env) (tx : MetaTransactionData) :
  (forall r, In r (rules (removeRule c ruleId))
             <-> In r (rules c) /\ id r <> ruleId)
  /\ Spec.Subseq (rules (removeRule c ruleId)) (rules c)
  /\ Spec.Subseq (reasons (isDenied (removeRule c ruleId) env tx))
                 (reasons (isDenied c env tx))
  /\ (denied (isDenied (removeRule c ruleId) env tx) = true ->
      denied (isDenied c env tx) = true)
  /\ ((forall r, In r (rules c) -> id r <> ruleId) -> removeRule c ruleId = c).
Proof.
  split; [|split; [|split; [|split]]].
  - intros r. apply removeRule_In.
  - apply Subseq_filter.
  - unfold isDenied, removeRule; simpl. apply Subseq_map.
    induction (rules c) as [|r l IH]; simpl; [constructor|].
    destruct (negb (id r =? ruleId)%string); simpl;
      destruct (check r env tx); simpl; try constructor; assumption.
  - rewrite !denied_iff. intros (r & Hin & Hc). exists r. split; [|assumption].
    unfold removeRule in Hin; simpl in Hin. apply filter_In in Hin. tauto.
  - intros H. unfold removeRule. rewrite filter_all; [apply checker_eta|].
    intros r Hr. apply H in Hr.
    destruct (String.eqb_spec (id r) ruleId); [contradiction | reflexivity].
Qed.

Lemma X2_removeRule_drops_all_witness :
  removeRule (newChecker []) "NO_SUCH_RULE" = newChecker [].
Proof.
  apply (proj2 (proj2 (proj2 (proj2
           (X2_removeRule_drops_all (newChecker []) "NO_SUCH_RULE"
                                    Examples.noEnv Examples.plainTx))))).
  intros r Hr. simpl in Hr.
  destruct Hr as [<-|[<-|[<-|[<-|[]]]]]; discriminate.
Defined.

(** X3: removing the identifier of a rule just added undoes the addition
    together with every older rule of that identifier; when the identifier
    was new, the checker is back to what it was. *)
Theorem X3_addRule_removeRule (c : DenyListChecker) (r : DenyListRule) :
  removeRule (addRule c r) (id r) = removeRule c (id r)
  /\ ((forall r', In r' (rules c) -> id r' <> id r) ->
      removeRule (addRule c r) (id r) = c).
Proof.
  assert (E : removeRule (addRule c r) (id r) = removeRule c (id r)).
  { unfold removeRule, addRule; simpl. rewrite filter_app. simpl.
    rewrite String.eqb_refl. simpl. now rewrite app_nil_r. }
  split; [exact E|].
  intros H. rewrite E. unfold removeRule. rewrite filter_all; [apply checker_eta|].
  intros r' Hr. apply H in Hr.
  destruct (String.eqb_spec (id r') (id r)); [contradiction | reflexivity].
Qed.

Lemma X3_addRule_removeRule_witness :
  removeRule (addRule (newChecker [])
                      (mkRule "CUSTOM" "A rule of the operator" (fun _ _ => true)))
             "CUSTOM"
  = newChecker [].
Proof.
  apply (proj2 (X3_addRule_removeRule
                  (newChecker [])
                  (mkRule "CUSTOM" "A rule of the operator" (fun _ _ => true)))).
  intros r Hr. simpl in Hr.
  destruct Hr as [<-|[<-|[<-|[<-|[]]]]]; discriminate.
Defined.

End RuleSetFacts.

Section PolicyFacts.

Import DenyList.

Lemma someSelector_sub (s1 s2 : list string) (tx : MetaTransactionData) :
  incl s1 s2 -> someSelector s1 tx = true -> someSelector s2 tx = true.
Proof.
  unfold someSelector. rewrite !existsb_exists.
  intros Hi (sel & Hin & H). exists sel. auto.
Qed.

(** X4: the threshold-change rule never fires alone: whenever it
    triggers, the ownership-transfer rule triggers too, so taking the
    threshold rule out of the built-in set changes no verdict. *)
Theorem X4_threshold_rule_is_covered (env : Env) (tx : MetaTransactionData) :
  (check SAFE_THRESHOLD_CHANGE env tx = true ->
   check SAFE_OWNERSHIP_TRANSFER env tx = true)
  /\ denied (isDenied (removeRule (newChecker []) "SAFE_THRESHOLD_CHANGE") env tx)
     = denied (isDenied (newChecker []) env tx).
Proof.
  assert (H : check SAFE_THRESHOLD_CHANGE env tx = true ->
              check SAFE_OWNERSHIP_TRANSFER env tx = true).
  { change (someSelector thresholdSelectors tx = true ->
            someSelector ownershipSelectors tx = true).
    apply someSelector_sub. intros x [<-|[]]. simpl. auto. }
  split; [exact H|].
  apply bool_same_truth. rewrite !denied_iff. split.
  - intros (r & Hin & Hc). apply removeRule_In in Hin. exists r. tauto.
  - intros (r & Hin & Hc).
    destruct (String.eqb_spec (id r) "SAFE_THRESHOLD_CHANGE") as [E|N].
    + exists SAFE_OWNERSHIP_TRANSFER. split.
      * apply removeRule_In. split; [simpl; auto | discriminate].
      * apply H. simpl in Hin.
        destruct Hin as [<-|[<-|[<-|[<-|[]]]]];
          try discriminate E; exact Hc.
    + exists r. split; [|exact Hc]. apply removeRule_In. auto.
Qed.

Lemma X4_threshold_rule_is_covered_witness :
  check SAFE_OWNERSHIP_TRANSFER Examples.noEnv Examples.changeThresholdTx = true.
Proof.
  apply (proj1 (X4_threshold_rule_is_covered Examples.noEnv
                                             Examples.changeThresholdTx)).
  reflexivity.
Defined.

(** X5: the built-in policy as a whole. A checker without custom rules
    denies a transaction exactly when its call data starts, up to case,
    with one of the six listed selectors, or it is a delegate call that
    the allowlist does not cover (empty allowlist, or a non-empty target
    that matches no entry). *)
Theorem X5_built_in_policy (env : Env) (tx : MetaTransactionData) :
  denied (isDenied (newChecker []) env tx) = true
  <-> Spec.startsWithSelector Measure.allSelectors tx
      \/ (Spec.isDelegateCall tx
          /\ (trustedDelegateContracts env = []
              \/ (~ Spec.noTarget tx
                  /\ ~ Spec.targetTrusted (trustedDelegateContracts env) tx))).
Proof.
  rewrite denied_iff. split.
  - intros (r & Hin & Hc). simpl in Hin.
    destruct Hin as [<-|[<-|[<-|[<-|[]]]]].
    + left. apply someSelector_spec.
      apply (someSelector_sub ownershipSelectors); [|exact Hc].
      intros x Hx. apply in_or_app. now left.
    + left. apply someSelector_spec.
      apply (someSelector_sub thresholdSelectors); [|exact Hc].
      intros x [<-|[]]. simpl. auto.
    + left. apply someSelector_spec.
      apply (someSelector_sub moduleSelectors); [|exact Hc].
      intros x Hx. apply in_or_app. now right.
    + right. now apply delegateCallCheck_spec.
  - intros [H|H].
    + apply someSelector_spec in H. unfold someSelector in H.
      apply existsb_exists in H. destruct H as (sel & Hin & H).
      apply in_app_or in Hin. destruct Hin as [Hin|Hin].
      * exists SAFE_OWNERSHIP_TRANSFER. split; [simpl; auto|].
        change (someSelector ownershipSelectors tx = true).
        unfold someSelector. apply existsb_exists. exists sel. auto.
      * exists SAFE_MODULE_MANAGEMENT. split; [simpl; auto|].
        change (someSelector moduleSelectors tx = true).
        unfold someSelector. apply existsb_exists. exists sel. auto.
    + exists DELEGATE_CALL_RESTRICTION. split; [simpl; auto|].
      now apply delegateCallCheck_spec.
Qed.

(** X6: custom rules handed to the constructor come after the four
    built-in rules and can only add denials: the built-in reasons are
    reported first, followed by the custom ones, and a transaction that
    the built-in rules deny stays denied. *)
Theorem X6_custom_rules_only_add (custom : list DenyListRule) (env : Env)
        (tx : MetaTransactionData) :
  reasons (isDenied (newChecker custom) env tx)
  = reasons (isDenied (newChecker []) env tx)
    ++ reasons (isDenied (mkChecker custom) env tx)
  /\ denied (isDenied (newChecker custom) env tx)
     = denied (isDenied (newChecker []) env tx)
       || denied (isDenied (mkChecker custom) env tx).
Proof.
  unfold isDenied. cbn [reasons denied].
  change (rules (newChecker custom)) with (DENY_LIST_RULES ++ custom).
  change (rules (newChecker [])) with (DENY_LIST_RULES ++ []).
  change (rules (mkChecker custom)) with custom.
  rewrite app_nil_r, filter_app, map_app. split; [reflexivity|].
  rewrite length_app.
  destruct (filter (fun rule => check rule env tx) DENY_LIST_RULES);
    destruct (filter (fun rule => check rule env tx) custom); reflexivity.
Qed.

Lemma prefixIgnoringCase_length (p s : string) :
  Spec.prefixIgnoringCase p s = true -> (String.length p <= String.length s)%nat.
Proof.
  revert s. induction p as [|a p IH]; intros s H; simpl; [lia|].
  destruct s as [|b s]; simpl in H; [discriminate|].
  apply andb_true_iff in H. destruct H as [_ H]. apply IH in H. simpl. lia.
Qed.

Lemma prefixIgnoringCase_two (a b : ascii) (p d : string) :
  Spec.prefixIgnoringCase (String a (String b p)) d = true ->
  Spec.prefixIgnoringCase (String a (String b EmptyString)) d = true.
Proof.
  destruct d as [|x [|y d]]; simpl; intros H; try discriminate.
  - rewrite andb_false_r in H. discriminate.
  - apply andb_true_iff in H. destruct H as [Ha H].
    apply andb_true_iff in H. destruct H as [Hb _].
    now rewrite Ha, Hb.
Qed.

(** X7: a selector rule looks at the call data as text: it fires only on
    call data of at least ten characters that begin with "0x" in either
    case; call data written without that prefix, or shorter than a full
    selector, triggers none of the three rules. *)
Theorem X7_selector_needs_prefix (env : Env) (tx : MetaTransactionData)
        (r : DenyListRule) :
  In r Spec.selectorRules ->
  check r env tx = true ->
  exists d,
    data tx = Some d
    /\ (10 <= String.length d)%nat
    /\ Spec.prefixIgnoringCase "0x" d = true.
Proof.
  intros Hr Hc.
  assert (H : Spec.startsWithSelector Measure.allSelectors tx).
  { simpl in Hr. destruct Hr as [<-|[<-|[<-|[]]]]; apply someSelector_spec.
    - apply (someSelector_sub ownershipSelectors); [|exact Hc].
      intros x Hx. apply in_or_app. now left.
    - apply (someSelector_sub thresholdSelectors); [|exact Hc].
      intros x [<-|[]]. simpl. auto.
    - apply (someSelector_sub moduleSelectors); [|exact Hc].
      intros x Hx. apply in_or_app. now right. }
  destruct H as (d & sel & Hd & Hin & Hp). exists d. split; [assumption|].
  simpl in Hin.
  destruct Hin as [<-|[<-|[<-|[<-|[<-|[<-|[]]]]]]];
    (split; [apply prefixIgnoringCase_length in Hp; exact Hp
            |eapply prefixIgnoringCase_two; exact Hp]).
Qed.

Lemma X7_selector_needs_prefix_witness :
  exists d,
    data Examples.addOwnerTx = Some d
    /\ (10 <= String.length d)%nat
    /\ Spec.prefixIgnoringCase "0x" d = true.
Proof.
  apply (X7_selector_needs_prefix Examples.noEnv Examples.addOwnerTx
                                  SAFE_OWNERSHIP_TRANSFER).
  - simpl. auto.
  - reflexivity.
Defined.

End PolicyFacts.

(* ------------------------------------------------------------------ *)
(** ** Reading the allowlist and the chain list                        *)
(* ------------------------------------------------------------------ *)

Lemma split_length (sep : ascii) (s : string) :
  List.length (JS.split sep s) = S (Measure.occurrences sep s).
Proof.
  induction s as [|c s IH]; simpl; [reflexivity|].
  destruct (Ascii.eqb c sep); simpl.
  - now rewrite IH.
  - destruct (JS.split sep s) as [|h t]; simpl in *; [discriminate | exact IH].
Qed.

Lemma trusted_of_text (env : Env) (s : string) :
  TRUSTED_DELEGATE_CONTRACTS env = Some s -> s <> EmptyString ->
  DenyList.trustedDelegateContracts env
  = map (fun addr => JS.toLowerCase (JS.trim addr)) (JS.split "," s).
Proof.
  intros E N. unfold DenyList.trustedDelegateContracts. rewrite E.
  destruct (String.eqb_spec s EmptyString); [contradiction | reflexivity].
Qed.

(** X8: under a non-empty [TRUSTED_DELEGATE_CONTRACTS] made of ASCII
    characters, a delegate call with a non-empty ASCII target is let
    through by the delegate-call rule exactly when some comma-separated
    entry of the variable, with the ASCII white space around it removed,
    equals the target up to the case of the letters A to Z. *)
Theorem X8_allowlist_entry_matching (env : Env) (s t : string)
        (tx : DenyList.MetaTransactionData) :
  TRUSTED_DELEGATE_CONTRACTS env = Some s -> s <> EmptyString ->
  Text.isAscii s = true ->
  Spec.isDelegateCall tx ->
  DenyList.to tx = Some t -> t <> EmptyString ->
  Text.isAscii t = true ->
  (DenyList.check DenyList.DELEGATE_CALL_RESTRICTION env tx = false
   <-> exists e, In e (JS.split "," s)
                 /\ JS.toLowerCase t = JS.toLowerCase (JS.trim e)).
Proof.
  intros Es Ns _ Hd Et Nt _.
  change (DenyList.check DenyList.DELEGATE_CALL_RESTRICTION env tx)
    with (DenyList.delegateCallCheck env tx).
  assert (Hne : (List.length (DenyList.trustedDelegateContracts env) =? 0)%nat
                = false).
  { rewrite (trusted_of_text env s Es Ns), length_map, split_length.
    reflexivity. }
  assert (Hi : DenyList.includes (DenyList.trustedDelegateContracts env)
                                 (JS.toLowerCase t) = true
               <-> exists e, In e (JS.split "," s)
                             /\ JS.toLowerCase t = JS.toLowerCase (JS.trim e)).
  { rewrite includes_In, (trusted_of_text env s Es Ns), in_map_iff. split.
    - intros (e & E & Hin). exists e. auto.
    - intros (e & Hin & E). exists e. auto. }
  unfold DenyList.delegateCallCheck.
  rewrite (proj2 (notDelegateCall_spec tx) Hd), Hne, Et. simpl JS.truthy.
  destruct (String.eqb_spec t EmptyString) as [|_]; [contradiction|].
  simpl negb at 1. rewrite andb_true_l.
  destruct (DenyList.includes (DenyList.trustedDelegateContracts env)
                              (JS.toLowerCase t)); simpl.
  - split; [intros _; now apply Hi | reflexivity].
  - split; [discriminate|]. intros H. apply Hi in H. discriminate.
Qed.

Lemma X8_allowlist_entry_matching_witness :
  DenyList.check DenyList.DELEGATE_CALL_RESTRICTION Examples.trustingEnv
                 (DenyList.mkTx (Some "0xDEF2") "0" (Some "0x") (Some 1%Z))
  = false.
Proof.
  apply (proj2 (X8_allowlist_entry_matching
                  Examples.trustingEnv "0xAbC1, 0xdef2" "0xDEF2"
                  (DenyList.mkTx (Some "0xDEF2") "0" (Some "0x") (Some 1%Z))
                  eq_refl ltac:(discriminate) eq_refl eq_refl eq_refl
                  ltac:(discriminate) eq_refl)).
  exists " 0xdef2". split; [right; left; reflexivity | reflexivity].
Defined.

(** X9: the allowlist is empty only when [TRUSTED_DELEGATE_CONTRACTS] is
    unset or the empty string. Any other value gives one entry more than
    it has commas, even when the entries are blank, so the deny-all
    default for delegate calls is then switched off. *)
Theorem X9_allowlist_size (env : Env) :
  (DenyList.trustedDelegateContracts env = []
   <-> TRUSTED_DELEGATE_CONTRACTS env = None
       \/ TRUSTED_DELEGATE_CONTRACTS env = Some EmptyString)
  /\ (forall s, TRUSTED_DELEGATE_CONTRACTS env = Some s -> s <> EmptyString ->
                List.length (DenyList.trustedDelegateContracts env)
                = S (Measure.occurrences "," s)).
Proof.
  split.
  - unfold DenyList.trustedDelegateContracts.
    destruct (TRUSTED_DELEGATE_CONTRACTS env) as [s|]; [|split; auto].
    destruct (String.eqb_spec s EmptyString) as [->|N]; [split; auto|].
    split.
    + intros E. apply (f_equal (@List.length string)) in E.
      rewrite length_map, split_length in E. discriminate.
    + intros [E|E]; congruence.
  - intros s E N. rewrite (trusted_of_text env s E N).
    now rewrite length_map, split_length.
Qed.

Lemma X9_allowlist_size_witness :
  List.length (DenyList.trustedDelegateContracts (mkEnv None (Some " , "))) = 2%nat.
Proof.
  apply (proj2 (X9_allowlist_size (mkEnv None (Some " , "))) " , " eq_refl).
  discriminate.
Defined.

Lemma hasConfig_spec (c : option Z) :
  Chains.hasConfig c = true
  <-> exists n, c = Some n /\ In n [1; 137; 42161; 10; 100; 8453; 146]%Z.
Proof.
  unfold Chains.hasConfig. destruct c as [n|].
  - rewrite existsb_exists. split.
    + intros (x & Hin & E). apply Z.eqb_eq in E. subst x. exists n. auto.
    + intros (m & E & Hin). injection E as <-. exists n.
      split; [exact Hin | apply Z.eqb_refl].
  - split; [discriminate|]. intros (n & E & _). discriminate.
Qed.

(** X10: every chain that [getEnabledChains] returns is a number among
    the seven configured chain ids, and [getChainConfig] accepts it;
    [getChainConfig] throws for every other number. *)
Theorem X10_enabled_chains_are_configured (env : Env) :
  (forall c, In c (Chains.getEnabledChains env) ->
             exists n, c = Some n
                       /\ In n [1; 137; 42161; 10; 100; 8453; 146]%Z
                       /\ Chains.getChainConfig n = Ok n)
  /\ (forall n, ~ In n [1; 137; 42161; 10; 100; 8453; 146]%Z ->
                Chains.getChainConfig n = Throw (Error "Unsupported chain ID")).
Proof.
  split.
  - intros c Hc.
    assert (H : Chains.hasConfig c = true).
    { unfold Chains.getEnabledChains in Hc.
      destruct (negb (JS.truthy (ENABLED_CHAINS env))).
      - simpl in Hc. destruct Hc as [<-|[<-|[]]]; reflexivity.
      - apply filter_In in Hc. tauto. }
    pose proof H as H'. apply hasConfig_spec in H'.
    destruct H' as (n & -> & Hin). exists n. repeat split; [assumption|].
    unfold Chains.getChainConfig. now rewrite H.
  - intros n Hn. unfold Chains.getChainConfig.
    destruct (Chains.hasConfig (Some n)) eqn:E; [|reflexivity].
    apply hasConfig_spec in E. destruct E as (m & E & Hin).
    injection E as <-. contradiction.
Qed.

Lemma X10_enabled_chains_are_configured_witness :
  Chains.getChainConfig 999 = Throw (Error "Unsupported chain ID").
Proof.
  apply (proj2 (X10_enabled_chains_are_configured Examples.noEnv) 999%Z).
  simpl. intros H.
  repeat (destruct H as [H|H]; [discriminate H|]). exact H.
Defined.

(** X11: the validation has one way to fail: [validateEnabledChains], and
    with it the opening of the constructor, throws "No enabled chains
    configured" exactly when [getEnabledChains] returns no chain, and
    otherwise the constructor keeps that list as the bot's enabled
    chains. The error "Unsupported chain IDs" is never thrown. *)
Theorem X11_validation_outcomes (env : Env) :
  (Chains.validateEnabledChains env = Ok tt
   <-> Chains.getEnabledChains env <> [])
  /\ match Bot.constructor env with
     | Ok l => l = Chains.getEnabledChains env /\ l <> []
     | Throw e =>
         e = Error "No enabled chains configured"
         /\ Chains.getEnabledChains env = []
     end.
Proof.
  assert (U : Chains.unsupportedChains env = []).
  { unfold Chains.unsupportedChains, Chains.getEnabledChains.
    destruct (negb (JS.truthy (ENABLED_CHAINS env))); [reflexivity|].
    apply filter_filter_negb. }
  unfold Bot.constructor, Chains.validateEnabledChains. rewrite U. simpl.
  destruct (Chains.getEnabledChains env) as [|c l]; simpl.
  - split; [split; [discriminate | congruence] | auto].
  - split; [split; [discriminate | reflexivity] | split; [reflexivity | discriminate]].
Qed.

(* ------------------------------------------------------------------ *)
(** ** Outcomes of processing one item                                 *)
(* ------------------------------------------------------------------ *)

Lemma built_in_selector_denies (custom : list DenyList.DenyListRule) (env : Env)
      (tx : DenyList.MetaTransactionData) :
  Spec.startsWithSelector Measure.allSelectors tx ->
  DenyList.denied (DenyList.isDenied (DenyList.newChecker custom) env tx) = true.
Proof.
  intros H. apply denied_iff.
  apply someSelector_spec in H. unfold DenyList.someSelector in H.
  apply existsb_exists in H. destruct H as (sel & Hin & H).
  apply in_app_or in Hin. destruct Hin as [Hin|Hin].
  - exists DenyList.SAFE_OWNERSHIP_TRANSFER. split; [simpl; auto|].
    change (DenyList.someSelector DenyList.ownershipSelectors tx = true).
    unfold DenyList.someSelector. apply existsb_exists. exists sel. auto.
  - exists DenyList.SAFE_MODULE_MANAGEMENT. split; [simpl; auto|].
    change (DenyList.someSelector DenyList.moduleSelectors tx = true).
    unfold DenyList.someSelector. apply existsb_exists. exists sel. auto.
Qed.

(** X12: a pending transaction that the operator has not signed and whose
    call data starts, up to case, with one of the six listed selectors is
    never signed by a service whose checker was built by the constructor:
    the run is the start entry and the "denied" entry with at least one
    reason, no signature is asked for, nothing is submitted, the outside
    is untouched and the result is [false]. *)
Theorem X12_denied_is_not_signed {W : Type} (api : Bot.Service W) (env : Env)
        (svc : Bot.SafeService) (custom : list DenyList.DenyListRule)
        (p : Bot.PendingTransaction) (d sel : string) (w : W) :
  Bot.hasAlreadySigned svc (Bot.pt_transaction p) = false ->
  Bot.denyListChecker svc = DenyList.newChecker custom ->
  Bot.tx_data (Bot.pt_transaction p) = Some d ->
  In sel Measure.allSelectors ->
  Spec.prefixIgnoringCase sel d = true ->
  exists reasons,
    reasons <> []
    /\ Bot.processTransaction api env svc p w
       = (Ok false, w,
          [Bot.Log (Bot.LogTransactionEvent
                      (Bot.pt_chainId p) (Bot.pt_safeTxHash p)
                      "processing_started" []);
           Bot.Log (Bot.LogTransactionEvent
                      (Bot.pt_chainId p) (Bot.pt_safeTxHash p) "denied" reasons)]).
Proof.
  intros Hs Hk Hd Hin Hp.
  assert (Hm : DenyList.data (Bot.metaTransaction (Bot.pt_transaction p)) = Some d).
  { unfold Bot.metaTransaction. simpl. rewrite Hd. simpl.
    destruct d as [|c d]; [|reflexivity].
    exfalso. apply prefixIgnoringCase_length in Hp. simpl in Hin.
    destruct Hin as [<-|[<-|[<-|[<-|[<-|[<-|[]]]]]]]; simpl in Hp; lia. }
  assert (Hden : DenyList.denied
                   (DenyList.isDenied (Bot.denyListChecker svc) env
                      (Bot.metaTransaction (Bot.pt_transaction p))) = true).
  { rewrite Hk. apply built_in_selector_denies. exists d, sel. auto. }
  exists (DenyList.reasons
            (DenyList.isDenied (Bot.denyListChecker svc) env
               (Bot.metaTransaction (Bot.pt_transaction p)))).
  split.
  - intros E. unfold DenyList.isDenied in Hden, E. simpl in Hden, E.
    destruct (filter _ (DenyList.rules (Bot.denyListChecker svc)));
      [discriminate Hden | discriminate E].
  - unfold Bot.processTransaction. cbv zeta. rewrite Hs, Hden. reflexivity.
Qed.

Lemma X12_denied_is_not_signed_witness :
  exists reasons,
    reasons <> []
    /\ Bot.processTransaction Examples.answers Examples.noEnv Examples.service
                              MoreExamples.addOwnerPending tt
       = (Ok false, tt,
          [Bot.Log (Bot.LogTransactionEvent 1 "0xe1" "processing_started" []);
           Bot.Log (Bot.LogTransactionEvent 1 "0xe1" "denied" reasons)]).
Proof.
  apply (X12_denied_is_not_signed
           Examples.answers Examples.noEnv Examples.service []
           MoreExamples.addOwnerPending
           "0x0d582f13000000000000000000000000" "0x0d582f13" tt);
    try reflexivity.
  left. reflexivity.
Defined.

(** Settle a goal from the membership of an event in a listed run. *)
Ltac in_trace :=
  try match goal with
      | H : In _ _ |- _ =>
          simpl in H;
          repeat (destruct H as [H|H];
                  [try discriminate H;
                   try (injection H as ? ? ? ?; subst; simpl; auto)|]);
          try contradiction
      end.

Section OutcomeFacts.

Import Bot.

Context {W : Type}.
Variable api : Service W.
Variable env : Env.
Variable svc : SafeService.

(** What [processTransaction] leaves, whatever the answers: the result
    tells whether the approval was accepted, and what was submitted is the
    signature obtained for the same hash. *)
Lemma processTransaction_outcome (p : PendingTransaction) (w : W) :
  exists b w' t,
    processTransaction api env svc p w = (Ok b, w', t)
    /\ b = existsb Measure.acceptedTransaction t
    /\ Measure.accepted Measure.acceptedTransaction t = (if b then 1 else 0)%nat
    /\ Measure.accepted Measure.acceptedMessage t = 0%nat
    /\ forallb Measure.isProcessEvent t = true
    /\ (List.length (signatures t) <= 1)%nat
    /\ (List.length (approvals t) <= 1)%nat
    /\ (forall c h sig ok,
           In (ConfirmTransaction c h sig ok) t ->
           c = pt_chainId p /\ h = pt_safeTxHash p
           /\ In (SignHash c h (Some sig)) t).
Proof.
  unfold processTransaction. cbv zeta.
  destruct (hasAlreadySigned svc (pt_transaction p)) eqn:Es;
    [|destruct (DenyList.denied
                  (DenyList.isDenied (denyListChecker svc) env
                                     (metaTransaction (pt_transaction p)))) eqn:Ed];
    unfold tryCatch, bind, log, emit, ret; simpl.
  { do 3 eexists. split; [reflexivity|]. repeat split; auto; in_trace. }
  { do 3 eexists. split; [reflexivity|]. repeat split; auto; in_trace. }
  unfold signTransaction, rateLimitedApiCall, tryCatch, bind, log, emit, ret,
    throw, callSignHash, callConfirmTransaction.
  destruct (hasKey (safeProtocolKits svc) (pt_chainId p)); simpl.
  2:{ do 3 eexists. split; [reflexivity|]. repeat split; auto; in_trace. }
  destruct (signHash_kit api (pt_chainId p) (pt_safeTxHash p) w)
    as [[sig|] w1]; simpl.
  2:{ do 3 eexists. split; [reflexivity|]. repeat split; auto; in_trace. }
  destruct (hasKey (safeApiKits svc) (pt_chainId p)); simpl.
  2:{ do 3 eexists. split; [reflexivity|]. repeat split; auto; in_trace. }
  destruct (confirmTransaction_api api (pt_chainId p) (pt_safeTxHash p) sig w1)
    as [[|] w2]; simpl;
    (do 3 eexists; split; [reflexivity|]; repeat split; auto; in_trace).
Qed.

Lemma processMessage_outcome (p : PendingMessage) (w : W) :
  exists b w' t,
    processMessage api svc p w = (Ok b, w', t)
    /\ b = existsb Measure.acceptedMessage t
    /\ Measure.accepted Measure.acceptedMessage t = (if b then 1 else 0)%nat
    /\ Measure.accepted Measure.acceptedTransaction t = 0%nat
    /\ forallb Measure.isProcessEvent t = true
    /\ (List.length (signatures t) <= 1)%nat
    /\ (List.length (approvals t) <= 1)%nat
    /\ (forall c h sig ok,
           In (AddMessageSignature c h sig ok) t ->
           c = pm_chainId p /\ h = pm_messageHash p
           /\ In (SignHash c h (Some sig)) t)
    /\ (hasAlreadySignedMessage svc (pm_message p) = false ->
        hasKey (safeProtocolKits svc) (pm_chainId p) = true ->
        In (SignHash (pm_chainId p) (pm_messageHash p)
                     (fst (signHash_kit api (pm_chainId p) (pm_messageHash p) w)))
           t).
Proof.
  unfold processMessage. cbv zeta.
  destruct (hasAlreadySignedMessage svc (pm_message p)) eqn:Es;
    unfold tryCatch, bind, log, emit, ret; simpl.
  { do 3 eexists. split; [reflexivity|].
    repeat split; auto; try discriminate; in_trace; try (intros; simpl; auto). }
  unfold rateLimitedApiCall, tryCatch, bind, log, emit, ret,
    throw, callSignHash, callAddMessageSignature.
  destruct (hasKey (safeProtocolKits svc) (pm_chainId p)); simpl.
  2:{ do 3 eexists. split; [reflexivity|].
      repeat split; auto; try discriminate; in_trace; try (intros; simpl; auto). }
  destruct (signHash_kit api (pm_chainId p) (pm_messageHash p) w)
    as [[sig|] w1]; simpl.
  2:{ do 3 eexists. split; [reflexivity|]. repeat split; auto; in_trace; try (intros; simpl; auto). }
  destruct (hasKey (safeApiKits svc) (pm_chainId p)); simpl.
  2:{ do 3 eexists. split; [reflexivity|]. repeat split; auto; in_trace; try (intros; simpl; auto). }
  destruct (addMessageSignature_api api (pm_chainId p) (pm_messageHash p) sig w1)
    as [[|] w2]; simpl;
    (do 3 eexists; split; [reflexivity|]; repeat split; auto; in_trace; try (intros; simpl; auto)).
Qed.

End OutcomeFacts.

(** X13: [processTransaction] never raises, and its result is [true]
    exactly when the run holds an approval that the service accepted. It
    asks for at most one signature and submits at most one approval; what
    it submits is for the item's own network and hash and carries the
    signature just obtained for that hash. *)
Theorem X13_transaction_result_is_acceptance {W : Type} (api : Bot.Service W)
        (env : Env) (svc : Bot.SafeService) (p : Bot.PendingTransaction) (w : W) :
  let r := Bot.processTransaction api env svc p w in
  Bot.result r = Ok (existsb Measure.acceptedTransaction (Bot.trace r))
  /\ (List.length (Bot.signatures (Bot.trace r)) <= 1)%nat
  /\ (List.length (Bot.approvals (Bot.trace r)) <= 1)%nat
  /\ (forall c h sig ok,
         In (Bot.ConfirmTransaction c h sig ok) (Bot.trace r) ->
         c = Bot.pt_chainId p /\ h = Bot.pt_safeTxHash p
         /\ In (Bot.SignHash c h (Some sig)) (Bot.trace r)).
Proof.
  destruct (processTransaction_outcome api env svc p w)
    as (b & w' & t & E & Hb & _ & _ & _ & Hs & Ha & Hc).
  cbv zeta. rewrite E. unfold Bot.result, Bot.trace. simpl.
  rewrite <- Hb. auto.
Qed.

Lemma X13_transaction_result_is_acceptance_witness :
  In (Bot.SignHash 1 "0xa1" (Some "0x5160"))
     (Bot.trace (Bot.processTransaction
                   Examples.answers Examples.noEnv Examples.service
                   (Bot.pendingTx 1 (Examples.transfer "0xa1" [])) tt)).
Proof.
  apply (proj2 (proj2 (proj2 (X13_transaction_result_is_acceptance
           Examples.answers Examples.noEnv Examples.service
           (Bot.pendingTx 1 (Examples.transfer "0xa1" [])) tt)))
          1%Z "0xa1" "0x5160" true).
  vm_compute. auto.
Defined.

(** X14: a pending message is not checked against the deny list: every
    message that the operator has not signed is handed to the signer as
    soon as the network has a protocol kit. [processMessage] never raises,
    its result is [true] exactly when the service accepted the signature,
    and what it submits is the signature obtained for that message hash. *)
Theorem X14_message_is_signed_unchecked {W : Type} (api : Bot.Service W)
        (svc : Bot.SafeService) (p : Bot.PendingMessage) (w : W) :
  let r := Bot.processMessage api svc p w in
  Bot.result r = Ok (existsb Measure.acceptedMessage (Bot.trace r))
  /\ (Bot.hasAlreadySignedMessage svc (Bot.pm_message p) = false ->
      Bot.hasKey (Bot.safeProtocolKits svc) (Bot.pm_chainId p) = true ->
      In (Bot.SignHash (Bot.pm_chainId p) (Bot.pm_messageHash p)
            (fst (Bot.signHash_kit api (Bot.pm_chainId p)
                                   (Bot.pm_messageHash p) w)))
         (Bot.trace r))
  /\ (forall c h sig ok,
         In (Bot.AddMessageSignature c h sig ok) (Bot.trace r) ->
         c = Bot.pm_chainId p /\ h = Bot.pm_messageHash p
         /\ In (Bot.SignHash c h (Some sig)) (Bot.trace r)).
Proof.
  destruct (processMessage_outcome api svc p w)
    as (b & w' & t & E & Hb & _ & _ & _ & _ & _ & Hc & Hs).
  cbv zeta. rewrite E. unfold Bot.result, Bot.trace. simpl.
  rewrite <- Hb. auto.
Qed.

Lemma X14_message_is_signed_unchecked_witness :
  In (Bot.SignHash 1 "0xc1" (Some "0x5160"))
     (Bot.trace (Bot.processMessage
                   Examples.answers Examples.service
                   (Bot.pendingMsg 1 (Examples.message "0xc1" [])) tt)).
Proof.
  apply (proj1 (proj2 (X14_message_is_signed_unchecked
           Examples.answers Examples.service
           (Bot.pendingMsg 1 (Examples.message "0xc1" [])) tt)));
    reflexivity.
Defined.

(* ------------------------------------------------------------------ *)
(** ** The counts of a scan cycle                                      *)
(* ------------------------------------------------------------------ *)

Lemma accepted_app (f : Bot.Event -> bool) (t1 t2 : list Bot.Event) :
  Measure.accepted f (t1 ++ t2) = (Measure.accepted f t1 + Measure.accepted f t2)%nat.
Proof.
  unfold Measure.accepted. now rewrite filter_app, length_app.
Qed.

Lemma accepted_none (f g : Bot.Event -> bool) (t : list Bot.Event) :
  (forall e, g e = true -> f e = false) ->
  forallb g t = true -> Measure.accepted f t = 0%nat.
Proof.
  intros H. unfold Measure.accepted.
  induction t as [|e t IH]; simpl; [reflexivity|].
  intros Hg. apply andb_true_iff in Hg. destruct Hg as [He Ht].
  rewrite (H e He). now apply IH.
Qed.

Lemma fetch_accepts_nothing (e : Bot.Event) :
  Measure.isFetchEvent e = true ->
  Measure.acceptedTransaction e = false /\ Measure.acceptedMessage e = false.
Proof. destruct e; simpl; intros H; try discriminate H; auto. Qed.

Section TallyFacts.

Import Bot.

Context {W : Type}.
Variable api : Service W.
Variable env : Env.
Variable svc : SafeService.

Lemma fetchTransactions_events (cs : list Z) (acc : list PendingTransaction)
      (w : W) :
  forallb Measure.isFetchEvent
          (trace (forOf cs (fetchTransactions api svc) acc w)) = true.
Proof.
  revert acc w. induction cs as [|c cs IH]; intros acc w; [reflexivity|].
  rewrite forOf_cons, fetchTransactions_eq.
  destruct (hasKey (safeApiKits svc) c);
    [destruct (getPendingTransactions_api api c w) as [[l|] w1];
     [destruct (notLast svc c)|]|];
    match goal with
    | |- context [forOf cs _ ?a ?w0] =>
        specialize (IH a w0);
        destruct (forOf cs (fetchTransactions api svc) a w0) as [[r w2] t2]
    end;
    unfold trace in *; simpl in *; exact IH.
Qed.

Lemma fetchMessages_events (cs : list Z) (acc : list PendingMessage) (w : W) :
  forallb Measure.isFetchEvent
          (trace (forOf cs (fetchMessages api svc) acc w)) = true.
Proof.
  revert acc w. induction cs as [|c cs IH]; intros acc w; [reflexivity|].
  rewrite forOf_cons, fetchMessages_eq.
  destruct (hasKey (safeApiKits svc) c);
    [destruct (getMessages_api api c w) as [[l|] w1];
     [destruct (notLast svc c)|]|];
    match goal with
    | |- context [forOf cs _ ?a ?w0] =>
        specialize (IH a w0);
        destruct (forOf cs (fetchMessages api svc) a w0) as [[r w2] t2]
    end;
    unfold trace in *; simpl in *; exact IH.
Qed.

Lemma processTransactions_tally (ps : list PendingTransaction) (n : nat) (w : W) :
  exists n' w' t,
    forOf ps
          (fun pendingTx processedCount =>
             bind (processTransaction api env svc pendingTx)
                  (fun processed => ret (count processed processedCount)))
          n w
    = (Ok n', w', t)
    /\ n' = (n + Measure.accepted Measure.acceptedTransaction t)%nat
    /\ Measure.accepted Measure.acceptedMessage t = 0%nat.
Proof.
  revert n w. induction ps as [|p ps IH]; intros n w.
  - exists n, w, []. simpl. unfold ret. repeat split.
    unfold Measure.accepted. simpl. lia.
  - rewrite forOf_cons. unfold bind at 1.
    destruct (processTransaction_outcome api env svc p w)
      as (b & w1 & t1 & E1 & _ & Hn & Hm & _).
    rewrite E1. unfold ret at 1. cbv beta iota.
    destruct (IH (count b n) w1) as (n' & w' & t & E & H1 & H2).
    rewrite E. exists n', w', ((t1 ++ []) ++ t).
    split; [reflexivity|]. rewrite app_nil_r, !accepted_app, Hn, Hm, H2.
    split; [|reflexivity]. rewrite H1. unfold count. destruct b; lia.
Qed.

Lemma processMessages_tally (ps : list PendingMessage) (n : nat) (w : W) :
  exists n' w' t,
    forOf ps
          (fun pendingMsg processedMessageCount =>
             bind (processMessage api svc pendingMsg)
                  (fun processed => ret (count processed processedMessageCount)))
          n w
    = (Ok n', w', t)
    /\ n' = (n + Measure.accepted Measure.acceptedMessage t)%nat
    /\ Measure.accepted Measure.acceptedTransaction t = 0%nat.
Proof.
  revert n w. induction ps as [|p ps IH]; intros n w.
  - exists n, w, []. simpl. unfold ret. repeat split.
    unfold Measure.accepted. simpl. lia.
  - rewrite forOf_cons. unfold bind at 1.
    destruct (processMessage_outcome api svc p w)
      as (b & w1 & t1 & E1 & _ & Hn & Hm & _).
    rewrite E1. unfold ret at 1. cbv beta iota.
    destruct (IH (count b n) w1) as (n' & w' & t & E & H1 & H2).
    rewrite E. exists n', w', ((t1 ++ []) ++ t).
    split; [reflexivity|]. rewrite app_nil_r, !accepted_app, Hn, Hm, H2.
    split; [|reflexivity]. rewrite H1. unfold count. destruct b; lia.
Qed.

(** A scan cycle ends with the summary of what it had accepted. *)
Lemma scan_tally (w : W) :
  exists w' t,
    scanAndProcess api env svc w
    = (Ok tt, w',
       t ++ [Measure.summary (Measure.accepted Measure.acceptedTransaction t)
                             (Measure.accepted Measure.acceptedMessage t)]).
Proof.
  unfold scanAndProcess, getPendingTransactions, getPendingMessages,
    processTransactions, processMessages.
  unfold tryCatch at 1. unfold bind at 1. unfold log at 1, emit at 1.
  unfold bind at 1.
  pose proof (fetchTransactions_events (enabledChains svc) [] w) as F1.
  destruct (fetchTransactions_loop api svc (enabledChains svc) [] w)
    as (w1' & t1' & E1' & _).
  rewrite E1' in F1 |- *. unfold trace in F1. simpl in F1.
  unfold bind at 1. unfold log at 1, emit at 1. unfold bind at 1.
  destruct (processTransactions_tally ([] ++ pendingOf t1') 0 w1')
    as (n2 & w2 & t2 & E2 & N2 & M2).
  rewrite E2.
  unfold bind at 1.
  pose proof (fetchMessages_events (enabledChains svc) [] w2) as F3.
  destruct (fetchMessages_loop api svc (enabledChains svc) [] w2)
    as (w3' & t3' & E3' & _).
  rewrite E3' in F3 |- *. unfold trace in F3. simpl in F3.
  unfold bind at 1. unfold log at 1, emit at 1. unfold bind at 1.
  destruct (processMessages_tally ([] ++ pendingMessagesOf t3') 0 w3')
    as (n4 & w4 & t4 & E4 & N4 & M4).
  rewrite E4.
  assert (A1 : Measure.accepted Measure.acceptedTransaction t1' = 0%nat)
    by (apply (accepted_none _ Measure.isFetchEvent);
        [intros e He; now apply fetch_accepts_nothing | exact F1]).
  assert (A1' : Measure.accepted Measure.acceptedMessage t1' = 0%nat)
    by (apply (accepted_none _ Measure.isFetchEvent);
        [intros e He; now apply fetch_accepts_nothing | exact F1]).
  assert (A3 : Measure.accepted Measure.acceptedTransaction t3' = 0%nat)
    by (apply (accepted_none _ Measure.isFetchEvent);
        [intros e He; now apply fetch_accepts_nothing | exact F3]).
  assert (A3' : Measure.accepted Measure.acceptedMessage t3' = 0%nat)
    by (apply (accepted_none _ Measure.isFetchEvent);
        [intros e He; now apply fetch_accepts_nothing | exact F3]).
  exists w4.
  exists ([Log (LogText "Starting scan for pending transactions and messages...")]
            ++ t1' ++ [Log (LogFound "transactions"
                                     (List.length ([] ++ pendingOf t1')))]
            ++ t2 ++ t3'
            ++ [Log (LogFound "messages"
                              (List.length ([] ++ pendingMessagesOf t3')))]
            ++ t4).
  assert (En : Measure.accepted Measure.acceptedTransaction
                 ([Log (LogText "Starting scan for pending transactions and messages...")]
                    ++ t1' ++ [Log (LogFound "transactions"
                                             (List.length ([] ++ pendingOf t1')))]
                    ++ t2 ++ t3'
                    ++ [Log (LogFound "messages"
                                      (List.length ([] ++ pendingMessagesOf t3')))]
                    ++ t4) = n2).
  { rewrite !accepted_app, A1, A3, M4, N2.
    unfold Measure.accepted at 1 2 4. simpl. lia. }
  assert (Em : Measure.accepted Measure.acceptedMessage
                 ([Log (LogText "Starting scan for pending transactions and messages...")]
                    ++ t1' ++ [Log (LogFound "transactions"
                                             (List.length ([] ++ pendingOf t1')))]
                    ++ t2 ++ t3'
                    ++ [Log (LogFound "messages"
                                      (List.length ([] ++ pendingMessagesOf t3')))]
                    ++ t4) = n4).
  { rewrite !accepted_app, A1', A3', M2, N4.
    unfold Measure.accepted at 1 2 3. simpl. lia. }
  rewrite En, Em. unfold Measure.summary.
  destruct ((0 <? n2)%nat || (0 <? n4)%nat); unfold log, emit; simpl;
    rewrite <- ?app_assoc; simpl; rewrite <- ?app_assoc; reflexivity.
Qed.

End TallyFacts.

(** X15: a scan cycle never raises and ends with one summary entry whose
    two counts are the number of transaction approvals and the number of
    message signatures that the service accepted during the cycle; with
    both counts zero the entry says that nothing was processed. *)
Theorem X15_scan_summary_counts {W : Type} (api : Bot.Service W) (env : Env)
        (svc : Bot.SafeService) (w : W) :
  exists t,
    Bot.result (Bot.scanAndProcess api env svc w) = Ok tt
    /\ Bot.trace (Bot.scanAndProcess api env svc w)
       = t ++ [Measure.summary
                 (Measure.accepted Measure.acceptedTransaction t)
                 (Measure.accepted Measure.acceptedMessage t)].
Proof.
  destruct (scan_tally api env svc w) as (w' & t & E).
  exists t. rewrite E. split; reflexivity.
Qed.

(** X16: every entry returned by [getPendingTransactions] belongs to an
    enabled chain that has an API kit, carries the hash and the number of
    confirmations of the transaction it wraps, and a required count that
    is never zero (a missing or zero count is replaced by 1). *)
Theorem X16_pending_entries {W : Type} (api : Bot.Service W)
        (svc : Bot.SafeService) (w : W) :
  exists l,
    Bot.result (Bot.getPendingTransactions api svc w) = Ok l
    /\ forall p, In p l ->
         In (Bot.pt_chainId p) (Bot.enabledChains svc)
         /\ Bot.hasKey (Bot.safeApiKits svc) (Bot.pt_chainId p) = true
         /\ Bot.pt_safeTxHash p = Bot.tx_safeTxHash (Bot.pt_transaction p)
         /\ Bot.pt_confirmations p
            = Bot.confirmationCount (Bot.tx_confirmations (Bot.pt_transaction p))
         /\ Bot.pt_confirmationsRequired p <> 0%Z.
Proof.
  unfold Bot.getPendingTransactions.
  destruct (fetchTransactions_loop api svc (Bot.enabledChains svc) [] w)
    as (w' & t & E & Hc & _).
  rewrite E. exists (Bot.pendingOf t). split; [reflexivity|].
  intros p Hp. unfold Bot.pendingOf in Hp. apply in_flat_map in Hp.
  destruct Hp as (e & He & Hp).
  destruct e as [c [l|]| | | | | |]; try contradiction.
  simpl in Hp. apply in_map_iff in Hp. destruct Hp as (tx & <- & Htx).
  assert (Hin : In c (Bot.transactionCalls t)).
  { unfold Bot.transactionCalls. apply in_flat_map.
    exists (Bot.GetPendingTransactions c (Some l)). simpl. auto. }
  rewrite Hc in Hin. apply filter_In in Hin. destruct Hin as [H1 H2].
  simpl. repeat split; auto.
  destruct (Bot.tx_confirmationsRequired tx) as [n|]; [|discriminate].
  destruct (Z.eqb_spec n 0); [discriminate | assumption].
Qed.

Lemma X16_pending_entries_witness :
  Bot.pt_confirmationsRequired
    (Bot.pendingTx 1 (Bot.mkSafeTx "0xf1" None "0" None None (Some 0%Z) None))
  <> 0%Z.
Proof.
  destruct (X16_pending_entries
              (Bot.mkService
                 (fun c w => (Some [Bot.mkSafeTx "0xf1" None "0" None None
                                                 (Some 0%Z) None], w))
                 (Bot.getMessages_api Examples.answers)
                 (Bot.signHash_kit Examples.answers)
                 (Bot.confirmTransaction_api Examples.answers)
                 (Bot.addMessageSignature_api Examples.answers))
              Examples.serviceListingEthereumTwice tt)
    as (l & E & H).
  injection E as <-.
  apply (H (Bot.pendingTx 1 (Bot.mkSafeTx "0xf1" None "0" None None
                                          (Some 0%Z) None))).
  left. reflexivity.
Defined.

Section PauseFacts.

Import Bot.

Context {W : Type}.
Variable api : Service W.
Variable svc : SafeService.

Lemma fetchTransactions_pauses (cs : list Z) (acc : list PendingTransaction)
      (w : W) :
  let t := trace (forOf cs (fetchTransactions api svc) acc w) in
  Measure.accepted Measure.isDelay t
  = Measure.accepted (Measure.answeredBeforeLast svc) t
  /\ forall ms, In (Delay ms) t -> ms = 250%Z.
Proof.
  revert acc w. induction cs as [|c cs IH]; intros acc w;
    [split; [reflexivity | intros ms []]|].
  cbv zeta. rewrite forOf_cons, fetchTransactions_eq.
  destruct (hasKey (safeApiKits svc) c);
    [destruct (getPendingTransactions_api api c w) as [[l|] w1];
     [destruct (notLast svc c) eqn:En|]|];
    match goal with
    | |- context [forOf cs _ ?a ?w0] =>
        specialize (IH a w0); cbv zeta in IH;
        destruct (forOf cs (fetchTransactions api svc) a w0) as [[r w2] t2]
    end;
    unfold trace in *; simpl in *; destruct IH as [IH1 IH2];
    unfold Measure.accepted in *; simpl; rewrite ?En; simpl;
    (split; [now rewrite IH1|]);
    intros ms H;
    repeat (destruct H as [H|H];
            [try discriminate H; try (injection H as <-; reflexivity)|]);
    now apply IH2.
Qed.

Lemma fetchMessages_pauses (cs : list Z) (acc : list PendingMessage) (w : W) :
  let t := trace (forOf cs (fetchMessages api svc) acc w) in
  Measure.accepted Measure.isDelay t
  = Measure.accepted (Measure.answeredBeforeLast svc) t
  /\ forall ms, In (Delay ms) t -> ms = 250%Z.
Proof.
  revert acc w. induction cs as [|c cs IH]; intros acc w;
    [split; [reflexivity | intros ms []]|].
  cbv zeta. rewrite forOf_cons, fetchMessages_eq.
  destruct (hasKey (safeApiKits svc) c);
    [destruct (getMessages_api api c w) as [[l|] w1];
     [destruct (notLast svc c) eqn:En|]|];
    match goal with
    | |- context [forOf cs _ ?a ?w0] =>
        specialize (IH a w0); cbv zeta in IH;
        destruct (forOf cs (fetchMessages api svc) a w0) as [[r w2] t2]
    end;
    unfold trace in *; simpl in *; destruct IH as [IH1 IH2];
    unfold Measure.accepted in *; simpl; rewrite ?En; simpl;
    (split; [now rewrite IH1|]);
    intros ms H;
    repeat (destruct H as [H|H];
            [try discriminate H; try (injection H as <-; reflexivity)|]);
    now apply IH2.
Qed.

End PauseFacts.

(** X17: the fetch loops pause 250 ms once after every answered fetch of
    a chain other than the last enabled one, and at no other time: there
    is no pause after a fetch that raised, after a chain without a kit, or
    after the last chain. *)
Theorem X17_pauses_between_chains {W : Type} (api : Bot.Service W)
        (svc : Bot.SafeService) (w : W) :
  (let t := Bot.trace (Bot.getPendingTransactions api svc w) in
   Measure.accepted Measure.isDelay t
   = Measure.accepted (Measure.answeredBeforeLast svc) t
   /\ forall ms, In (Bot.Delay ms) t -> ms = 250%Z)
  /\ (let t := Bot.trace (Bot.getPendingMessages api svc w) in
      Measure.accepted Measure.isDelay t
      = Measure.accepted (Measure.answeredBeforeLast svc) t
      /\ forall ms, In (Bot.Delay ms) t -> ms = 250%Z).
Proof.
  split.
  - apply fetchTransactions_pauses.
  - apply fetchMessages_pauses.
Qed.

Lemma X17_pauses_between_chains_witness :
  Measure.accepted Measure.isDelay
    (Bot.trace (Bot.getPendingTransactions Examples.answersWithoutEthereum
                                           Examples.service tt))
  = 0%nat
  /\ (250 = 250)%Z.
Proof.
  split.
  - rewrite (proj1 (proj1 (X17_pauses_between_chains
                             Examples.answersWithoutEthereum Examples.service tt))).
    reflexivity.
  - apply (proj2 (proj1 (X17_pauses_between_chains
                           Examples.answers Examples.service tt)) 250%Z).
    vm_compute. auto 10.
Defined.

(* ------------------------------------------------------------------ *)
(** ** Initialization of the service                                   *)
(* ------------------------------------------------------------------ *)

Lemma hasKey_setKey (keys : list Z) (c c' : Z) :
  Bot.hasKey (Lifecycle.setKey keys c) c' = Bot.hasKey keys c' || Z.eqb c' c.
Proof.
  unfold Lifecycle.setKey. destruct (Bot.hasKey keys c) eqn:E.
  - destruct (Z.eqb_spec c' c) as [->|N].
    + now rewrite E.
    + now rewrite orb_false_r.
  - unfold Bot.hasKey. rewrite existsb_app. simpl. now rewrite orb_false_r.
Qed.

Lemma keysKept_refl (keys : list Z) : Lifecycle.keysKept keys keys.
Proof. intros c H. exact H. Qed.

Lemma keysKept_setKey (keys : list Z) (c : Z) :
  Lifecycle.keysKept keys (Lifecycle.setKey keys c).
Proof. intros c' H. rewrite hasKey_setKey, H. reflexivity. Qed.

Lemma keysKept_trans (k1 k2 k3 : list Z) :
  Lifecycle.keysKept k1 k2 -> Lifecycle.keysKept k2 k3 -> Lifecycle.keysKept k1 k3.
Proof. intros H1 H2 c H. apply H2, H1, H. Qed.

Lemma sameButKits_refl (b : Lifecycle.SafeRemoteSigner) : Lifecycle.sameButKits b b.
Proof. repeat split; apply keysKept_refl. Qed.

Lemma sameButKits_trans (b1 b2 b3 : Lifecycle.SafeRemoteSigner) :
  Lifecycle.sameButKits b1 b2 -> Lifecycle.sameButKits b2 b3 ->
  Lifecycle.sameButKits b1 b3.
Proof.
  intros (A1 & A2 & A3 & A4 & A5 & A6 & A7 & A8 & A9 & A10)
         (B1 & B2 & B3 & B4 & B5 & B6 & B7 & B8 & B9 & B10).
  repeat split; try congruence; eapply keysKept_trans; eassumption.
Qed.

Lemma ready_kept (b b' : Lifecycle.SafeRemoteSigner) (c : Z) :
  Lifecycle.sameButKits b b' -> Lifecycle.ready b c -> Lifecycle.ready b' c.
Proof.
  intros (_ & _ & _ & _ & _ & _ & _ & K1 & K2 & K3) (R1 & R2 & R3).
  repeat split; [apply K1 | apply K2 | apply K3]; assumption.
Qed.

(** One outcome of [initializeChain]. *)
Ltac init_case :=
  do 4 eexists; split; [reflexivity|];
  split;
  [unfold Lifecycle.sameButKits; simpl;
   repeat match goal with
          | |- _ /\ _ => split
          | |- Lifecycle.keysKept ?k ?k => apply keysKept_refl
          | |- Lifecycle.keysKept _ (Lifecycle.setKey _ _) => apply keysKept_setKey
          | |- _ = _ => reflexivity
          end|];
  split;
  [intros Hr;
   first [discriminate Hr
         |split; [reflexivity|];
          unfold Lifecycle.ready; simpl;
          rewrite !hasKey_setKey, Z.eqb_refl, !orb_true_r; auto]|];
  split;
  [intros Hf; try discriminate Hf; auto|];
  split; [reflexivity|];
  intros c' Hin; simpl in Hin; intuition congruence.

Section InitializeFacts.

Import Lifecycle.

Context {W : Type}.
Variable platform : Platform W.

(** One chain: the object only gains kits; a normal return means that
    the chain is configured and ready; the libraries are called for a
    configured chain only. *)
Lemma initializeChain_spec (c : Z) (b : SafeRemoteSigner) (w : W) :
  exists r b' w' t,
    initializeChain platform c b w = (r, b', w', t)
    /\ sameButKits b b'
    /\ (r = Ok tt -> Chains.hasConfig (Some c) = true /\ ready b' c)
    /\ (Chains.hasConfig (Some c) = false ->
        r = Throw (Error "Unsupported chain ID") /\ b' = b /\ w' = w
        /\ constructed t = [])
    /\ scanned t = []
    /\ (forall c', In c' (constructed t) ->
                   c' = c /\ Chains.hasConfig (Some c) = true).
Proof.
  unfold initializeChain, tryCatch, bind, Chains.getChainConfig.
  destruct (Chains.hasConfig (Some c)) eqn:Hc; unfold ret, throw, emit; simpl.
  2:{ init_case. }
  unfold call, update.
  destruct (createPublicClient_viem platform c w) as [[|] w1]; simpl.
  2:{ init_case. }
  destruct (newSafeApiKit_ctor platform c w1) as [[|] w2]; simpl.
  2:{ init_case. }
  destruct (safeInit_kit platform c w2) as [[|] w3]; simpl.
  2:{ init_case. }
  init_case.
Qed.

Lemma initializeChains_spec (cs : list Z) (b : SafeRemoteSigner) (w : W) :
  exists r b' w' t,
    forEach cs (initializeChain platform) b w = (r, b', w', t)
    /\ sameButKits b b'
    /\ (r = Ok tt ->
        forall c, In c cs -> Chains.hasConfig (Some c) = true /\ ready b' c)
    /\ scanned t = []
    /\ (forall c, In c (constructed t) ->
                  In c cs /\ Chains.hasConfig (Some c) = true).
Proof.
  revert b w. induction cs as [|c cs IH]; intros b w.
  - exists (Ok tt), b, w, []. split; [reflexivity|].
    split; [apply sameButKits_refl|]. split; [intros _ c []|].
    split; [reflexivity|]. intros c [].
  - simpl forEach. unfold bind.
    destruct (initializeChain_spec c b w)
      as (r1 & b1 & w1 & t1 & E1 & S1 & R1 & _ & N1 & C1).
    rewrite E1. destruct r1 as [[]|e].
    + destruct (IH b1 w1) as (r2 & b2 & w2 & t2 & E2 & S2 & R2 & N2 & C2).
      rewrite E2. exists r2, b2, w2, (t1 ++ t2). split; [reflexivity|].
      split; [eapply sameButKits_trans; eassumption|]. split; [|split].
      * intros Hr c' [<-|Hin].
        -- destruct (R1 eq_refl) as [Hc Hr1]. split; [assumption|].
           eapply ready_kept; eassumption.
        -- now apply R2.
      * unfold scanned in *. now rewrite flat_map_app, N1, N2.
      * intros c' Hin. unfold constructed in Hin.
        rewrite flat_map_app in Hin. apply in_app_or in Hin.
        destruct Hin as [Hin|Hin].
        -- apply C1 in Hin. destruct Hin as [-> Hc]. split; [now left | assumption].
        -- apply C2 in Hin. destruct Hin as [Hin Hc]. split; [now right | assumption].
    + exists (Throw e), b1, w1, t1. split; [reflexivity|].
      split; [assumption|]. split; [discriminate|]. split; [assumption|].
      intros c' Hin. apply C1 in Hin. destruct Hin as [-> Hc].
      split; [now left | assumption].
Qed.

End InitializeFacts.

(** The projections of a lifecycle run, piece by piece. *)
Ltac life_trace :=
  unfold Lifecycle.scanned, Lifecycle.constructed in *;
  repeat (rewrite flat_map_app in * || rewrite flat_map_step in * );
  simpl in *; rewrite ?app_nil_r in *.

Section LifecycleFacts.

Import Lifecycle.

Context {W : Type}.
Variable platform : Platform W.
Variable api : Bot.Service W.
Variable env : Env.
Variable pollingInterval : Z.

Lemma serviceInitialize_spec (b : SafeRemoteSigner) (w : W) :
  exists r b' w' t,
    serviceInitialize platform b w = (r, b', w', t)
    /\ sameButKits b b'
    /\ (r = Ok tt ->
        forall c, In c (Bot.enabledChains (safeService b)) ->
                  Chains.hasConfig (Some c) = true /\ ready b' c)
    /\ scanned t = []
    /\ (forall c, In c (constructed t) ->
                  In c (Bot.enabledChains (safeService b))
                  /\ Chains.hasConfig (Some c) = true).
Proof.
  unfold serviceInitialize, bind, log, emit, this.
  destruct (initializeChains_spec platform (Bot.enabledChains (safeService b)) b w)
    as (r & b' & w' & t & E & S & R & N & C).
  rewrite E. destruct r as [[]|e]; simpl.
  - do 4 eexists. split; [reflexivity|]. split; [assumption|].
    split; [assumption|]. split.
    + life_trace. now rewrite N.
    + intros c Hin. apply C. life_trace. exact Hin.
  - do 4 eexists. split; [reflexivity|]. split; [assumption|].
    split; [discriminate|]. split; [assumption|]. assumption.
Qed.

Lemma initialize_spec (b : SafeRemoteSigner) (w : W) :
  exists r b' w' t,
    initialize platform b w = (r, b', w', t)
    /\ sameButKits b b'
    /\ (r = Ok tt ->
        forall c, In c (Bot.enabledChains (safeService b)) ->
                  Chains.hasConfig (Some c) = true /\ ready b' c)
    /\ scanned t = [].
Proof.
  unfold initialize, tryCatch, bind, log, emit, throw.
  destruct (serviceInitialize_spec b w) as (r & b' & w' & t & E & S & R & N & _).
  rewrite E. destruct r as [[]|e]; simpl.
  - do 4 eexists. split; [reflexivity|]. split; [assumption|].
    split; [assumption|].
    life_trace. now rewrite N.
  - do 4 eexists. split; [reflexivity|]. split; [assumption|].
    split; [discriminate|].
    life_trace. now rewrite N.
Qed.

Lemma scanned_map_Scan (t : list Bot.Event) : scanned (map Scan t) = t.
Proof.
  unfold scanned. induction t as [|e t IH]; simpl; [reflexivity|].
  now rewrite IH.
Qed.

Lemma scan_never_raises (svc : Bot.SafeService) (w : W) :
  exists w' t, Bot.scanAndProcess api env svc w = (Ok tt, w', t).
Proof.
  destruct (scan_shape api env svc w) as (w' & t & E & _).
  exists w', t. exact E.
Qed.

(** What [start] does to a bot that is not running. *)
Lemma start_spec (b : SafeRemoteSigner) (w : W) :
  isRunning b = false ->
  exists r b' w' t,
    start platform api env pollingInterval b w = (r, b', w', t)
    /\ Bot.enabledChains (safeService b') = Bot.enabledChains (safeService b)
    /\ keysKept (Bot.safeApiKits (safeService b)) (Bot.safeApiKits (safeService b'))
    /\ keysKept (Bot.safeProtocolKits (safeService b))
                (Bot.safeProtocolKits (safeService b'))
    /\ (r = Ok tt ->
        isRunning b' = true
        /\ pollingJob b' = Some (ceilSeconds pollingInterval)
        /\ (forall c, In c (Bot.enabledChains (safeService b)) ->
                      Chains.hasConfig (Some c) = true /\ ready b' c)
        /\ exists w1, scanned t
                      = Bot.trace (Bot.scanAndProcess api env (safeService b') w1))
    /\ (r <> Ok tt ->
        isRunning b' = false /\ pollingJob b' = pollingJob b /\ scanned t = []).
Proof.
  intros Hrun.
  unfold start, bind at 1, this. rewrite Hrun.
  unfold tryCatch, bind at 1.
  destruct (initialize_spec b w) as (r1 & b1 & w1 & t1 & E1 & S1 & R1 & N1).
  rewrite E1.
  destruct S1 as (A1 & A2 & A3 & A4 & A5 & A6 & A7 & A8 & A9 & A10).
  destruct r1 as [[]|e]; simpl.
  2:{ unfold log, emit, throw, bind. simpl.
      do 4 eexists. split; [reflexivity|].
      split; [assumption|]. split; [assumption|]. split; [assumption|].
      split; [discriminate|]. intros _.
      split; [congruence|]. split; [assumption|].
      life_trace. now rewrite N1. }
  unfold startPolling, bind, call.
  destruct (newCronJob_ctor platform (ceilSeconds pollingInterval) w1)
    as [[|] w2]; simpl.
  2:{ unfold log, emit, throw. simpl.
      do 4 eexists. split; [reflexivity|].
      split; [assumption|]. split; [assumption|]. split; [assumption|].
      split; [discriminate|]. intros _.
      split; [congruence|]. split; [assumption|].
      life_trace. now rewrite N1. }
  unfold update, log, emit, scanAndProcess, scan. simpl.
  destruct (scan_never_raises (safeService b1) w2) as (w3 & t3 & E3).
  rewrite E3. simpl.
  do 4 eexists. split; [reflexivity|]. simpl.
  split; [assumption|]. split; [assumption|]. split; [assumption|].
  split.
  - intros _. split; [reflexivity|]. split; [reflexivity|]. split.
    + intros c Hc. destruct (R1 eq_refl c Hc) as [H1 (H2 & H3 & H4)].
      split; [assumption|]. repeat split; assumption.
    + exists w2. rewrite E3. unfold Bot.trace. simpl.
      pose proof (scanned_map_Scan t3) as M3.
      life_trace. now rewrite N1, M3.
  - intros H. contradiction H. reflexivity.
Qed.

End LifecycleFacts.

(* ------------------------------------------------------------------ *)
(** ** Properties of the life of the bot                               *)
(* ------------------------------------------------------------------ *)

(** X18: [SafeService.initialize] returns normally only if every enabled
    chain is a configured chain and now has its provider, its API kit and
    its protocol kit; so it throws as soon as one enabled chain is not
    configured. The library constructors are called for configured,
    enabled chains only, and the service keeps the kits it had and every
    other field. *)
Theorem X18_initialize_all_or_throw {W : Type} (platform : Lifecycle.Platform W)
        (b : Lifecycle.SafeRemoteSigner) (w : W) :
  exists r b' w' t,
    Lifecycle.serviceInitialize platform b w = (r, b', w', t)
    /\ Lifecycle.sameButKits b b'
    /\ (r = Ok tt ->
        forall c, In c (Bot.enabledChains (Lifecycle.safeService b)) ->
                  Chains.hasConfig (Some c) = true /\ Lifecycle.ready b' c)
    /\ ((exists c, In c (Bot.enabledChains (Lifecycle.safeService b))
                   /\ Chains.hasConfig (Some c) = false) ->
        r <> Ok tt)
    /\ (forall c, In c (Lifecycle.constructed t) ->
                  In c (Bot.enabledChains (Lifecycle.safeService b))
                  /\ Chains.hasConfig (Some c) = true).
Proof.
  destruct (serviceInitialize_spec platform b w)
    as (r & b' & w' & t & E & S & R & N & C).
  exists r, b', w', t. split; [assumption|]. split; [assumption|].
  split; [assumption|]. split; [|assumption].
  intros (c & Hin & Hc) Hr. destruct (R Hr c Hin) as [H _]. congruence.
Qed.

Lemma X18_initialize_all_or_throw_witness :
  Lifecycle.serviceInitialize MoreExamples.platform
                              (MoreExamples.fresh [1; 999]%Z) tt
  = (Throw (Error "Unsupported chain ID"),
     Lifecycle.setSafeProtocolKit 1
       (Lifecycle.setSafeApiKit 1
          (Lifecycle.setProvider 1 (MoreExamples.fresh [1; 999]%Z))),
     tt,
     [Lifecycle.Log (Bot.LogText "Initializing Safe services for chains:");
      Lifecycle.CreatePublicClient 1 true; Lifecycle.NewSafeApiKit 1 true;
      Lifecycle.SafeInit 1 true; Lifecycle.LogInitialized 1;
      Lifecycle.LogInitFailed 999]).
Proof.
  destruct (X18_initialize_all_or_throw MoreExamples.platform
              (MoreExamples.fresh [1; 999]%Z) tt)
    as (r & b' & w' & t & E & _ & _ & H & _).
  rewrite E.
  assert (Hr : r <> Ok tt).
  { apply H. exists 999%Z. split; [right; left; reflexivity | reflexivity]. }
  vm_compute in E. injection E as <- <- <- <-. reflexivity.
Defined.

(** X19: once [SafeService.initialize] has returned normally, a scan
    cycle asks every enabled chain, in the order of the list, for its
    pending transactions and then for its messages: no chain is skipped
    for want of a kit. *)
Theorem X19_initialized_scan_reaches_all {W : Type}
        (platform : Lifecycle.Platform W) (api : Bot.Service W) (env : Env)
        (b b' : Lifecycle.SafeRemoteSigner) (w w' w2 : W)
        (t : list Lifecycle.Event) :
  Lifecycle.serviceInitialize platform b w = (Ok tt, b', w', t) ->
  let run := Bot.scanAndProcess api env (Lifecycle.safeService b') w2 in
  Bot.transactionCalls (Bot.trace run)
  = Bot.enabledChains (Lifecycle.safeService b)
  /\ Bot.messageCalls (Bot.trace run)
     = Bot.enabledChains (Lifecycle.safeService b).
Proof.
  intros E run. subst run.
  destruct (serviceInitialize_spec platform b w)
    as (r & b1 & w1 & t1 & E1 & S & R & _).
  rewrite E in E1. injection E1 as <- <- <- <-.
  destruct S as (_ & _ & _ & Hc & _).
  destruct (scan_shape api env (Lifecycle.safeService b') w2)
    as (w3 & t3 & E3 & _ & H1 & H2 & _).
  rewrite E3. unfold Bot.trace. simpl. rewrite H1, H2, Hc.
  assert (F : filter (Bot.hasKey (Bot.safeApiKits (Lifecycle.safeService b')))
                     (Bot.enabledChains (Lifecycle.safeService b))
              = Bot.enabledChains (Lifecycle.safeService b)).
  { apply filter_all. intros c Hin.
    destruct (R eq_refl c Hin) as [_ (_ & H & _)]. exact H. }
  now rewrite F.
Qed.

Lemma X19_initialized_scan_reaches_all_witness :
  Bot.transactionCalls
    (Bot.trace
       (Bot.scanAndProcess
          Examples.answers Examples.noEnv
          (Lifecycle.safeService
             (Lifecycle.setSafeProtocolKit 137
                (Lifecycle.setSafeApiKit 137
                   (Lifecycle.setProvider 137
                      (Lifecycle.setSafeProtocolKit 1
                         (Lifecycle.setSafeApiKit 1
                            (Lifecycle.setProvider 1
                               (MoreExamples.fresh [1; 137]%Z))))))))
          tt))
  = [1; 137]%Z.
Proof.
  apply (X19_initialized_scan_reaches_all
           MoreExamples.platform Examples.answers Examples.noEnv
           (MoreExamples.fresh [1; 137]%Z) _ tt tt tt
           [Lifecycle.Log (Bot.LogText "Initializing Safe services for chains:");
            Lifecycle.CreatePublicClient 1 true; Lifecycle.NewSafeApiKit 1 true;
            Lifecycle.SafeInit 1 true; Lifecycle.LogInitialized 1;
            Lifecycle.CreatePublicClient 137 true;
            Lifecycle.NewSafeApiKit 137 true;
            Lifecycle.SafeInit 137 true; Lifecycle.LogInitialized 137;
            Lifecycle.Log (Bot.LogText "Safe services initialized")]).
  reflexivity.
Defined.

Section JobFacts.

Import Lifecycle.

Context {W : Type}.
Variable platform : Platform W.
Variable api : Bot.Service W.
Variable env : Env.
Variable pollingInterval : Z.

Lemma jobs_app (t1 t2 : list Event) :
  Startup.jobs (t1 ++ t2) = Startup.jobs t1 ++ Startup.jobs t2.
Proof. unfold Startup.jobs. apply flat_map_app. Qed.

Lemma initializeChain_jobs (c : Z) (b : SafeRemoteSigner) (w : W) :
  Startup.jobs (snd (initializeChain platform c b w)) = [].
Proof.
  unfold initializeChain, tryCatch, bind, Chains.getChainConfig.
  destruct (Chains.hasConfig (Some c)); unfold ret, throw, emit; simpl;
    [|reflexivity].
  unfold call, update.
  destruct (createPublicClient_viem platform c w) as [[|] w1]; simpl;
    [|reflexivity].
  destruct (newSafeApiKit_ctor platform c w1) as [[|] w2]; simpl;
    [|reflexivity].
  destruct (safeInit_kit platform c w2) as [[|] w3]; reflexivity.
Qed.

Lemma initializeChains_jobs (cs : list Z) (b : SafeRemoteSigner) (w : W) :
  Startup.jobs (snd (forEach cs (initializeChain platform) b w)) = [].
Proof.
  revert b w. induction cs as [|c cs IH]; intros b w; [reflexivity|].
  simpl forEach. unfold bind.
  pose proof (initializeChain_jobs c b w) as H1.
  destruct (initializeChain platform c b w) as [[[r1 b1] w1] t1].
  simpl in H1. destruct r1 as [[]|e]; [|exact H1].
  pose proof (IH b1 w1) as H2.
  destruct (forEach cs (initializeChain platform) b1 w1) as [[[r2 b2] w2] t2].
  simpl in *. now rewrite jobs_app, H1, H2.
Qed.

Lemma initialize_jobs (b : SafeRemoteSigner) (w : W) :
  Startup.jobs (snd (initialize platform b w)) = [].
Proof.
  unfold initialize, serviceInitialize, tryCatch, bind, log, emit, throw, this.
  pose proof (initializeChains_jobs (Bot.enabledChains (safeService b)) b w) as H.
  destruct (forEach (Bot.enabledChains (safeService b))
                    (initializeChain platform) b w) as [[[r1 b1] w1] t1].
  simpl in H. destruct r1 as [[]|e]; simpl;
    rewrite ?jobs_app, ?H; reflexivity.
Qed.

Lemma jobs_map_Scan (t : list Bot.Event) : Startup.jobs (map Scan t) = [].
Proof. induction t as [|e t IH]; [reflexivity | exact IH]. Qed.

(** A [start] that returns normally has created one polling job, with
    the seconds of the polling interval. *)
Lemma start_jobs (b b' : SafeRemoteSigner) (w w' : W) (t : list Event) :
  isRunning b = false ->
  start platform api env pollingInterval b w = (Ok tt, b', w', t) ->
  Startup.jobs t = [ceilSeconds pollingInterval]
  /\ In (NewCronJob (ceilSeconds pollingInterval) true) t.
Proof.
  intros Hrun. unfold start, bind at 1, this. rewrite Hrun.
  unfold tryCatch, bind at 1.
  pose proof (initialize_jobs b w) as J1.
  destruct (initialize platform b w) as [[[r1 b1] w1] t1]. simpl in J1.
  destruct r1 as [[]|e]; simpl.
  2:{ unfold log, emit, throw, bind. simpl. discriminate. }
  unfold startPolling, bind, call.
  destruct (newCronJob_ctor platform (ceilSeconds pollingInterval) w1)
    as [[|] w2]; simpl.
  2:{ unfold log, emit, throw. simpl. discriminate. }
  unfold update, log, emit, scanAndProcess, scan. simpl.
  destruct (Bot.scanAndProcess api env (safeService b1) w2) as [[r3 w3] t3].
  destruct r3 as [[]|e]; simpl; [|discriminate].
  intros E. injection E as <- <- <-. split.
  - rewrite jobs_app, J1. simpl. now rewrite jobs_map_Scan.
  - apply in_or_app. right. left. reflexivity.
Qed.

End JobFacts.

Lemma ceilSeconds_bounds (ms : Z) :
  (1000 * (Lifecycle.ceilSeconds ms - 1) < ms <= 1000 * Lifecycle.ceilSeconds ms)%Z.
Proof.
  unfold Lifecycle.ceilSeconds.
  pose proof (Z.div_mod (- ms) 1000 ltac:(lia)) as H.
  pose proof (Z.mod_pos_bound (- ms) 1000 ltac:(lia)) as B.
  lia.
Qed.

(** X20: [start] on a bot that is not running either returns normally,
    and then the bot is running, holds the polling job it created, has all
    its enabled chains ready, and has run exactly one scan cycle; or it
    throws, and then the bot is still not running, its polling job is
    untouched and nothing was scanned. One job is created in a normal
    return, and none other: from the cron pattern whose seconds field is
    "*/N", N being the polling interval divided by 1000 and rounded up,
    the least N with interval <= 1000 N. When the job fires is the cron
    library's matter and is not stated. *)
Theorem X20_start_outcome {W : Type} (platform : Lifecycle.Platform W)
        (api : Bot.Service W) (env : Env) (pollingInterval : Z)
        (b : Lifecycle.SafeRemoteSigner) (w : W) :
  Lifecycle.isRunning b = false ->
  exists r b' w' t,
    Lifecycle.start platform api env pollingInterval b w = (r, b', w', t)
    /\ (r = Ok tt ->
        Lifecycle.isRunning b' = true
        /\ (exists s, Lifecycle.pollingJob b' = Some s
                      /\ (1000 * (s - 1) < pollingInterval <= 1000 * s)%Z
                      /\ In (Lifecycle.NewCronJob s true) t
                      /\ Startup.jobs t = [s])
        /\ (forall c, In c (Bot.enabledChains (Lifecycle.safeService b)) ->
                      Chains.hasConfig (Some c) = true /\ Lifecycle.ready b' c)
        /\ exists w1,
             Lifecycle.scanned t
             = Bot.trace (Bot.scanAndProcess api env (Lifecycle.safeService b') w1))
    /\ (r <> Ok tt ->
        Lifecycle.isRunning b' = false
        /\ Lifecycle.pollingJob b' = Lifecycle.pollingJob b
        /\ Lifecycle.scanned t = []).
Proof.
  intros Hrun.
  destruct (start_spec platform api env pollingInterval b w Hrun)
    as (r & b' & w' & t & E & _ & _ & _ & Hok & Hko).
  exists r, b', w', t. split; [assumption|]. split; [|assumption].
  intros Hr. destruct (Hok Hr) as (H1 & H2 & H3 & H4).
  split; [assumption|]. split; [|split; assumption].
  exists (Lifecycle.ceilSeconds pollingInterval). split; [assumption|].
  split; [apply ceilSeconds_bounds|].
  subst r.
  destruct (start_jobs platform api env pollingInterval b b' w w' t Hrun E)
    as [J I].
  auto.
Qed.

Lemma X20_start_outcome_witness :
  exists r b' w' t,
    Lifecycle.start MoreExamples.platform Examples.answers Examples.noEnv 30000
                    (MoreExamples.fresh [1; 137]%Z) tt
    = (r, b', w', t)
    /\ (r = Ok tt ->
        Lifecycle.isRunning b' = true
        /\ (exists s, Lifecycle.pollingJob b' = Some s
                      /\ (1000 * (s - 1) < 30000 <= 1000 * s)%Z
                      /\ In (Lifecycle.NewCronJob s true) t
                      /\ Startup.jobs t = [s])
        /\ (forall c, In c [1; 137]%Z ->
                      Chains.hasConfig (Some c) = true /\ Lifecycle.ready b' c)
        /\ exists w1,
             Lifecycle.scanned t
             = Bot.trace (Bot.scanAndProcess Examples.answers Examples.noEnv
                                             (Lifecycle.safeService b') w1))
    /\ (r <> Ok tt ->
        Lifecycle.isRunning b' = false
        /\ Lifecycle.pollingJob b'
           = Lifecycle.pollingJob (MoreExamples.fresh [1; 137]%Z)
        /\ Lifecycle.scanned t = []).
Proof.
  apply (X20_start_outcome MoreExamples.platform Examples.answers Examples.noEnv
                           30000 (MoreExamples.fresh [1; 137]%Z) tt).
  reflexivity.
Defined.

Section MethodFacts.

Import Lifecycle.

Context {W : Type}.
Variable platform : Platform W.
Variable api : Bot.Service W.
Variable env : Env.
Variable pollingInterval : Z.

(** [stop]: either it completes, and the bot is not running and has no
    job, or stopping the job raised, and the bot is as it was. *)
Lemma stop_spec (b : SafeRemoteSigner) (w : W) :
  exists r b' w' t,
    stop platform b w = (r, b', w', t)
    /\ safeService b' = safeService b
    /\ providers b' = providers b
    /\ enabledChains b' = enabledChains b
    /\ scanned t = []
    /\ (isRunning b = false ->
        r = Ok tt /\ b' = b /\ w' = w
        /\ t = [Log (Bot.LogText "Bot is not running")])
    /\ (isRunning b = true -> r = Ok tt ->
        isRunning b' = false /\ pollingJob b' = None)
    /\ (isRunning b = true -> r <> Ok tt -> b' = b).
Proof.
  unfold stop, bind at 1, this.
  destruct (isRunning b) eqn:Hrun; simpl.
  - unfold tryCatch, bind, update, log, emit, ret, throw, call.
    destruct (pollingJob b) as [job|] eqn:Hjob; simpl.
    + destruct (cronStop_job platform job w) as [[|] w1]; simpl;
        do 4 eexists; (split; [reflexivity|]); simpl;
        repeat split; auto; try discriminate;
        intros _ H; contradiction H; reflexivity.
    + do 4 eexists. split; [reflexivity|]. simpl.
      repeat split; auto; try discriminate.
      intros _ H. contradiction H. reflexivity.
  - unfold log, emit. do 4 eexists. split; [reflexivity|].
    repeat split; auto; discriminate.
Qed.

Lemma triggerScan_spec (b : SafeRemoteSigner) (w : W) :
  (isRunning b = false ->
   triggerScan api env b w
   = (Throw (Error "Bot is not running. Start the bot first."), b, w, []))
  /\ (isRunning b = true ->
      exists w' t,
        Bot.scanAndProcess api env (safeService b) w = (Ok tt, w', t)
        /\ triggerScan api env b w
           = (Ok tt, b, w',
              Log (Bot.LogText "Manual scan triggered") :: map Scan t)).
Proof.
  split; intros Hrun; unfold triggerScan; unfold bind at 1; unfold this;
    rewrite Hrun; simpl.
  - reflexivity.
  - destruct (scan_never_raises api env (safeService b) w) as (w' & t & E).
    exists w', t. split; [assumption|].
    unfold bind, log, emit, scanAndProcess, scan. rewrite E. reflexivity.
Qed.

(** What holds of a bot between two calls. *)
Lemma perform_keeps (c : Call) (b : SafeRemoteSigner) (w : W) :
  consistent b ->
  (isRunning b = true ->
   forall c, In c (Bot.enabledChains (safeService b)) ->
             Chains.hasConfig (Some c) = true /\ ready b c) ->
  exists r b' w' t,
    perform platform api env pollingInterval c b w = (r, b', w', t)
    /\ consistent b'
    /\ Bot.enabledChains (safeService b') = Bot.enabledChains (safeService b)
    /\ (isRunning b' = true ->
        forall c, In c (Bot.enabledChains (safeService b')) ->
                  Chains.hasConfig (Some c) = true /\ ready b' c)
    /\ (scanned t <> [] -> isRunning b' = true).
Proof.
  intros Hc Hr. destruct c; simpl.
  - destruct (isRunning b) eqn:Hrun.
    + unfold start, bind, this. rewrite Hrun. unfold log, emit.
      do 4 eexists. split; [reflexivity|].
      split; [assumption|]. split; [reflexivity|].
      split; [intros _; apply Hr; reflexivity|].
      intros _. exact Hrun.
    + destruct (start_spec platform api env pollingInterval b w Hrun)
        as (r & b' & w' & t & E & Hch & _ & _ & Hok & Hko).
      exists r, b', w', t. split; [assumption|].
      destruct r as [[]|e].
      * destruct (Hok eq_refl) as (H1 & H2 & H3 & _).
        split; [|split; [assumption|split]].
        -- unfold consistent. rewrite H1, H2. split; [discriminate | reflexivity].
        -- intros _. rewrite Hch. exact H3.
        -- intros _. assumption.
      * destruct (Hko ltac:(discriminate)) as (H1 & H2 & H3).
        split; [|split; [assumption|split]].
        -- unfold consistent in *. rewrite H1, H2, <- Hrun. exact Hc.
        -- rewrite H1. discriminate.
        -- rewrite H3. intros H. contradiction H. reflexivity.
  - destruct (stop_spec b w)
      as (r & b' & w' & t & E & H2 & _ & _ & N & Hoff & Hok & Hko).
    exists r, b', w', t. split; [assumption|].
    assert (Hcase : b' = b \/ (isRunning b' = false /\ pollingJob b' = None)).
    { destruct (isRunning b) eqn:Hrun.
      - destruct r as [[]|e].
        + right. apply Hok; reflexivity.
        + left. apply Hko; [reflexivity | discriminate].
      - left. now destruct (Hoff eq_refl) as (_ & -> & _). }
    split; [|split; [now rewrite H2|split]].
    + destruct Hcase as [->|[H1 Hj]]; [assumption|].
      unfold consistent. rewrite H1, Hj.
      split; [discriminate | intros H; contradiction H; reflexivity].
    + destruct Hcase as [->|[H1 _]]; [assumption|].
      rewrite H1. discriminate.
    + rewrite N. intros H. contradiction H. reflexivity.
  - destruct (triggerScan_spec b w) as [Hoff Hon].
    destruct (isRunning b) eqn:Hrun.
    + destruct (Hon eq_refl) as (w' & t & _ & E).
      do 4 eexists. split; [exact E|].
      split; [assumption|]. split; [reflexivity|]. split; [|auto].
      rewrite Hrun. exact Hr.
    + do 4 eexists. split; [exact (Hoff eq_refl)|].
      split; [assumption|]. split; [reflexivity|]. split.
      * rewrite Hrun. discriminate.
      * intros H. contradiction H. reflexivity.
Qed.

Lemma safeInfoOf_spec (c : option Z) (acc : list SafeInfoEntry)
      (b : SafeRemoteSigner) (w : W) :
  exists e w' t,
    safeInfoOf platform c acc b w = (Ok (acc ++ [e]), b, w', t)
    /\ chainOf e = c
    /\ scanned t = []
    /\ ((forall n, c = Some n ->
                   Bot.hasKey (Bot.safeApiKits (safeService b)) n = false) ->
        e = ErrorOf c (Error "No Safe API kit for chain")
        /\ w' = w /\ t = [LogSafeInfoFailed c]).
Proof.
  unfold safeInfoOf, getSafeInfo, tryCatch, bind, this, throw, emit, ret.
  destruct c as [n|]; simpl.
  - destruct (Bot.hasKey (Bot.safeApiKits (safeService b)) n) eqn:Hk; simpl.
    + destruct (getSafeInfo_api platform n w) as [[info|] w1]; simpl;
        do 3 eexists; (split; [reflexivity|]); (split; [reflexivity|]);
        (split; [reflexivity|]); intros H; specialize (H n eq_refl); congruence.
    + do 3 eexists. split; [reflexivity|]. repeat split.
  - do 3 eexists. split; [reflexivity|]. repeat split.
Qed.

Lemma safeInfosFrom_spec (cs : list (option Z)) (acc : list SafeInfoEntry)
      (b : SafeRemoteSigner) (w : W) :
  exists l w' t,
    safeInfosFrom platform cs acc b w = (Ok (acc ++ l), b, w', t)
    /\ map chainOf l = cs
    /\ scanned t = []
    /\ (forall c, In c cs ->
                  (forall n, c = Some n ->
                             Bot.hasKey (Bot.safeApiKits (safeService b)) n = false) ->
                  In (ErrorOf c (Error "No Safe API kit for chain")) l).
Proof.
  revert acc w. induction cs as [|c cs IH]; intros acc w.
  - exists [], w, []. simpl. unfold ret. rewrite app_nil_r.
    repeat split. intros c [].
  - simpl safeInfosFrom. unfold bind.
    destruct (safeInfoOf_spec c acc b w) as (e & w1 & t1 & E1 & C1 & N1 & K1).
    rewrite E1.
    destruct (IH (acc ++ [e]) w1) as (l & w2 & t2 & E2 & C2 & N2 & K2).
    rewrite E2. exists (e :: l), w2, (t1 ++ t2).
    split; [now rewrite <- app_assoc|]. split; [simpl; congruence|]. split.
    + unfold scanned in *. now rewrite flat_map_app, N1, N2.
    + intros c' [<-|Hin] Hk.
      * left. now destruct (K1 Hk) as [-> _].
      * right. now apply K2.
Qed.

End MethodFacts.

(** X21: calling [start] again on a bot that a first [start] has brought
    up does nothing but log: no library is called, nothing is scanned and
    the bot is left as it was. *)
Theorem X21_second_start_is_idle {W : Type} (platform : Lifecycle.Platform W)
        (api : Bot.Service W) (env : Env) (pollingInterval : Z)
        (b b1 : Lifecycle.SafeRemoteSigner) (w w1 : W)
        (t1 : list Lifecycle.Event) :
  Lifecycle.isRunning b = false ->
  Lifecycle.start platform api env pollingInterval b w = (Ok tt, b1, w1, t1) ->
  Lifecycle.start platform api env pollingInterval b1 w1
  = (Ok tt, b1, w1,
     [Lifecycle.Log (Bot.LogText "Bot is already running")]).
Proof.
  intros Hrun E.
  destruct (start_spec platform api env pollingInterval b w Hrun)
    as (r & b' & w' & t & E' & _ & _ & _ & Hok & _).
  rewrite E in E'. injection E' as <- <- <- <-.
  destruct (Hok eq_refl) as (H1 & _).
  unfold Lifecycle.start, Lifecycle.bind, Lifecycle.this. rewrite H1.
  reflexivity.
Qed.

Lemma X21_second_start_is_idle_witness :
  exists b1 t1,
    Lifecycle.start MoreExamples.platform Examples.answers Examples.noEnv 30000
                    (MoreExamples.fresh [1]%Z) tt
    = (Ok tt, b1, tt, t1)
    /\ Lifecycle.start MoreExamples.platform Examples.answers Examples.noEnv 30000
                       b1 tt
       = (Ok tt, b1, tt,
          [Lifecycle.Log (Bot.LogText "Bot is already running")]).
Proof.
  destruct (Lifecycle.start MoreExamples.platform Examples.answers
                            Examples.noEnv 30000 (MoreExamples.fresh [1]%Z) tt)
    as [[[r b1] []] t1] eqn:E.
  assert (Hr : r = Ok tt).
  { apply (f_equal (fun x => fst (fst (fst x)))) in E. simpl in E.
    rewrite <- E. vm_compute. reflexivity. }
  subst r. exists b1, t1. split; [reflexivity|].
  apply (X21_second_start_is_idle
           MoreExamples.platform Examples.answers Examples.noEnv 30000
           (MoreExamples.fresh [1]%Z) b1 tt tt t1 eq_refl E).
Defined.

(** X22: [stop] on a bot that is not running only logs. On a running bot
    it stops the polling job, if there is one, and then leaves the bot not
    running and without job; if stopping the job raises, the error is
    logged and raised again, and the bot stays running with its job: it
    is never left running without a job, nor stopped with one. In every
    case the kits, the providers and the chain lists stay, and nothing is
    scanned. *)
Theorem X22_stop_outcome {W : Type} (platform : Lifecycle.Platform W)
        (b : Lifecycle.SafeRemoteSigner) (w : W) :
  exists r b' w' t,
    Lifecycle.stop platform b w = (r, b', w', t)
    /\ Lifecycle.safeService b' = Lifecycle.safeService b
    /\ Lifecycle.providers b' = Lifecycle.providers b
    /\ Lifecycle.enabledChains b' = Lifecycle.enabledChains b
    /\ Lifecycle.scanned t = []
    /\ (Lifecycle.isRunning b = false ->
        r = Ok tt /\ b' = b /\ w' = w
        /\ t = [Lifecycle.Log (Bot.LogText "Bot is not running")])
    /\ (Lifecycle.isRunning b = true -> Lifecycle.pollingJob b = None ->
        r = Ok tt /\ Lifecycle.isRunning b' = false
        /\ Lifecycle.pollingJob b' = None /\ w' = w
        /\ t = [Lifecycle.Log (Bot.LogText "Safe Remote Signer Bot stopped")])
    /\ (forall job, Lifecycle.isRunning b = true ->
                    Lifecycle.pollingJob b = Some job ->
                    w' = snd (Lifecycle.cronStop_job platform job w)
                    /\ if fst (Lifecycle.cronStop_job platform job w)
                       then r = Ok tt /\ Lifecycle.isRunning b' = false
                            /\ Lifecycle.pollingJob b' = None
                            /\ t = [Lifecycle.CronStop job true;
                                    Lifecycle.Log
                                      (Bot.LogText "Safe Remote Signer Bot stopped")]
                       else r = Throw ServiceError /\ b' = b
                            /\ t = [Lifecycle.CronStop job false;
                                    Lifecycle.Log
                                      (Bot.LogText "Failed to stop bot:")]).
Proof.
  unfold Lifecycle.stop. unfold Lifecycle.bind at 1. unfold Lifecycle.this.
  destruct (Lifecycle.isRunning b) eqn:Hrun; simpl.
  - unfold Lifecycle.tryCatch, Lifecycle.bind, Lifecycle.update, Lifecycle.log,
      Lifecycle.emit, Lifecycle.ret, Lifecycle.throw, Lifecycle.call.
    destruct (Lifecycle.pollingJob b) as [job|] eqn:Hjob; simpl.
    + destruct (Lifecycle.cronStop_job platform job w) as [[|] w1] eqn:Ec; simpl;
        do 4 eexists; (split; [reflexivity|]); simpl;
        (split; [reflexivity|]); (split; [reflexivity|]);
        (split; [reflexivity|]); (split; [reflexivity|]);
        (split; [discriminate|]); (split; [discriminate|]);
        intros job' _ Ej; injection Ej as <-; rewrite Ec; simpl; auto.
    + do 4 eexists. split; [reflexivity|]. simpl.
      split; [reflexivity|]. split; [reflexivity|]. split; [reflexivity|].
      split; [reflexivity|]. split; [discriminate|].
      split; [auto|]. intros job' _ Ej. discriminate Ej.
  - unfold Lifecycle.log, Lifecycle.emit. do 4 eexists. split; [reflexivity|].
    split; [reflexivity|]. split; [reflexivity|]. split; [reflexivity|].
    split; [reflexivity|]. split; [auto|].
    split; [discriminate|]. intros job' H. discriminate H.
Qed.

Lemma X22_stop_outcome_witness :
  (exists b' t,
      Lifecycle.stop MoreExamples.platform MoreExamples.running tt
      = (Ok tt, b', tt, t)
      /\ Lifecycle.isRunning b' = false /\ Lifecycle.pollingJob b' = None)
  /\ (exists t,
         Lifecycle.stop MoreExamples.platformWithStuckJob MoreExamples.running tt
         = (Throw ServiceError, MoreExamples.running, tt, t)).
Proof.
  split.
  - destruct (X22_stop_outcome MoreExamples.platform MoreExamples.running tt)
      as (r & b' & w' & t & E & _ & _ & _ & _ & _ & _ & H).
    destruct (H 30%Z eq_refl eq_refl) as [Hw (-> & H1 & H2 & _)].
    destruct w'. exists b', t. auto.
  - destruct (X22_stop_outcome MoreExamples.platformWithStuckJob
                               MoreExamples.running tt)
      as (r & b' & w' & t & E & _ & _ & _ & _ & _ & _ & H).
    destruct (H 30%Z eq_refl eq_refl) as [Hw (-> & -> & _)].
    destruct w'. exists t. exact E.
Defined.

(** X23: [triggerScan] on a bot that is not running throws and does
    nothing else; on a running bot it never raises, leaves the bot as it
    is and runs exactly one scan cycle on the bot's service. *)
Theorem X23_triggerScan_outcome {W : Type} (api : Bot.Service W) (env : Env)
        (b : Lifecycle.SafeRemoteSigner) (w : W) :
  (Lifecycle.isRunning b = false ->
   Lifecycle.triggerScan api env b w
   = (Throw (Error "Bot is not running. Start the bot first."), b, w, []))
  /\ (Lifecycle.isRunning b = true ->
      exists w' t,
        Bot.scanAndProcess api env (Lifecycle.safeService b) w = (Ok tt, w', t)
        /\ Lifecycle.triggerScan api env b w
           = (Ok tt, b, w',
              Lifecycle.Log (Bot.LogText "Manual scan triggered")
                :: map Lifecycle.Scan t)).
Proof.
  split; intros Hrun; unfold Lifecycle.triggerScan;
    unfold Lifecycle.bind at 1; unfold Lifecycle.this; rewrite Hrun; simpl.
  - reflexivity.
  - destruct (scan_never_raises api env (Lifecycle.safeService b) w)
      as (w' & t & E).
    exists w', t. split; [assumption|].
    unfold Lifecycle.bind, Lifecycle.log, Lifecycle.emit,
      Lifecycle.scanAndProcess, Lifecycle.scan.
    rewrite E. reflexivity.
Qed.

Lemma X23_triggerScan_outcome_witness :
  Lifecycle.triggerScan Examples.answers Examples.noEnv
                        (MoreExamples.fresh [1; 137]%Z) tt
  = (Throw (Error "Bot is not running. Start the bot first."),
     MoreExamples.fresh [1; 137]%Z, tt, []).
Proof.
  apply (proj1 (X23_triggerScan_outcome Examples.answers Examples.noEnv
                                        (MoreExamples.fresh [1; 137]%Z) tt)).
  reflexivity.
Defined.

(** X24: whatever sequence of [start], [stop] and [triggerScan] is called
    on a bot that is not running and has no polling job, afterwards a
    polling job exists exactly when the bot is running, a running bot has
    every enabled chain configured and ready, and the service's chain
    list is what it was. *)
Theorem X24_lifecycle_invariant {W : Type} (platform : Lifecycle.Platform W)
        (api : Bot.Service W) (env : Env) (pollingInterval : Z)
        (cs : list Lifecycle.Call) (b : Lifecycle.SafeRemoteSigner) (w : W) :
  Lifecycle.isRunning b = false ->
  Lifecycle.pollingJob b = None ->
  let b' := fst (fst (Lifecycle.performAll platform api env pollingInterval
                                           cs b w)) in
  Lifecycle.consistent b'
  /\ Bot.enabledChains (Lifecycle.safeService b')
     = Bot.enabledChains (Lifecycle.safeService b)
  /\ (Lifecycle.isRunning b' = true ->
      forall c, In c (Bot.enabledChains (Lifecycle.safeService b')) ->
                Chains.hasConfig (Some c) = true /\ Lifecycle.ready b' c).
Proof.
  intros Hrun Hjob.
  assert (Hc : Lifecycle.consistent b).
  { unfold Lifecycle.consistent. rewrite Hrun, Hjob.
    split; [discriminate | intros H; contradiction H; reflexivity]. }
  assert (Hr : Lifecycle.isRunning b = true ->
               forall c, In c (Bot.enabledChains (Lifecycle.safeService b)) ->
                         Chains.hasConfig (Some c) = true /\ Lifecycle.ready b c)
    by (rewrite Hrun; discriminate).
  clear Hrun Hjob. revert b w Hc Hr.
  induction cs as [|c cs IH]; intros b w Hc Hr; cbv zeta.
  - simpl. auto.
  - simpl Lifecycle.performAll.
    destruct (perform_keeps platform api env pollingInterval c b w Hc Hr)
      as (r & b1 & w1 & t1 & E & Hc1 & Hch & Hr1 & _).
    rewrite E.
    specialize (IH b1 w1 Hc1 Hr1). cbv zeta in IH.
    destruct (Lifecycle.performAll platform api env pollingInterval cs b1 w1)
      as [[b2 w2] t2].
    simpl in *. destruct IH as (I1 & I2 & I3).
    split; [assumption|]. split; [congruence | assumption].
Qed.

Lemma X24_lifecycle_invariant_witness :
  Lifecycle.consistent
    (fst (fst (Lifecycle.performAll
                 MoreExamples.platform Examples.answers Examples.noEnv 30000
                 [Lifecycle.CallTriggerScan; Lifecycle.CallStart;
                  Lifecycle.CallStart; Lifecycle.CallStop]
                 (MoreExamples.fresh [1; 137]%Z) tt))).
Proof.
  apply (X24_lifecycle_invariant
           MoreExamples.platform Examples.answers Examples.noEnv 30000
           [Lifecycle.CallTriggerScan; Lifecycle.CallStart;
            Lifecycle.CallStart; Lifecycle.CallStop]
           (MoreExamples.fresh [1; 137]%Z) tt);
    reflexivity.
Defined.

(** X25: [getSafeInfoForAllChains] never raises and leaves the bot as it
    is; it returns one entry for each of the bot's enabled chains, in
    their order, and the entry of a chain without API kit is the error
    "No Safe API kit for chain". *)
Theorem X25_safe_info_per_chain {W : Type} (platform : Lifecycle.Platform W)
        (b : Lifecycle.SafeRemoteSigner) (w : W) :
  exists l w' t,
    Lifecycle.getSafeInfoForAllChains platform b w = (Ok l, b, w', t)
    /\ map Lifecycle.chainOf l = Lifecycle.enabledChains b
    /\ Lifecycle.scanned t = []
    /\ (forall c, In c (Lifecycle.enabledChains b) ->
                  (forall n, c = Some n ->
                             Bot.hasKey (Bot.safeApiKits (Lifecycle.safeService b)) n
                             = false) ->
                  In (Lifecycle.ErrorOf c (Error "No Safe API kit for chain")) l).
Proof.
  unfold Lifecycle.getSafeInfoForAllChains, Lifecycle.bind, Lifecycle.this.
  destruct (safeInfosFrom_spec platform (Lifecycle.enabledChains b) [] b w)
    as (l & w' & t & E & H1 & H2 & H3).
  rewrite E. exists l, w', t. simpl. auto.
Qed.

Lemma X25_safe_info_per_chain_witness :
  Lifecycle.getSafeInfoForAllChains MoreExamples.platform
                                    (MoreExamples.fresh [1; 137]%Z) tt
  = (Ok [Lifecycle.ErrorOf (Some 1%Z) (Error "No Safe API kit for chain");
         Lifecycle.ErrorOf (Some 137%Z) (Error "No Safe API kit for chain")],
     MoreExamples.fresh [1; 137]%Z, tt,
     [Lifecycle.LogSafeInfoFailed (Some 1%Z);
      Lifecycle.LogSafeInfoFailed (Some 137%Z)]).
Proof.
  destruct (X25_safe_info_per_chain MoreExamples.platform
                                    (MoreExamples.fresh [1; 137]%Z) tt)
    as (l & w' & t & E & _ & _ & H).
  assert (H1 := H (Some 1%Z) ltac:(left; reflexivity)
                  ltac:(intros n E1; reflexivity)).
  rewrite E. vm_compute in E. injection E as <- <- <-. reflexivity.
Defined.

(* ------------------------------------------------------------------ *)
(** ** Startup with an unsupported or empty chain list                 *)
(* ------------------------------------------------------------------ *)

Lemma unsupportedChains_nil (env : Env) : Chains.unsupportedChains env = [].
Proof.
  unfold Chains.unsupportedChains, Chains.getEnabledChains.
  destruct (negb (JS.truthy (ENABLED_CHAINS env))); [reflexivity|].
  apply filter_filter_negb.
Qed.

Lemma constructor_outcome (env : Env) :
  Bot.constructor env
  = match Chains.getEnabledChains env with
    | [] => Throw (Error "No enabled chains configured")
    | l => Ok l
    end.
Proof.
  unfold Bot.constructor, Chains.validateEnabledChains.
  rewrite unsupportedChains_nil. simpl.
  destruct (Chains.getEnabledChains env); reflexivity.
Qed.

Lemma digits_numeral (s : string) (acc : Z) :
  Startup.allDigits s = true -> JS.digits s acc true = Some (Startup.numeral s acc).
Proof.
  revert acc. induction s as [|c r IH]; intros acc H; simpl in *; [reflexivity|].
  apply andb_prop in H. destruct H as [Hc Hr]. rewrite Hc. now apply IH.
Qed.

(** On a run of digits [parseInt] and [Number] find the same chain, and
    on the empty text neither finds one. *)
Lemma Number_parseInt (entry : string) (n : Z) :
  Startup.Number entry = Some n ->
  Chains.hasConfig (JS.parseInt entry) = Chains.hasConfig (Some n).
Proof.
  unfold Startup.Number.
  destruct (Startup.allDigits entry) eqn:Hd; simpl; [|discriminate].
  destruct (String.length entry <=? 15)%nat; [|discriminate].
  intros E. injection E as <-.
  destruct entry as [|c r]; [reflexivity|].
  simpl in Hd. apply andb_prop in Hd. destruct Hd as [Hc Hr].
  assert (P : JS.parseInt (String c r) = Some (Startup.numeral (String c r) 0)).
  { unfold JS.parseInt.
    assert (T : JS.trimStart (String c r) = String c r).
    { simpl. destruct c as [[] [] [] [] [] [] [] []];
        try discriminate Hc; reflexivity. }
    rewrite T.
    assert (D : JS.digits (String c r) 0 false
                = Some (Startup.numeral (String c r) 0)).
    { simpl. rewrite Hc. now apply digits_numeral. }
    destruct c as [[] [] [] [] [] [] [] []];
      try discriminate Hc; exact D. }
  now rewrite P.
Qed.

Lemma numbers_unsupported (entries : list string) (ns : list Z) :
  Startup.numbers entries = Some ns ->
  (forall c, In c ns -> Chains.hasConfig (Some c) = false) ->
  filter Chains.hasConfig (map JS.parseInt entries) = [].
Proof.
  revert ns. induction entries as [|e r IH]; intros ns H U; [reflexivity|].
  simpl in H.
  destruct (Startup.Number e) as [n|] eqn:En; [|discriminate].
  destruct (Startup.numbers r) as [l|] eqn:Er; [|discriminate].
  injection H as <-. simpl.
  rewrite (Number_parseInt e n En), (U n (or_introl eq_refl)).
  apply (IH l eq_refl). intros c Hc. apply U. now right.
Qed.

Lemma numbers_supported (entries : list string) (ns : list Z) :
  Startup.numbers entries = Some ns ->
  (exists c, In c ns /\ Chains.hasConfig (Some c) = true) ->
  filter Chains.hasConfig (map JS.parseInt entries) <> [].
Proof.
  revert ns. induction entries as [|e r IH]; intros ns H (c & Hin & Hc).
  - injection H as <-. contradiction.
  - simpl in H.
    destruct (Startup.Number e) as [n|] eqn:En; [|discriminate].
    destruct (Startup.numbers r) as [l|] eqn:Er; [|discriminate].
    injection H as <-. simpl. rewrite (Number_parseInt e n En).
    destruct (Chains.hasConfig (Some n)) eqn:Hn; [discriminate|].
    destruct Hin as [->|Hin]; [congruence|].
    apply (IH l eq_refl). exists c. auto.
Qed.

Lemma validateConfig_ok (env : Env) (libraries : Startup.Libraries)
      (config : Startup.Config) :
  Startup.validateConfig env libraries = Ok config ->
  exists chains,
    ENABLED_CHAINS env = Some chains /\ chains <> EmptyString
    /\ Startup.enabledChains config = map JS.trim (JS.split "," chains).
Proof.
  unfold Startup.validateConfig.
  destruct (ENABLED_CHAINS env) as [chains|]; [|discriminate].
  destruct (Startup.otherKeys_joi libraries) as [value|]; [|discriminate].
  destruct (String.eqb_spec chains EmptyString) as [|N]; [discriminate|].
  intros E. injection E as <-. exists chains. auto.
Qed.

(** When no entry of the configuration names a supported chain, the
    constructor of the bot throws. *)
Lemma constructor_throws (env : Env) (libraries : Startup.Libraries)
      (config : Startup.Config) (ns : list Z) :
  Startup.validateConfig env libraries = Ok config ->
  Startup.numbers (Startup.enabledChains config) = Some ns ->
  (forall c, In c ns -> Chains.hasConfig (Some c) = false) ->
  Bot.constructor env = Throw (Error "No enabled chains configured").
Proof.
  intros Hv Hn U.
  destruct (validateConfig_ok env libraries config Hv) as (chains & E & N & Ec).
  rewrite constructor_outcome.
  assert (G : Chains.getEnabledChains env = []).
  { unfold Chains.getEnabledChains. rewrite E. simpl JS.truthy.
    destruct (String.eqb_spec chains EmptyString) as [|_]; [contradiction|].
    simpl negb. cbv iota.
    rewrite <- (map_map JS.trim JS.parseInt), <- Ec.
    exact (numbers_unsupported _ ns Hn U). }
  now rewrite G.
Qed.

(** When some entry of the configuration names a supported chain, the
    constructor of the bot does not throw. *)
Lemma constructor_returns (env : Env) (libraries : Startup.Libraries)
      (config : Startup.Config) (ns : list Z) :
  Startup.validateConfig env libraries = Ok config ->
  Startup.numbers (Startup.enabledChains config) = Some ns ->
  (exists c, In c ns /\ Chains.hasConfig (Some c) = true) ->
  exists l, Bot.constructor env = Ok l.
Proof.
  intros Hv Hn S.
  destruct (validateConfig_ok env libraries config Hv) as (chains & E & N & Ec).
  rewrite constructor_outcome.
  assert (G : Chains.getEnabledChains env <> []).
  { unfold Chains.getEnabledChains. rewrite E. simpl JS.truthy.
    destruct (String.eqb_spec chains EmptyString) as [|_]; [contradiction|].
    simpl negb. cbv iota.
    rewrite <- (map_map JS.trim JS.parseInt), <- Ec.
    exact (numbers_supported _ ns Hn S). }
  destruct (Chains.getEnabledChains env) as [|c l]; [contradiction|].
  eexists. reflexivity.
Qed.

Section StartupFacts.

Import Lifecycle.

Context {W : Type}.
Variable platform : Platform W.
Variable api : Bot.Service W.
Variable env : Env.
Variable pollingInterval : Z.

(** [start] on a bot whose service holds a chain without configuration:
    it throws out of the initialization, before the polling job is
    created and before anything is scanned. *)
Lemma start_unsupported (b : SafeRemoteSigner) (w : W) :
  isRunning b = false ->
  (exists c, In c (Bot.enabledChains (safeService b))
             /\ Chains.hasConfig (Some c) = false) ->
  exists e b' w' t,
    start platform api env pollingInterval b w = (Throw e, b', w', t)
    /\ scanned t = [] /\ Startup.jobs t = [].
Proof.
  intros Hrun (c & Hin & Hc).
  unfold start, bind at 1, this. rewrite Hrun.
  unfold tryCatch, bind at 1.
  destruct (initialize_spec platform b w) as (r1 & b1 & w1 & t1 & E1 & _ & R1 & N1).
  pose proof (initialize_jobs platform b w) as J1.
  rewrite E1 in *. simpl in J1.
  destruct r1 as [[]|e].
  - destruct (R1 eq_refl c Hin) as [H _]. congruence.
  - unfold log, emit, throw, bind. simpl.
    do 4 eexists. split; [reflexivity|]. split.
    + life_trace. now rewrite N1.
    + rewrite jobs_app, J1. reflexivity.
Qed.

End StartupFacts.




